(** * METAR field decoder of MetPy ([src/metpy/io/metar.py])

    A shallow embedding of [parse_metar] and of the Python built-ins it
    calls, followed by the properties of the decoder.

    Conventions of the embedding:
    - a Python [str] is a [string]; its characters are the code points
      below 256;
    - a Python [float] is [Py.float]: not-a-number, an infinity, or an exact
      rational ([Q], kept in lowest terms so that equal numbers are equal
      terms).  The rounding and the overflow of IEEE doubles are not part of
      the model;
    - [np.nan] is the float not-a-number: it is the "missing" marker;
    - a Python exception is a constructor of [exn], and a block that may
      raise returns a [result]. *)

From Stdlib Require Import ZArith QArith Qabs List String Ascii Lia Bool.
From stdpp Require Import gmap strings.
Import ListNotations.

(** ** Python built-ins used by the decoder *)

Module Py.

Definition chars (s : string) : list ascii := list_ascii_of_string s.
Definition str (l : list ascii) : string := string_of_list_ascii l.

Definition code (c : ascii) : N := N_of_ascii c.

(** [str.isspace] on one character, for the code points below 256. *)
Definition isspace (c : ascii) : bool :=
  let n := code c in
  ((9 <=? n) && (n <=? 13) || (28 <=? n) && (n <=? 32)
   || (n =? 133) || (n =? 160))%N.

Definition isdigit (c : ascii) : bool :=
  let n := code c in ((48 <=? n) && (n <=? 57))%N.

Definition digit_val (c : ascii) : Z := Z.of_N (code c) - 48.

Definition lower (c : ascii) : ascii :=
  let n := code c in
  if ((65 <=? n) && (n <=? 90))%N then ascii_of_N (n + 32) else c.

Definition is_char (a c : ascii) : bool := Ascii.eqb a c.

(** *** Stripping, slicing, searching *)

Fixpoint lstrip_l (l : list ascii) : list ascii :=
  match l with
  | c :: l' => if isspace c then lstrip_l l' else l
  | [] => []
  end.

Definition strip_l (l : list ascii) : list ascii :=
  rev (lstrip_l (rev (lstrip_l l))).

(** [s.strip()] *)
Definition strip (s : string) : string := str (strip_l (chars s)).

(** [s[a:b]] for literal bounds [0 <= a <= b] *)
Definition slice_l (a b : nat) (l : list ascii) : list ascii :=
  firstn (b - a) (skipn a l).
Definition slice (a b : nat) (s : string) : string :=
  str (slice_l a b (chars s)).

(** [s[a:]] *)
Definition slice_from (a : nat) (s : string) : string :=
  str (skipn a (chars s)).

(** [s[:-k]] *)
Definition drop_last_l (k : nat) (l : list ascii) : list ascii :=
  firstn (List.length l - k) l.
Definition drop_last (k : nat) (s : string) : string :=
  str (drop_last_l k (chars s)).

(** [s[-k:]] *)
Definition last_l (k : nat) (l : list ascii) : list ascii :=
  skipn (List.length l - k) l.
Definition last (k : nat) (s : string) : string :=
  str (last_l k (chars s)).

Fixpoint starts_l (p l : list ascii) : bool :=
  match p, l with
  | [], _ => true
  | a :: p', c :: l' => Ascii.eqb a c && starts_l p' l'
  | _ :: _, [] => false
  end.

Fixpoint contains_l (sub l : list ascii) : bool :=
  starts_l sub l ||
  match l with
  | [] => false
  | _ :: l' => contains_l sub l'
  end.

(** [sub in s] *)
Definition contains (sub s : string) : bool :=
  contains_l (chars sub) (chars s).

(** [s.endswith(suffix)] *)
Definition endswith (s suffix : string) : bool :=
  starts_l (rev (chars suffix)) (rev (chars s)).

(** *** Splitting *)

(** The longest prefix without white space, and what follows it. *)
Fixpoint word_l (l : list ascii) : list ascii * list ascii :=
  match l with
  | c :: l' =>
      if isspace c then ([], l)
      else let (w, r) := word_l l' in (c :: w, r)
  | [] => ([], [])
  end.

(** [s.split()]: the maximal runs of characters that are not white space.
    [cur] is the run being read, last character first. *)
Fixpoint split_l (cur l : list ascii) : list (list ascii) :=
  match l with
  | [] => match cur with [] => [] | _ => [rev cur] end
  | c :: l' =>
      if isspace c
      then match cur with
           | [] => split_l [] l'
           | _ => rev cur :: split_l [] l'
           end
      else split_l (c :: cur) l'
  end.

Definition split (s : string) : list string :=
  map str (split_l [] (chars s)).

(** [s.split(maxsplit=1)]: the first word, then the rest of the string from
    its next character that is not white space (to the very end). *)
Definition split1_l (l : list ascii) : list (list ascii) :=
  match lstrip_l l with
  | [] => []
  | l1 =>
      let (w, r) := word_l l1 in
      match lstrip_l r with
      | [] => [w]
      | r' => [w; r']
      end
  end.

Definition split1 (s : string) : list string := map str (split1_l (chars s)).

(** [s.split(sep, maxsplit=1)] for a one-character separator: cut at its
    first occurrence. *)
Fixpoint cut_l (sep : ascii) (l : list ascii) : option (list ascii * list ascii) :=
  match l with
  | [] => None
  | c :: l' =>
      if Ascii.eqb c sep then Some ([], l')
      else match cut_l sep l' with
           | Some (a, b) => Some (c :: a, b)
           | None => None
           end
  end.

Definition split_at1 (sep : ascii) (s : string) : list string :=
  match cut_l sep (chars s) with
  | Some (a, b) => [str a; str b]
  | None => [s]
  end.

(** *** Numbers *)

Inductive float : Type :=
| Fnan
| Finf (negative : bool)
| Fnum (q : Q).

Definition of_int (z : Z) : float := Fnum (z # 1).

Definition fneg (f : float) : float :=
  match f with
  | Fnan => Fnan
  | Finf s => Finf (negb s)
  | Fnum q => Fnum (Qred (- q))
  end.

Definition Qsign_neg (q : Q) : bool := (Qnum q <? 0)%Z.
Definition Qis_zero (q : Q) : bool := (Qnum q =? 0)%Z.

Definition fadd (a b : float) : float :=
  match a, b with
  | Fnan, _ | _, Fnan => Fnan
  | Finf s, Finf t => if Bool.eqb s t then Finf s else Fnan
  | Finf s, Fnum _ | Fnum _, Finf s => Finf s
  | Fnum p, Fnum q => Fnum (Qred (p + q))
  end.

Definition fmul (a b : float) : float :=
  match a, b with
  | Fnan, _ | _, Fnan => Fnan
  | Finf s, Finf t => Finf (xorb s t)
  | Finf s, Fnum q | Fnum q, Finf s =>
      if Qis_zero q then Fnan else Finf (xorb s (Qsign_neg q))
  | Fnum p, Fnum q => Fnum (Qred (p * q))
  end.

(** [a / b] on floats; [None] stands for [ZeroDivisionError]. *)
Definition fdiv (a b : float) : option float :=
  match a, b with
  | _, Fnum q =>
      if Qis_zero q then None
      else Some (fmul a (Fnum (Qred (/ q))))
  | Fnan, _ | _, Fnan => Some Fnan
  | Finf _, Finf _ => Some Fnan
  | Fnum _, Finf _ => Some (Fnum 0)
  end.

(** [a > b]; every comparison with not-a-number is false. *)
Definition fgt (a b : float) : bool :=
  match a, b with
  | Fnan, _ | _, Fnan => false
  | Finf s, Finf t => negb s && t
  | Finf s, Fnum _ => negb s
  | Fnum _, Finf t => t
  | Fnum p, Fnum q => negb (Qle_bool p q)
  end.

(** A number is an [int] or a [float], as for the accumulator of a sum. *)
Inductive num : Type :=
| NInt (z : Z)
| NFloat (f : float).

Definition to_float (n : num) : float :=
  match n with NInt z => of_int z | NFloat f => f end.

(** [a + b] *)
Definition add (a b : num) : num :=
  match a, b with
  | NInt x, NInt y => NInt (x + y)
  | _, _ => NFloat (fadd (to_float a) (to_float b))
  end.

(** [a / b] on ints (true division); [None] stands for
    [ZeroDivisionError]. *)
Definition truediv (a b : Z) : option float :=
  if (b =? 0)%Z then None else Some (Fnum (Qred ((a # 1) / (b # 1)))).

(** *** [int(s)] and [float(s)] *)

(** A digit separator must stand between two digits.  [prev] is the
    character just read.  The result is the text without its separators. *)
Fixpoint unders (prev : ascii) (l : list ascii) : option (list ascii) :=
  match l with
  | [] => if is_char "_" prev then None else Some []
  | c :: l' =>
      if is_char "_" c
      then if isdigit prev then unders c l' else None
      else if is_char "_" prev && negb (isdigit c) then None
           else match unders c l' with
                | Some r => Some (c :: r)
                | None => None
                end
  end.

Definition digits_value (l : list ascii) : Z :=
  fold_left (fun acc c => 10 * acc + digit_val c)%Z l 0%Z.

Definition all_digits (l : list ascii) : bool :=
  match l with
  | [] => false
  | _ => forallb isdigit l
  end.

(** An optional sign, and what follows it. *)
Definition sign_l (l : list ascii) : bool * list ascii :=
  match l with
  | c :: l' =>
      if is_char "-" c then (true, l')
      else if is_char "+" c then (false, l')
      else (false, l)
  | [] => (false, [])
  end.

(** The white space that [int] and [float] skip around a number: that of
    [str.isspace] but the separators U+001C to U+001F, which they reject. *)
Definition isspace_num (c : ascii) : bool :=
  let n := code c in
  ((9 <=? n) && (n <=? 13) || (n =? 32) || (n =? 133) || (n =? 160))%N.

Fixpoint lstrip_num_l (l : list ascii) : list ascii :=
  match l with
  | c :: l' => if isspace_num c then lstrip_num_l l' else l
  | [] => []
  end.

Definition strip_num_l (l : list ascii) : list ascii :=
  rev (lstrip_num_l (rev (lstrip_num_l l))).

Definition int_l (l : list ascii) : option Z :=
  let (neg, body) := sign_l (strip_num_l l) in
  match unders zero body with
  | Some ds =>
      if all_digits ds
      then Some (if neg then - digits_value ds else digits_value ds)%Z
      else None
  | None => None
  end.

(** [int(s)]; [None] stands for [ValueError]. *)
Definition int (s : string) : option Z := int_l (chars s).

Fixpoint span_digits (l : list ascii) : list ascii * list ascii :=
  match l with
  | c :: l' =>
      if isdigit c then let (d, r) := span_digits l' in (c :: d, r)
      else ([], l)
  | [] => ([], [])
  end.

Definition pow10 (e : Z) : Q :=
  if (0 <=? e)%Z then (10 ^ e # 1) else (1 # Z.to_pos (10 ^ (- e))).

(** The exponent part of a decimal literal: nothing, or [e] or [E], an
    optional sign and at least one digit. *)
Definition exponent_l (l : list ascii) : option Z :=
  match l with
  | [] => Some 0%Z
  | c :: l' =>
      if is_char "e" (lower c)
      then let (neg, ds) := sign_l l' in
           if all_digits ds
           then Some (if neg then - digits_value ds else digits_value ds)%Z
           else None
      else None
  end.

(** A decimal literal without sign: digits, an optional point and digits,
    an optional exponent; at least one digit before the exponent. *)
Definition decimal_l (l : list ascii) : option Q :=
  let (ip, r1) := span_digits l in
  let (fp, r2) :=
    match r1 with
    | c :: r => if is_char "." c then span_digits r else ([], r1)
    | [] => ([], r1)
    end in
  match ip ++ fp with
  | [] => None
  | m =>
      match exponent_l r2 with
      | Some e =>
          Some (Qred ((digits_value m # 1) * pow10 (e - Z.of_nat (List.length fp))))
      | None => None
      end
  end.

Definition float_l (l : list ascii) : option float :=
  match unders zero (strip_num_l l) with
  | None => None
  | Some u =>
      let (neg, body) := sign_l u in
      let name := str (map lower body) in
      if (name =? "inf")%string || (name =? "infinity")%string
      then Some (Finf neg)
      else if (name =? "nan")%string then Some Fnan
      else match decimal_l body with
           | Some q => Some (if neg then fneg (Fnum q) else Fnum q)
           | None => None
           end
  end.

(** [float(s)]; [None] stands for [ValueError]. *)
Definition float_of (s : string) : option float := float_l (chars s).

(** *** Built-ins of the file reader *)

(** [s.startswith(prefix)] *)
Definition startswith (s prefix : string) : bool :=
  starts_l (chars prefix) (chars s).

(** [len(s)] *)
Definition len (s : string) : nat := List.length (chars s).

(** [sep.join(parts)] on lists of characters *)
Fixpoint join_l (sep : list ascii) (parts : list (list ascii)) : list ascii :=
  match parts with
  | [] => []
  | [p] => p
  | p :: rest => p ++ sep ++ join_l sep rest
  end.

Definition join (sep : string) (parts : list string) : string :=
  str (join_l (chars sep) (map chars parts)).

End Py.

(** ** Unit conversions

    The conversions are done by the units registry of the [pint] library,
    which is not part of this repository.  Its definitions are:
    [mile = 1760 yard], [yard = 3 foot], [foot = 12 inch],
    [inch = 2.54 cm]; and [inch_Hg = inch * Hg * g_0] with
    [Hg = 13.5951 kg/l] and [g_0 = 9.80665 m/s^2]. *)

Module Units.

Definition meter_per_mile : Q := Qred (1760 * 3 * 12 * (254 # 10000)).

Definition pascal_per_inHg : Q :=
  Qred ((254 # 10000) * (135951 # 10) * (980665 # 100000)).

Definition pascal_per_hPa : Q := 100.

(** [units.Quantity(v, 'miles').m_as('meter')] *)
Definition miles_to_meter (v : Py.num) : Py.float :=
  Py.fmul (Py.to_float v) (Py.Fnum meter_per_mile).

(** [units.Quantity(n, 'hPa').to('inHg').m] *)
Definition hPa_to_inHg (n : Z) : Py.float :=
  Py.fmul (Py.of_int n) (Py.Fnum (Qred (pascal_per_hPa / pascal_per_inHg))).

End Units.

(** ** Exceptions and results *)

Inductive exn : Type :=
| ParseError
| KeyError
| IndexError
| ValueError
| TypeError
| AttributeError
| ZeroDivisionError
| OverflowError.

Definition exn_eqb (a b : exn) : bool :=
  match a, b with
  | ParseError, ParseError | KeyError, KeyError | IndexError, IndexError
  | ValueError, ValueError | TypeError, TypeError
  | AttributeError, AttributeError
  | ZeroDivisionError, ZeroDivisionError
  | OverflowError, OverflowError => true
  | _, _ => false
  end.

Inductive result (A : Type) : Type :=
| Ok (a : A)
| Raise (e : exn).

Arguments Ok {A} a.
Arguments Raise {A} e.

(** Sequencing: an exception ends the block.  With these instances the
    notation [x ← m; k] reads "run [m], name its outcome [x], go on with
    [k]". *)
#[global] Instance result_ret : MRet result := fun A a => Ok a.
#[global] Instance result_bind : MBind result := fun A B k m =>
  match m with
  | Ok a => k a
  | Raise e => Raise e
  end.

(** [try: body  except (handled): handler] *)
Definition try_except {A : Type} (body : result A) (handled : list exn)
    (handler : result A) : result A :=
  match body with
  | Ok a => Ok a
  | Raise e => if existsb (exn_eqb e) handled then handler else Raise e
  end.

(** An optional outcome, with the exception that its absence stands for. *)
Definition or_raise {A : Type} (e : exn) (o : option A) : result A :=
  match o with
  | Some a => Ok a
  | None => Raise e
  end.

Definition int (s : string) : result Z := or_raise ValueError (Py.int s).
Definition float (s : string) : result Py.float :=
  or_raise ValueError (Py.float_of s).

(** ** [datetime.datetime(year, month, day, hour, minute)] *)

Record datetime : Type := Datetime {
  dt_year : Z; dt_month : Z; dt_day : Z; dt_hour : Z; dt_minute : Z
}.

Definition is_leap (y : Z) : bool :=
  ((y mod 4 =? 0) && (negb (y mod 100 =? 0) || (y mod 400 =? 0)))%Z.

Definition days_in_month (y m : Z) : Z :=
  (if m =? 2 then (if is_leap y then 29 else 28)
   else if (m =? 4) || (m =? 6) || (m =? 9) || (m =? 11) then 30
   else 31)%Z.

(** The arguments are read as C [int]s. *)
Definition fits_c_int (z : Z) : bool :=
  ((- 2 ^ 31 <=? z) && (z <? 2 ^ 31))%Z.

Definition between (lo z hi : Z) : bool := ((lo <=? z) && (z <=? hi))%Z.

Definition new_datetime (year month day hour minute : Z) : result datetime :=
  if negb (forallb fits_c_int [year; month; day; hour; minute])
  then Raise OverflowError
  else if between 1 year 9999 && between 1 month 12
          && between 1 day (days_in_month year month)
          && between 0 hour 23 && between 0 minute 59
       then Ok (Datetime year month day hour minute)
       else Raise ValueError.

(** ** Values, the parse tree and the record of a report *)

(** What a field of the record can hold. *)
Inductive value : Type :=
| VInt (z : Z)
| VFloat (f : Py.float)
| VStr (s : string)
| VDatetime (d : datetime).

(** [np.nan], the marker of a missing field *)
Definition nan : value := VFloat Py.Fnan.

(** The parse tree, as far as [parse_metar] reads it.  The parser is
    generated from a grammar and lives in its own module
    ([_metar_parser]); here a node is its [text], and the two nodes with
    named children carry the text of those children as well.  In Python a
    node that matched the empty text has no children: [parse_metar] reads
    the children of the wind and of the temperature group only after it
    has found the text of the group not to be empty. *)
Record wind_node : Type := WindNode {
  wind_text : string;    (* tree.wind.text *)
  wind_dir : string;     (* tree.wind.wind_dir.text *)
  wind_spd : string      (* tree.wind.wind_spd.text *)
}.

Record temp_dewp_node : Type := TempDewpNode {
  temp_dewp_text : string;   (* tree.temp_dewp.text *)
  temp : string;             (* tree.temp_dewp.temp.text *)
  dewp : string              (* tree.temp_dewp.dewp.text *)
}.

Record tree : Type := Tree {
  siteid : string;
  datetime_text : string;    (* tree.datetime.text *)
  wind : wind_node;
  vis : string;
  curwx : string;
  skyc : string;
  temp_dewp : temp_dewp_node;
  altim : string
}.

Module Station.
Record t : Type := Make {
  latitude : Py.float;
  longitude : Py.float;
  altitude : Py.float
}.
End Station.

Record Metar : Type := mkMetar {
  station_id : string;
  latitude : value;
  longitude : value;
  elevation : value;
  date_time : value;
  wind_direction : value;
  wind_speed : value;
  visibility : value;
  current_wx1 : value;
  current_wx2 : value;
  current_wx3 : value;
  skyc1 : value;
  skylev1 : value;
  skyc2 : value;
  skylev2 : value;
  skyc3 : value;
  skylev3 : value;
  skyc4 : value;
  skylev4 : value;
  cloudcover : value;
  temperature : value;
  dewpoint : value;
  altimeter : value;
  current_wx1_symbol : value;
  current_wx2_symbol : value;
  current_wx3_symbol : value
}.

(** [l[i]], raising [IndexError] out of range *)
Definition index {A : Type} (l : list A) (i : nat) : result A :=
  or_raise IndexError (l !! i).

(** [d[k]] on a dict with string keys, raising [KeyError]; a key that is
    not a string (such as [np.nan]) is in no such dict. *)
Definition getitem {A : Type} (d : gmap string A) (k : value) : result A :=
  match k with
  | VStr s => or_raise KeyError (d !! s)
  | _ => Raise KeyError
  end.

(** ** [parse_metar], block by block

    Each definition below is one block of the body of [parse_metar], in the
    order of the source; it yields the variables the block assigns. *)

Section Decoder.

(** The parser generated from the grammar ([parse], which raises
    [ParseError] or returns the tree) and the table of weather codes
    ([wx_code_map] of [metpy.plots.wx_symbols]) are imported from other
    modules: the decoder is defined for any of them. *)
Variable parse : string -> option tree.
Variable wx_code_map : gmap string Z.

(** Latitude, longitude and elevation of the station *)
Definition station_block (station_metadata : gmap string Station.t)
    (t : tree) : result (value * value * value) :=
  try_except
    (s1 ← getitem station_metadata (VStr (Py.strip (siteid t)));
     let lat := VFloat (Station.latitude s1) in
     s2 ← getitem station_metadata (VStr (Py.strip (siteid t)));
     let lon := VFloat (Station.longitude s2) in
     s3 ← getitem station_metadata (VStr (Py.strip (siteid t)));
     let elev := VFloat (Station.altitude s3) in
     Ok (lat, lon, elev))
    [KeyError]
    (Ok (nan, nan, nan)).

(** Date and time *)
Definition date_time_block (year month : Z) (t : tree) : result value :=
  try_except
    (let day_time_utc := Py.strip (Py.drop_last 1 (datetime_text t)) in
     day ← int (Py.slice 0 2 day_time_utc);
     hour ← int (Py.slice 2 4 day_time_utc);
     minute ← int (Py.slice 4 7 day_time_utc);
     d ← new_datetime year month day hour minute;
     Ok (VDatetime d))
    [AttributeError; ValueError]
    (Ok nan).

(** Wind direction and speed *)
Definition wind_block (t : tree) : result (value * value) :=
  let w := wind t in
  try_except
    (if Py.contains "/" (wind_text w) || (wind_text w =? "KT")%string
        || (wind_text w =? "")%string
     then Ok (nan, nan)
     else if (wind_dir w =? "VRB")%string || (wind_dir w =? "VAR")%string
     then spd ← float (wind_spd w);
          Ok (nan, VFloat spd)
     else dir ← int (wind_dir w);
          spd ← int (wind_spd w);
          Ok (VInt dir, VInt spd))
    [ValueError]
    (Ok (nan, nan)).

(** Visibility.  [visibility] starts at 0 and is added to twice. *)
Definition visibility_block (t : tree) : result value :=
  if Py.endswith (vis t) "SM" then
    let visibility := Py.NInt 0 in
    let vis_str := Py.strip (Py.drop_last 2 (vis t)) in
    '(visibility, vis_str) ←
      (if Py.contains " " vis_str
       then match Py.split1 vis_str with
            | [whole; rest] =>
                w ← int whole;
                Ok (Py.add visibility (Py.NInt w), rest)
            | _ => Raise ValueError
            end
       else Ok (visibility, vis_str));
    visibility ←
      (if Py.contains "/" vis_str
       then match Py.split_at1 "/" vis_str with
            | [num; denom] =>
                n ← int num;
                d ← int denom;
                q ← or_raise ZeroDivisionError (Py.truediv n d);
                Ok (Py.add visibility (Py.NFloat q))
            | _ => Raise ValueError
            end
       else n ← int vis_str;
            Ok (Py.add visibility (Py.NInt n)));
    Ok (VFloat (Units.miles_to_meter visibility))
  else if Py.contains "CAVOK" (vis t) then Ok (VInt 10000)
  else if (vis t =? "")%string || (Py.strip (vis t) =? "////")%string
  then Ok nan
  else n ← int (Py.slice 0 4 (Py.strip (vis t)));
       Ok (VInt n).

(** [wx = [nan, nan, nan]; wx[0:len(tokens)] = tokens] *)
Definition wx_list (tokens : list string) : list value :=
  map VStr tokens ++ skipn (List.length tokens) [nan; nan; nan].

(** [try: int(wx_code_map[wx[i]])  except (IndexError, KeyError): 0] *)
Definition wx_symbol (wx : list value) (i : nat) : result value :=
  try_except
    (key ← index wx i;
     code ← getitem wx_code_map key;
     Ok (VInt code))
    [IndexError; KeyError]
    (Ok (VInt 0)).

(** Present weather: the three codes, then their three symbols *)
Definition current_wx_block (t : tree)
    : result ((value * value * value) * (value * value * value)) :=
  if (curwx t =? "")%string || (Py.strip (curwx t) =? "//")%string
  then Ok ((nan, nan, nan), (VInt 0, VInt 0, VInt 0))
  else
    let wx := wx_list (Py.split (Py.strip (curwx t))) in
    current_wx1 ← index wx 0;
    current_wx2 ← index wx 1;
    current_wx3 ← index wx 2;
    current_wx1_symbol ← wx_symbol wx 0;
    current_wx2_symbol ← wx_symbol wx 1;
    current_wx3_symbol ← wx_symbol wx 2;
    Ok ((current_wx1, current_wx2, current_wx3),
        (current_wx1_symbol, current_wx2_symbol, current_wx3_symbol)).

(** The type of layer [i]: [skyc[i][0:3]], or [nan] *)
Definition sky_type (skyc : list string) (i : nat) (handled : list exn)
    : result value :=
  try_except
    (layer ← index skyc i;
     let skyc_i := Py.slice 0 3 layer in
     if Py.contains "/" skyc_i then Ok nan else Ok (VStr skyc_i))
    handled
    (Ok nan).

(** The height of layer [i]: [float(skyc[i][3:]) * 100], or [nan] *)
Definition sky_level (skyc : list string) (i : nat) : result value :=
  try_except
    (layer ← index skyc i;
     let skylev_i := Py.slice_from 3 layer in
     if Py.contains "/" skylev_i then Ok nan
     else f ← float skylev_i;
          Ok (VFloat (Py.fmul f (Py.of_int 100))))
    [IndexError; ValueError; TypeError]
    (Ok nan).

(** Sky conditions: [skyc1, skylev1, ..., skyc4, skylev4] *)
Definition sky_block (t : tree)
    : result (value * value * value * value * value * value * value * value) :=
  if (Py.slice 1 3 (skyc t) =? "VV")%string then
    let skyc1 := VStr "VV" in
    let level := Py.slice_from 2 (Py.strip (skyc t)) in
    skylev1 ← (if (level =? "///")%string then Ok nan
               else n ← int level; Ok (VInt (100 * n)));
    let skyc2 := nan in
    let skylev2 := nan in
    let skyc3 := nan in
    let skylev3 := nan in
    let skyc4 := nan in
    let skylev4 := nan in
    Ok (skyc1, skylev1, skyc2, skylev2, skyc3, skylev3, skyc4, skylev4)
  else
    let skyc := Py.split (Py.strip (skyc t)) in
    skyc1 ← sky_type skyc 0 [IndexError; ValueError; TypeError];
    skylev1 ← sky_level skyc 0;
    skyc2 ← sky_type skyc 1 [IndexError; ValueError; TypeError];
    skylev2 ← sky_level skyc 1;
    skyc3 ← sky_type skyc 2 [IndexError; ValueError];
    skylev3 ← sky_level skyc 2;
    skyc4 ← sky_type skyc 3 [IndexError; ValueError; TypeError];
    skylev4 ← sky_level skyc 3;
    Ok (skyc1, skylev1, skyc2, skylev2, skyc3, skylev3, skyc4, skylev4).

(** Cloud cover, in oktas *)
Definition cloudcover_block (t : tree) : Z :=
  if Py.contains "OVC" (skyc t) || Py.contains "VV" (skyc t) then 8
  else if Py.contains "BKN" (skyc t) then 6
  else if Py.contains "SCT" (skyc t) then 4
  else if Py.contains "FEW" (skyc t) then 2
  else if Py.contains "SKC" (skyc t) || Py.contains "NCD" (skyc t)
          || Py.contains "NSC" (skyc t) || Py.contains "CLR" (skyc t)
          || Py.contains "CAVOK" (vis t) then 0
  else 10.

(** One of the two halves of the temperature group *)
Definition temp_value (text : string) : result value :=
  try_except
    (if Py.contains "M" text
     then f ← float (Py.last 2 text);
          Ok (VFloat (Py.fmul (Py.of_int (-1)) f))
     else f ← float (Py.last 2 text);
          Ok (VFloat f))
    [ValueError]
    (Ok nan).

(** Temperature and dew point *)
Definition temp_dewp_block (t : tree) : result (value * value) :=
  let td := temp_dewp t in
  if (temp_dewp_text td =? "")%string || (temp_dewp_text td =? " MM/MM")%string
  then Ok (nan, nan)
  else
    temp ← temp_value (temp td);
    dewp ← temp_value (dewp td);
    Ok (temp, dewp).

(** Altimeter setting *)
Definition altimeter_block (t : tree) : result value :=
  if (altim t =? "")%string then Ok nan
  else
    f ← float (Py.slice 1 5 (Py.strip (altim t)));
    if Py.fgt f (Py.of_int 1100)
    then f' ← float (Py.slice 1 5 (Py.strip (altim t)));
         q ← or_raise ZeroDivisionError (Py.fdiv f' (Py.of_int 100));
         Ok (VFloat q)
    else n ← int (Py.slice 1 5 (Py.strip (altim t)));
         Ok (VFloat (Units.hPa_to_inHg n)).

(** The body of [parse_metar] once the text is parsed *)
Definition decode (t : tree) (year month : Z)
    (station_metadata : gmap string Station.t) : result Metar :=
  let station_id := Py.strip (siteid t) in
  '(lat, lon, elev) ← station_block station_metadata t;
  date_time ← date_time_block year month t;
  '(wind_dir, wind_spd) ← wind_block t;
  visibility ← visibility_block t;
  '((current_wx1, current_wx2, current_wx3),
    (current_wx1_symbol, current_wx2_symbol, current_wx3_symbol)) ←
    current_wx_block t;
  '(skyc1, skylev1, skyc2, skylev2, skyc3, skylev3, skyc4, skylev4) ←
    sky_block t;
  let cloudcover := VInt (cloudcover_block t) in
  '(temp, dewp) ← temp_dewp_block t;
  altim ← altimeter_block t;
  Ok (mkMetar station_id lat lon elev date_time wind_dir wind_spd visibility
        current_wx1 current_wx2 current_wx3 skyc1 skylev1 skyc2 skylev2
        skyc3 skylev3 skyc4 skylev4 cloudcover temp dewp altim
        current_wx1_symbol current_wx2_symbol current_wx3_symbol).

Definition parse_metar (metar_text : string) (year month : Z)
    (station_metadata : gmap string Station.t) : result Metar :=
  t ← or_raise ParseError (parse metar_text);
  decode t year month station_metadata.

End Decoder.

(** ** [_metars_to_dataframe]

    The year and the month default to those of the clock; a report the
    parser rejects is skipped, any other exception ends the loop.  The
    list [metars] is then made into a table: [pd.DataFrame(metars)] of an
    empty list is a table without columns, in which
    [df.set_index('station_id')] finds no column of that name and raises
    [KeyError].  What is made of a list that holds a record (the renamed
    columns, the rows dropped as duplicates, the derived and rounded
    columns) is the work of pandas and of [metpy.calc], which are not part
    of this source: [table_of] stands for it. *)

Section Dataframe.

Variable parse : string -> option tree.
Variable wx_code_map : gmap string Z.
Variable station_info : gmap string Station.t.

Variable DataFrame : Type.
Variable table_of : list Metar -> result DataFrame.

(** [now] is what [datetime.now()] returns. *)
Definition year_month (now : datetime) (year month : option Z) : Z * Z :=
  match year, month with
  | Some y, Some m => (y, m)
  | _, _ => (default (dt_year now) year, default (dt_month now) month)
  end.

Fixpoint parse_each (metar_iter : list string) (year month : Z)
    : result (list Metar) :=
  match metar_iter with
  | [] => Ok []
  | metar :: rest =>
      match parse_metar parse wx_code_map metar year month station_info with
      | Ok o => metars ← parse_each rest year month; Ok (o :: metars)
      | Raise ParseError => parse_each rest year month
      | Raise e => Raise e
      end
  end.

(** The function up to the end of its loop: the list [metars]. *)
Definition metars_loop (now : datetime) (metar_iter : list string)
    (year month : option Z) : result (list Metar) :=
  let '(y, m) := year_month now year month in
  parse_each metar_iter y m.

Definition metars_to_dataframe (now : datetime) (metar_iter : list string)
    (year month : option Z) : result DataFrame :=
  metars ← metars_loop now metar_iter year month;
  match metars with
  | [] => Raise KeyError
  | _ :: _ => table_of metars
  end.

End Dataframe.

(** ** [parse_metar_file] and [parse_metar_to_dataframe]

    A file is the list of its lines, as the iteration over the open file
    yields them.  [full_metars] is a generator: the list below holds what
    it yields, in order. *)

(** The loop of [full_metars]: [tmp] holds the lines of the report being
    read. *)
Fixpoint full_metars_from (prefix : string) (tmp : list string)
    (x : list string) : list string :=
  match x with
  | [] =>
      match tmp with
      | [] => []
      | _ => [Py.join " " tmp]
      end
  | i :: x' =>
      if (Py.strip i =? "")%string then full_metars_from prefix tmp x'
      else if negb (Py.startswith i prefix)
              && match tmp with [] => false | _ => true end
      then Py.join " " tmp :: full_metars_from prefix [Py.strip i] x'
      else full_metars_from prefix (tmp ++ [Py.strip i]) x'
  end.

Definition full_metars (x : list string) : list string :=
  full_metars_from "     " [] x.

Section Files.

Variable parse : string -> option tree.
Variable wx_code_map : gmap string Z.
Variable station_info : gmap string Station.t.

Variable DataFrame : Type.
Variable table_of : list Metar -> result DataFrame.

Definition parse_metar_file (now : datetime) (myfile : list string)
    (year month : option Z) : result DataFrame :=
  metars_to_dataframe parse wx_code_map station_info DataFrame table_of now
    (List.filter (fun m => (25 <? Py.len m)%nat) (full_metars myfile))
    year month.

Definition parse_metar_to_dataframe (now : datetime) (metar_text : string)
    (year month : option Z) : result DataFrame :=
  metars_to_dataframe parse wx_code_map station_info DataFrame table_of now
    [metar_text] year month.

End Files.

(** ** The decoder as the specification words it *)

(** Some keyword of the list occurs in the text. *)
Definition mentions (keywords : list string) (text : string) : bool :=
  existsb (fun k => Py.contains k text) keywords.

(** Coverage keywords and their oktas, strongest first. *)
Definition coverage_precedence : list (list string * Z) :=
  [ (["OVC"; "VV"], 8); (["BKN"], 6); (["SCT"], 4); (["FEW"], 2) ]%Z.

Definition clear_codes : list string := ["SKC"; "NCD"; "NSC"; "CLR"].

Fixpoint first_mentioned (rules : list (list string * Z)) (text : string)
    : option Z :=
  match rules with
  | [] => None
  | (keywords, oktas) :: rules' =>
      if mentions keywords text then Some oktas
      else first_mentioned rules' text
  end.

Definition cloud_coverage_spec (sky_text vis_text : string) : Z :=
  match first_mentioned coverage_precedence sky_text with
  | Some oktas => oktas
  | None =>
      if mentions clear_codes sky_text || Py.contains "CAVOK" vis_text
      then 0 else 10
  end.

(** One half of the temperature group: the float formed from its last two
    characters, negated when the half holds an [M]; missing when those two
    characters are not a number. *)
Definition sub_token_spec (text : string) : value :=
  match Py.float_of (Py.last 2 text) with
  | Some f => VFloat (if Py.contains "M" text then Py.fneg f else f)
  | None => nan
  end.



(** The visibility group as the specification words it.  The text before
    [SM] is an optional whole part, then a fraction or an integer. *)
Definition whole_part (body : string) : result (Z * string) :=
  if Py.contains " " body
  then match Py.split1 body with
       | [whole; rest] => w ← int whole; Ok (w, rest)
       | _ => Raise ValueError
       end
  else Ok (0%Z, body).

Definition fraction_part (rest : string) : result Q :=
  if Py.contains "/" rest
  then match Py.split_at1 "/" rest with
       | [num; denom] =>
           n ← int num;
           d ← int denom;
           if (d =? 0)%Z then Raise ZeroDivisionError
           else Ok ((n # 1) / (d # 1))%Q
       | _ => Raise ValueError
       end
  else n ← int rest; Ok (n # 1).

Definition meters_of_miles (miles : Q) : value :=
  VFloat (Py.Fnum (Qred (miles * Units.meter_per_mile))).

Definition visibility_spec (text : string) : result value :=
  if Py.endswith text "SM"
  then '(whole, rest) ← whole_part (Py.strip (Py.drop_last 2 text));
       fraction ← fraction_part rest;
       Ok (meters_of_miles ((whole # 1) + fraction))
  else if Py.contains "CAVOK" text then Ok (VInt 10000)
  else if (text =? "")%string || (Py.strip text =? "////")%string then Ok nan
  else n ← int (Py.slice 0 4 (Py.strip text)); Ok (VInt n).

(** ** Vocabulary of the properties *)

(** [x] is the number [shown], as far as the decimals of [shown] go: the
    two differ by at most one [unit] of the last decimal. *)
Definition agrees_to (unit shown x : Q) : Prop :=
  (Qabs (x - shown) <= unit)%Q.


(** The characters that can occur in a text that [int] or [float]
    accepts: white space, digits, signs, the separator, the point and the
    letters of an exponent, of [inf], [infinity] and [nan]. *)
Definition numeric_char (c : ascii) : bool :=
  Py.isspace c || Py.isdigit c
  || existsb (Ascii.eqb c) (Py.chars "+-_.")
  || existsb (Ascii.eqb (Py.lower c)) (Py.chars "infinityae").

(** A text of decimal digits, at least one, and the number it writes. *)
Definition digits (s : string) : Prop := Py.all_digits (Py.chars s) = true.
Definition number (s : string) : Z := Py.digits_value (Py.chars s).

(** A text of white space only (possibly empty). *)
Definition blank (s : string) : Prop :=
  forallb Py.isspace (Py.chars s) = true.

(** The first character of the text is not white space. *)
Definition starts_nonspace (l : list ascii) : Prop :=
  match l with
  | c :: _ => Py.isspace c = false
  | [] => False
  end.

(** What the symbol of one weather slot has to be, given the code of the
    slot. *)
Definition symbol_ok (wx_code_map : gmap string Z) (wx symbol : value)
    : Prop :=
  exists z : Z,
    symbol = VInt z /\ (0 <= z)%Z /\
    (wx = nan -> z = 0%Z) /\
    (forall code, wx = VStr code -> wx_code_map !! code = None -> z = 0%Z).

(** ** Sample reports

    A report and a parse tree for it: every group keeps the blank that
    precedes it, except the wind group, as the tests of [parse_metar] on
    the text of the groups expect. *)

Definition sample_text : string :=
  "KDEN 121253Z 28015KT 1 1/4SM -RA BR FEW050 OVC100 M05/M07 A2992".

Definition sample_tree : tree :=
  Tree "KDEN" " 121253Z" (WindNode "28015KT" "280" "15") " 1 1/4SM"
       " -RA BR" " FEW050 OVC100" (TempDewpNode " M05/M07" "M05" "M07")
       " A2992".

Definition sample_parse (text : string) : option tree :=
  if (text =? sample_text)%string then Some sample_tree else None.

Definition sample_wx_code_map : gmap string Z :=
  {[ "-RA" := 61%Z; "BR" := 10%Z; "FG" := 45%Z ]}.

Definition sample_stations : gmap string Station.t :=
  {[ "KDEN" := Station.Make (Py.Fnum (3985 # 100)) (Py.Fnum (- 10466 # 100))
                            (Py.Fnum 1640) ]}.

Definition sample_metar : Metar :=
  Eval vm_compute in
  match parse_metar sample_parse sample_wx_code_map sample_text 2020 5
                    sample_stations with
  | Ok o => o
  | Raise _ =>
      mkMetar "" nan nan nan nan nan nan nan nan nan nan nan nan nan nan nan
              nan nan nan nan nan nan nan nan nan nan
  end.


(** The sample tree with another visibility group. *)
Definition with_vis (t : tree) (v : string) : tree :=
  Tree (siteid t) (datetime_text t) (wind t) v (curwx t) (skyc t)
       (temp_dewp t) (altim t).

(** The sample tree with another sky group. *)
Definition with_skyc (t : tree) (s : string) : tree :=
  Tree (siteid t) (datetime_text t) (wind t) (vis t) (curwx t) s
       (temp_dewp t) (altim t).






(** A report whose visibility group is a fraction with denominator 0. *)
Definition garbled_text : string :=
  "KDEN 121253Z 28015KT 1/0SM -RA BR FEW050 OVC100 M05/M07 A2992".

Definition garbled_tree : tree := with_vis sample_tree " 1/0SM".

Definition garbled_parse (text : string) : option tree :=
  if (text =? garbled_text)%string then Some garbled_tree
  else sample_parse text.

(** ** Vocabulary of the further properties *)

(** A token: a text that is not empty and holds no white space. *)
Definition token (s : string) : Prop :=
  s <> "" /\ forall c, In c (Py.chars s) -> Py.isspace c = false.

(** The symbol that goes with the content of a weather slot. *)
Definition symbol_of (wx_code_map : gmap string Z) (wx : value) : value :=
  match wx with
  | VStr code => VInt (default 0%Z (wx_code_map !! code))
  | _ => VInt 0
  end.

(** What the type of a sky layer can be: missing, or a text of one to
    three characters without filler. *)
Definition layer_type_ok (v : value) : Prop :=
  v = nan \/
  exists s, v = VStr s /\ s <> "" /\ (Py.len s <= 3)%nat /\
            Py.contains "/" s = false.

(** The oktas that go with the type of a layer. *)
Definition layer_oktas (s : string) : Z :=
  if (s =? "OVC")%string || (s =? "VV")%string then 8
  else if (s =? "BKN")%string then 6
  else if (s =? "SCT")%string then 4
  else if (s =? "FEW")%string then 2
  else 0.

(** Every character, and a check that [float] reads a text of at most two
    characters as nothing or as a number between -99 and 99. *)
Definition all_chars : list ascii := map ascii_of_nat (seq 0 256).

Definition small_float (o : option Py.float) : bool :=
  match o with
  | None => true
  | Some (Py.Fnum q) => Qle_bool (-99) q && Qle_bool q 99
  | Some _ => false
  end.

Definition short_texts_small : bool :=
  small_float (Py.float_l [])
  && forallb (fun a =>
                small_float (Py.float_l [a])
                && forallb (fun b => small_float (Py.float_l [a; b]))
                           all_chars)
             all_chars.

(** A temperature: missing, or a number between -99 and 99. *)
Definition temperature_ok (v : value) : Prop :=
  v = nan \/ exists q, v = VFloat (Py.Fnum q) /\ (-99 <= q <= 99)%Q.


(** ** Vocabulary of the file reader *)

(** A line that the reader skips, and a line that continues a report. *)
Definition is_blank (line : string) : bool := (Py.strip line =? "")%string.
Definition continues (line : string) : bool := Py.startswith line "     ".

(** The words of a list of texts, in order. *)
Definition words (texts : list string) : list string :=
  concat (map Py.split texts).

(** A text that begins and ends with a character that is not white space. *)
Definition clean (l : list ascii) : Prop :=
  starts_nonspace l /\ starts_nonspace (rev l).

Definition stripped (text : string) : Prop :=
  text <> "" /\ Py.strip text = text.

(** ** Vocabulary of a batch of reports *)

Section Batch.

Variable parse : string -> option tree.
Variable wx_code_map : gmap string Z.
Variable station_info : gmap string Station.t.

(** A report that does not end the loop: it is decoded, or the parser
    rejects it. *)
Definition survives (year month : Z) (report : string) : Prop :=
  forall e,
    parse_metar parse wx_code_map report year month station_info = Raise e ->
    e = ParseError.

(** The records of the reports that are decoded, in the order of the
    reports. *)
Definition accepted (reports : list string) (year month : Z) : list Metar :=
  flat_map
    (fun report =>
       match parse_metar parse wx_code_map report year month station_info with
       | Ok o => [o]
       | Raise _ => []
       end)
    reports.

End Batch.

(** A clock, and the batch of the sample report read in May with the year
    of the clock. *)
Definition sample_now : datetime := Datetime 2026 11 4 12 0.

Definition sample_batch : list Metar :=
  Eval vm_compute in
  match metars_loop sample_parse sample_wx_code_map sample_stations
                    sample_now [sample_text] None (Some 5%Z) with
  | Ok rs => rs
  | Raise _ => []
  end.

(** A table that is the list of its records, as they are. *)
Definition sample_table_of (metars : list Metar) : result (list Metar) :=
  Ok metars.

(** ** Facts shared by the properties *)

Lemma bind_Ok {A B : Type} (m : result A) (k : A -> result B) (b : B) :
  (x ← m; k x) = Ok b -> exists a, m = Ok a /\ k a = Ok b.
Proof.
  destruct m as [a|e]; simpl; intros H; [eauto | discriminate].
Qed.

Lemma sample_metar_parsed :
  parse_metar sample_parse sample_wx_code_map sample_text 2020 5
              sample_stations = Ok sample_metar.
Proof. vm_compute. reflexivity. Qed.

Section DecodeFacts.

Variable parse : string -> option tree.
Variable wx_code_map : gmap string Z.

(** A decoded record holds, field by field, what the blocks yield. *)
Lemma decode_Ok t year month stations o :
  decode wx_code_map t year month stations = Ok o ->
  station_id o = Py.strip (siteid t) /\
  station_block stations t = Ok (latitude o, longitude o, elevation o) /\
  date_time_block year month t = Ok (date_time o) /\
  wind_block t = Ok (wind_direction o, wind_speed o) /\
  visibility_block t = Ok (visibility o) /\
  current_wx_block wx_code_map t =
    Ok ((current_wx1 o, current_wx2 o, current_wx3 o),
        (current_wx1_symbol o, current_wx2_symbol o, current_wx3_symbol o)) /\
  sky_block t =
    Ok (skyc1 o, skylev1 o, skyc2 o, skylev2 o, skyc3 o, skylev3 o,
        skyc4 o, skylev4 o) /\
  cloudcover o = VInt (cloudcover_block t) /\
  temp_dewp_block t = Ok (temperature o, dewpoint o) /\
  altimeter_block t = Ok (altimeter o).
Proof.
  unfold decode. intros H.
  apply bind_Ok in H as ([[lat lon] elev] & -> & H).
  apply bind_Ok in H as (dt & -> & H).
  apply bind_Ok in H as ([wd ws] & -> & H).
  apply bind_Ok in H as (v & -> & H).
  apply bind_Ok in H as ([[[w1 w2] w3] [[s1 s2] s3]] & -> & H).
  apply bind_Ok in H as ([[[[[[[c1 l1] c2] l2] c3] l3] c4] l4] & -> & H).
  apply bind_Ok in H as ([tp dp] & -> & H).
  apply bind_Ok in H as (al & -> & H).
  injection H as <-. simpl. repeat split.
Qed.

(** A report is decoded when the parser accepts it and every block of the
    decoder runs to its end. *)
Lemma parse_metar_Ok text year month stations o :
  parse_metar parse wx_code_map text year month stations = Ok o ->
  exists t, parse text = Some t /\
            decode wx_code_map t year month stations = Ok o.
Proof.
  unfold parse_metar. intros H.
  apply bind_Ok in H as (t & Ht & H).
  exists t. split; [| exact H].
  destruct (parse text); [injection Ht as -> | discriminate]. reflexivity.
Qed.

End DecodeFacts.

(** From "the report is decoded to [o]" (hypothesis [H]) and "its tree is
    [t]" (hypothesis [Ht]) to what each block yields. *)
Ltac decoded H Ht :=
  let t' := fresh "t" in
  let Ht' := fresh "Ht" in
  apply parse_metar_Ok in H as (t' & Ht' & H);
  rewrite Ht in Ht'; injection Ht' as <-;
  apply decode_Ok in H.

(** ** Characters of the texts that [int] and [float] accept *)

#[local] Arguments Ascii.eqb : simpl never.
#[local] Arguments String.eqb : simpl never.
#[local] Arguments Py.isspace : simpl never.
#[local] Arguments Py.isspace_num : simpl never.
#[local] Arguments Py.isdigit : simpl never.
#[local] Arguments Py.lower : simpl never.
#[local] Arguments Py.is_char : simpl never.

Lemma chars_str l : Py.chars (Py.str l) = l.
Proof. apply list_ascii_of_string_of_list_ascii. Qed.

Lemma str_chars s : Py.str (Py.chars s) = s.
Proof. apply string_of_list_ascii_of_string. Qed.

Lemma contains_l_char c l : Py.contains_l [c] l = true <-> In c l.
Proof.
  induction l as [|a l IH]; simpl.
  - split; [discriminate | tauto].
  - rewrite orb_true_iff, andb_true_r, IH, Ascii.eqb_eq.
    split; intros [H | H]; auto.
Qed.

Lemma lstrip_l_keeps c l :
  In c l -> Py.isspace c = false -> In c (Py.lstrip_l l).
Proof.
  intros Hin Hc. induction l as [|a l IH]; simpl; [tauto |].
  destruct (Py.isspace a) eqn:Ha; [| exact Hin].
  destruct Hin as [-> | Hin]; [congruence | auto].
Qed.

Lemma strip_l_keeps c l :
  In c l -> Py.isspace c = false -> In c (Py.strip_l l).
Proof.
  intros Hin Hc. unfold Py.strip_l.
  apply in_rev. rewrite rev_involutive.
  apply lstrip_l_keeps; [| exact Hc].
  apply -> in_rev. apply lstrip_l_keeps; assumption.
Qed.

(** What [int] and [float] skip is white space. *)
Lemma not_isspace_num c : Py.isspace c = false -> Py.isspace_num c = false.
Proof.
  destruct c as [[] [] [] [] [] [] [] []]; vm_compute; intros H;
    solve [discriminate H | reflexivity].
Qed.

Lemma lstrip_num_l_keeps c l :
  In c l -> Py.isspace c = false -> In c (Py.lstrip_num_l l).
Proof.
  intros Hin Hc. induction l as [|a l IH]; simpl; [tauto |].
  destruct (Py.isspace_num a) eqn:Ha; [| exact Hin].
  destruct Hin as [-> | Hin]; [| exact (IH Hin)].
  rewrite (not_isspace_num _ Hc) in Ha. discriminate Ha.
Qed.

Lemma strip_num_l_keeps c l :
  In c l -> Py.isspace c = false -> In c (Py.strip_num_l l).
Proof.
  intros Hin Hc. unfold Py.strip_num_l.
  apply in_rev. rewrite rev_involutive.
  apply lstrip_num_l_keeps; [| exact Hc].
  apply -> in_rev. apply lstrip_num_l_keeps; assumption.
Qed.

Lemma sign_l_keeps c l :
  In c l -> Ascii.eqb "-" c = false -> Ascii.eqb "+" c = false ->
  In c (snd (Py.sign_l l)).
Proof.
  intros Hin Hm Hp. destruct l as [|a l]; simpl; [tauto |].
  unfold Py.is_char.
  destruct (Ascii.eqb "-" a) eqn:Ea; simpl.
  { apply Ascii.eqb_eq in Ea. subst a.
    destruct Hin as [<- | Hin]; [| exact Hin].
    rewrite Ascii.eqb_refl in Hm. discriminate. }
  destruct (Ascii.eqb "+" a) eqn:Eb; simpl; [| exact Hin].
  apply Ascii.eqb_eq in Eb. subst a.
  destruct Hin as [<- | Hin]; [| exact Hin].
  rewrite Ascii.eqb_refl in Hp. discriminate.
Qed.

Lemma unders_keeps c l : forall prev r,
  Py.unders prev l = Some r -> In c l -> Ascii.eqb "_" c = false -> In c r.
Proof.
  induction l as [|a l IH]; intros prev r Hr Hin Hc; [destruct Hin |].
  simpl in Hr. unfold Py.is_char in Hr.
  destruct (Ascii.eqb "_" a) eqn:Ea.
  - destruct (Py.isdigit prev); [| discriminate].
    destruct Hin as [<- | Hin]; [congruence | eauto].
  - destruct (Ascii.eqb "_" prev && negb (Py.isdigit a)); [discriminate |].
    destruct (Py.unders a l) as [r'|] eqn:Hr'; [| discriminate].
    injection Hr as <-.
    destruct Hin as [<- | Hin]; [left; reflexivity | right; eauto].
Qed.

Lemma all_digits_In c l :
  Py.all_digits l = true -> In c l -> Py.isdigit c = true.
Proof.
  intros H Hin. destruct l as [|a l]; [destruct Hin |].
  unfold Py.all_digits in H. rewrite forallb_forall in H. auto.
Qed.

Lemma span_digits_app l d r :
  Py.span_digits l = (d, r) -> l = d ++ r /\ forallb Py.isdigit d = true.
Proof.
  revert d r. induction l as [|a l IH]; simpl; intros d r H.
  - injection H as <- <-. split; reflexivity.
  - destruct (Py.isdigit a) eqn:Ha.
    + destruct (Py.span_digits l) as [d' r'].
      injection H as <- <-. destruct (IH d' r' eq_refl) as [-> Hd].
      split; [reflexivity | simpl; rewrite Ha, Hd; reflexivity].
    + injection H as <- <-. split; reflexivity.
Qed.

Lemma numeric_digit c : Py.isdigit c = true -> numeric_char c = true.
Proof.
  intros H. unfold numeric_char. rewrite H, orb_true_r. reflexivity.
Qed.

Lemma numeric_sign_l l :
  (forall c, In c (snd (Py.sign_l l)) -> numeric_char c = true) ->
  forall c, In c l -> numeric_char c = true.
Proof.
  intros H c Hin.
  destruct (Ascii.eqb "-" c) eqn:Em;
    [apply Ascii.eqb_eq in Em; subst c; reflexivity |].
  destruct (Ascii.eqb "+" c) eqn:Ep;
    [apply Ascii.eqb_eq in Ep; subst c; reflexivity |].
  apply H, sign_l_keeps; assumption.
Qed.

Lemma numeric_exponent l e :
  Py.exponent_l l = Some e -> forall c, In c l -> numeric_char c = true.
Proof.
  destruct l as [|a l]; simpl; [intros _ c [] |].
  unfold Py.is_char.
  destruct (Ascii.eqb "e" (Py.lower a)) eqn:Ea; [| discriminate].
  destruct (Py.sign_l l) as [neg ds] eqn:Hs.
  destruct (Py.all_digits ds) eqn:Hd; [| discriminate].
  intros _ c [<- | Hin].
  - apply Ascii.eqb_eq in Ea. unfold numeric_char. rewrite <- Ea.
    rewrite !orb_true_iff. right. reflexivity.
  - revert c Hin. apply numeric_sign_l. rewrite Hs. simpl.
    intros x Hx. apply numeric_digit. eapply all_digits_In; eassumption.
Qed.

Lemma numeric_decimal l q :
  Py.decimal_l l = Some q -> forall c, In c l -> numeric_char c = true.
Proof.
  unfold Py.decimal_l.
  destruct (Py.span_digits l) as [ip r1] eqn:H1.
  apply span_digits_app in H1 as [-> Hip].
  rewrite forallb_forall in Hip.
  assert (Hr : forall fp r2,
             (fp, r2) = match r1 with
                        | [] => ([], r1)
                        | c :: r =>
                            if Py.is_char "." c then Py.span_digits r
                            else ([], r1)
                        end ->
             forall e, Py.exponent_l r2 = Some e ->
             forall c, In c r1 -> numeric_char c = true).
  { intros fp r2 Heq e He c Hin.
    destruct r1 as [|a r]; [destruct Hin |].
    unfold Py.is_char in Heq.
    destruct (Ascii.eqb "." a) eqn:Ea.
    - symmetry in Heq. apply span_digits_app in Heq as [-> Hfp].
      rewrite forallb_forall in Hfp.
      destruct Hin as [<- | Hin].
      + apply Ascii.eqb_eq in Ea. subst a. reflexivity.
      + apply in_app_or in Hin as [Hin | Hin].
        * apply numeric_digit. auto.
        * eapply numeric_exponent; eassumption.
    - injection Heq as -> ->. eapply numeric_exponent; eassumption. }
  destruct (match r1 with
            | [] => ([], r1)
            | c :: r =>
                if Py.is_char "." c then Py.span_digits r else ([], r1)
            end) as [fp r2] eqn:H2.
  destruct (ip ++ fp); [discriminate |].
  destruct (Py.exponent_l r2) as [e|] eqn:He; [| discriminate].
  intros _ c Hin. apply in_app_or in Hin as [Hin | Hin].
  - apply numeric_digit. auto.
  - eapply Hr; eauto.
Qed.

Lemma numeric_unders_strip l u :
  Py.unders zero (Py.strip_num_l l) = Some u ->
  (forall c, In c u -> numeric_char c = true) ->
  forall c, In c l -> numeric_char c = true.
Proof.
  intros Hu H c Hin.
  destruct (Py.isspace c) eqn:Hs; [unfold numeric_char; rewrite Hs; reflexivity |].
  destruct (Ascii.eqb "_" c) eqn:Eu;
    [apply Ascii.eqb_eq in Eu; subst c; reflexivity |].
  apply H. eapply unders_keeps; [exact Hu | | exact Eu].
  apply strip_num_l_keeps; assumption.
Qed.

Lemma numeric_name (name : string) body c :
  Py.str (map Py.lower body) = name ->
  (forall x, In x (Py.chars name) ->
             existsb (Ascii.eqb x) (Py.chars "infinityae") = true) ->
  In c body -> numeric_char c = true.
Proof.
  intros Hname Hall Hin.
  unfold numeric_char. rewrite !orb_true_iff. right.
  apply Hall. rewrite <- Hname, chars_str. apply in_map. exact Hin.
Qed.

(** Every character of a text that [float] accepts is a numeric one. *)
Lemma float_numeric s f :
  Py.float_of s = Some f ->
  forall c, In c (Py.chars s) -> numeric_char c = true.
Proof.
  unfold Py.float_of, Py.float_l.
  destruct (Py.unders zero (Py.strip_num_l (Py.chars s))) as [u|] eqn:Hu;
    [| discriminate].
  intros H. apply (numeric_unders_strip _ _ Hu).
  apply numeric_sign_l.
  destruct (Py.sign_l u) as [neg body]. simpl.
  destruct (Py.str (map Py.lower body) =? "inf")%string eqn:E1.
  { apply String.eqb_eq in E1. intros c. apply (numeric_name _ _ _ E1).
    intros x Hx. simpl in Hx.
    repeat (destruct Hx as [<- | Hx]; [reflexivity |]). destruct Hx. }
  destruct (Py.str (map Py.lower body) =? "infinity")%string eqn:E2.
  { apply String.eqb_eq in E2. intros c. apply (numeric_name _ _ _ E2).
    intros x Hx. simpl in Hx.
    repeat (destruct Hx as [<- | Hx]; [reflexivity |]). destruct Hx. }
  simpl in H.
  destruct (Py.str (map Py.lower body) =? "nan")%string eqn:E3.
  { apply String.eqb_eq in E3. intros c. apply (numeric_name _ _ _ E3).
    intros x Hx. simpl in Hx.
    repeat (destruct Hx as [<- | Hx]; [reflexivity |]). destruct Hx. }
  destruct (Py.decimal_l body) as [q|] eqn:Hq; [| discriminate].
  eapply numeric_decimal; eassumption.
Qed.




(** *** Texts of digits *)

Lemma digit_is_plain c :
  Py.isdigit c = true ->
  Py.isspace c = false /\ Ascii.eqb c "/" = false /\
  Ascii.eqb c " " = false /\ Py.is_char "_" c = false /\
  Py.is_char "-" c = false /\ Py.is_char "+" c = false.
Proof.
  destruct c as [[] [] [] [] [] [] [] []]; vm_compute; intros H;
    solve [discriminate H | repeat split].
Qed.

Lemma chars_app a b : Py.chars (a +:+ b) = Py.chars a ++ Py.chars b.
Proof.
  unfold Py.chars. induction a as [|c a IH]; simpl; [| rewrite IH]; reflexivity.
Qed.

Lemma all_digits_forall l :
  Py.all_digits l = true -> forall c, In c l -> Py.isdigit c = true.
Proof. intros H c Hin. eapply all_digits_In; eassumption. Qed.

Lemma all_digits_cons l :
  Py.all_digits l = true ->
  exists c l', l = c :: l' /\ Py.isdigit c = true /\
               forallb Py.isdigit l' = true.
Proof.
  destruct l as [|c l']; [discriminate |].
  unfold Py.all_digits. simpl. intros H.
  apply andb_prop in H as [Hc Hl]. eauto.
Qed.

Lemma all_digits_rev l : Py.all_digits l = true -> Py.all_digits (rev l) = true.
Proof.
  intros H. pose proof (all_digits_forall _ H) as Hall.
  destruct l as [|c l]; [discriminate |].
  destruct (rev (c :: l)) as [|a r] eqn:Hr.
  - apply (f_equal (@List.length ascii)) in Hr.
    rewrite length_rev in Hr. discriminate.
  - unfold Py.all_digits. apply forallb_forall. intros x Hx.
    apply Hall. apply in_rev. rewrite Hr. exact Hx.
Qed.

Lemma all_digits_starts l : Py.all_digits l = true -> starts_nonspace l.
Proof.
  intros H. apply all_digits_cons in H as (c & l' & -> & Hc & _).
  simpl. apply digit_is_plain, Hc.
Qed.

Lemma starts_nonspace_app l r : starts_nonspace l -> starts_nonspace (l ++ r).
Proof. destruct l; simpl; [tauto | auto]. Qed.

Lemma not_contains_char c l :
  (forall x, In x l -> Ascii.eqb x c = false) -> Py.contains_l [c] l = false.
Proof.
  intros H. destruct (Py.contains_l [c] l) eqn:E; [| reflexivity].
  apply contains_l_char in E. apply H in E.
  rewrite Ascii.eqb_refl in E. discriminate.
Qed.

Lemma unders_digits l : forall prev,
  forallb Py.isdigit l = true -> Py.is_char "_" prev = false ->
  Py.unders prev l = Some l.
Proof.
  induction l as [|c l IH]; intros prev Hl Hp; simpl.
  - rewrite Hp. reflexivity.
  - simpl in Hl. apply andb_prop in Hl as [Hc Hl].
    destruct (digit_is_plain _ Hc) as (_ & _ & _ & Hu & _).
    rewrite Hu, Hc, andb_false_r, (IH c Hl Hu). reflexivity.
Qed.

Lemma lstrip_l_starts l : starts_nonspace l -> Py.lstrip_l l = l.
Proof. destruct l as [|c l]; simpl; [tauto | intros ->; reflexivity]. Qed.

Lemma lstrip_l_blank lead l :
  forallb Py.isspace lead = true -> Py.lstrip_l (lead ++ l) = Py.lstrip_l l.
Proof.
  induction lead as [|c lead IH]; simpl; [reflexivity |].
  intros H. apply andb_prop in H as [-> H]. auto.
Qed.

Lemma strip_l_core lead core :
  forallb Py.isspace lead = true ->
  starts_nonspace core -> starts_nonspace (rev core) ->
  Py.strip_l (lead ++ core) = core.
Proof.
  intros Hl Hc Hr. unfold Py.strip_l.
  rewrite (lstrip_l_blank _ _ Hl), (lstrip_l_starts _ Hc),
    (lstrip_l_starts _ Hr).
  apply rev_involutive.
Qed.

Lemma lstrip_num_l_starts l : starts_nonspace l -> Py.lstrip_num_l l = l.
Proof.
  destruct l as [|c l]; simpl; [reflexivity |].
  intros H. rewrite (not_isspace_num _ H). reflexivity.
Qed.

(** A text that begins and ends with a character that is not white space
    is a number as it stands. *)
Lemma strip_num_l_same l :
  starts_nonspace l -> starts_nonspace (rev l) -> Py.strip_num_l l = l.
Proof.
  intros Hs Hr. unfold Py.strip_num_l.
  rewrite (lstrip_num_l_starts _ Hs), (lstrip_num_l_starts _ Hr).
  apply rev_involutive.
Qed.

(** [int] reads a text of digits as the number it writes. *)
Lemma int_l_digits l :
  Py.all_digits l = true -> Py.int_l l = Some (Py.digits_value l).
Proof.
  intros H. unfold Py.int_l.
  rewrite (strip_num_l_same l (all_digits_starts _ H)
             (all_digits_starts _ (all_digits_rev _ H))).
  destruct (all_digits_cons _ H) as (c & l' & -> & Hc & Hl').
  destruct (digit_is_plain _ Hc) as (_ & _ & _ & Hu & Hm & Hp).
  unfold Py.sign_l. rewrite Hm, Hp.
  rewrite unders_digits; [rewrite H; reflexivity | | reflexivity].
  simpl. rewrite Hc, Hl'. reflexivity.
Qed.

Lemma int_digits s : digits s -> int s = Ok (number s).
Proof.
  intros H. unfold int, Py.int. rewrite (int_l_digits _ H). reflexivity.
Qed.
(** ** Cloud cover *)

Lemma cloudcover_block_spec t :
  cloudcover_block t = cloud_coverage_spec (skyc t) (vis t).
Proof.
  unfold cloudcover_block, cloud_coverage_spec. simpl.
  repeat (destruct (Py.contains _ _); simpl; try reflexivity).
Qed.

(** C5.  The cloud cover of a decoded report is read off the raw text of
    the sky group by a fixed precedence of keywords: overcast or vertical
    visibility gives 8, else broken 6, else scattered 4, else few 2, else a
    clear code (or CAVOK in the visibility group) 0, else 10.  A text with
    both FEW and OVC gives 8. *)
Theorem cloud_coverage_precedence
    parse wx_code_map text year month stations t o :
  parse text = Some t ->
  parse_metar parse wx_code_map text year month stations = Ok o ->
  cloudcover o = VInt (cloud_coverage_spec (skyc t) (vis t)) /\
  (Py.contains "FEW" (skyc t) = true ->
   Py.contains "OVC" (skyc t) = true ->
   cloudcover o = VInt 8).
Proof.
  intros Ht H.
  apply parse_metar_Ok in H as (t' & Ht' & H).
  rewrite Ht in Ht'. injection Ht' as <-.
  apply decode_Ok in H as (_ & _ & _ & _ & _ & _ & _ & Hc & _).
  split.
  - rewrite Hc, cloudcover_block_spec. reflexivity.
  - intros _ Hovc. rewrite Hc. unfold cloudcover_block.
    rewrite Hovc. reflexivity.
Qed.

Lemma cloud_coverage_precedence_witness :
  cloudcover sample_metar =
    VInt (cloud_coverage_spec (skyc sample_tree) (vis sample_tree)) /\
  (Py.contains "FEW" (skyc sample_tree) = true ->
   Py.contains "OVC" (skyc sample_tree) = true ->
   cloudcover sample_metar = VInt 8).
Proof.
  apply (cloud_coverage_precedence sample_parse sample_wx_code_map
           sample_text 2020 5 sample_stations sample_tree sample_metar).
  - reflexivity.
  - vm_compute. reflexivity.
Defined.

(** C9.  The cloud cover of a decoded report is one of 0, 2, 4, 6, 8 and
    10; it is never an odd number of oktas; and each of the six values is
    the cloud cover of some sky group. *)
Theorem cloud_coverage_values
    parse wx_code_map text year month stations o :
  parse_metar parse wx_code_map text year month stations = Ok o ->
  In (cloudcover o) (map VInt [0; 2; 4; 6; 8; 10]%Z) /\
  ~ In (cloudcover o) (map VInt [1; 3; 5; 7]%Z) /\
  Forall (fun oktas => exists t, cloudcover_block t = oktas)
         [0; 2; 4; 6; 8; 10]%Z.
Proof.
  intros H.
  apply parse_metar_Ok in H as (t & _ & H).
  apply decode_Ok in H as (_ & _ & _ & _ & _ & _ & _ & Hc & _).
  split; [| split].
  - rewrite Hc. unfold cloudcover_block.
    repeat match goal with
           | |- context [if ?b then _ else _] => destruct b
           end; simpl; tauto.
  - rewrite Hc. unfold cloudcover_block.
    repeat match goal with
           | |- context [if ?b then _ else _] => destruct b
           end; simpl; intros K; intuition discriminate.
  - repeat first [apply List.Forall_nil | apply List.Forall_cons]; cbv beta.
    + exists (with_skyc sample_tree " CLR"). reflexivity.
    + exists (with_skyc sample_tree " FEW050"). reflexivity.
    + exists (with_skyc sample_tree " SCT050"). reflexivity.
    + exists (with_skyc sample_tree " BKN050"). reflexivity.
    + exists (with_skyc sample_tree " OVC050"). reflexivity.
    + exists (with_skyc sample_tree ""). reflexivity.
Qed.

Lemma cloud_coverage_values_witness :
  In (cloudcover sample_metar) (map VInt [0; 2; 4; 6; 8; 10]%Z) /\
  ~ In (cloudcover sample_metar) (map VInt [1; 3; 5; 7]%Z).
Proof.
  destruct (cloud_coverage_values sample_parse sample_wx_code_map
              sample_text 2020 5 sample_stations sample_metar)
    as (H1 & H2 & _).
  - vm_compute. reflexivity.
  - exact (conj H1 H2).
Defined.

(** ** Wind *)

(** The three ways the wind block ends. *)
Lemma wind_block_Ok t dir spd :
  wind_block t = Ok (dir, spd) ->
  (dir = nan /\ spd = nan) \/
  (dir = nan /\ exists f, Py.float_of (wind_spd (wind t)) = Some f /\
                          spd = VFloat f) \/
  (exists a b, dir = VInt a /\ spd = VInt b).
Proof.
  unfold wind_block, try_except.
  destruct (_ || _ || _); simpl.
  { intros [= <- <-]. left. split; reflexivity. }
  destruct (_ || _); simpl.
  - unfold float. destruct (Py.float_of _) as [f|]; simpl.
    + intros [= <- <-]. right. left. split; [reflexivity |].
      exists f. split; reflexivity.
    + intros [= <- <-]. left. split; reflexivity.
  - unfold int.
    destruct (Py.int (wind_dir _)) as [a|]; simpl;
      [| intros [= <- <-]; left; split; reflexivity].
    destruct (Py.int (wind_spd _)) as [b|]; simpl;
      [| intros [= <- <-]; left; split; reflexivity].
    intros [= <- <-]. right. right. exists a, b. split; reflexivity.
Qed.

(** C8.  In a decoded report a wind direction that is not missing comes
    with a wind speed that is not missing. *)
Theorem wind_direction_has_speed
    parse wx_code_map text year month stations o :
  parse_metar parse wx_code_map text year month stations = Ok o ->
  wind_direction o <> nan -> wind_speed o <> nan.
Proof.
  intros H Hdir.
  apply parse_metar_Ok in H as (t & _ & H).
  apply decode_Ok in H as (_ & _ & _ & Hw & _).
  apply wind_block_Ok in Hw as [[Hd _] | [[Hd _] | (a & b & _ & ->)]].
  - contradiction.
  - contradiction.
  - discriminate.
Qed.

Lemma wind_direction_has_speed_witness :
  wind_direction sample_metar <> nan /\ wind_speed sample_metar <> nan.
Proof.
  assert (Hd : wind_direction sample_metar <> nan) by (vm_compute; discriminate).
  split; [exact Hd |].
  apply (wind_direction_has_speed sample_parse sample_wx_code_map
           sample_text 2020 5 sample_stations sample_metar).
  - vm_compute. reflexivity.
  - exact Hd.
Defined.

(** *** The wind group as the specification words it *)






(** ** Present weather *)

Section WeatherSymbols.

Variable wx_code_map : gmap string Z.
Hypothesis codes_nonneg : map_Forall (fun _ code => (0 <= code)%Z) wx_code_map.

Lemma wx_symbol_ok wx i w s :
  index wx i = Ok w ->
  wx_symbol wx_code_map wx i = Ok s ->
  symbol_ok wx_code_map w s.
Proof.
  unfold wx_symbol, try_except. intros ->. simpl.
  destruct w as [z|f|code|d]; simpl;
    try (intros [= <-]; exists 0%Z; repeat split; (lia || discriminate || auto)).
  unfold or_raise. destruct (wx_code_map !! code) as [c|] eqn:Hc; simpl.
  - intros [= <-]. exists c. repeat split.
    + exact (codes_nonneg code c Hc).
    + discriminate.
    + intros code' [= <-] Hn. congruence.
  - intros [= <-]. exists 0%Z. repeat split; (lia || discriminate || auto).
Qed.

Lemma current_wx_block_ok t w1 w2 w3 s1 s2 s3 :
  current_wx_block wx_code_map t = Ok ((w1, w2, w3), (s1, s2, s3)) ->
  symbol_ok wx_code_map w1 s1 /\ symbol_ok wx_code_map w2 s2 /\
  symbol_ok wx_code_map w3 s3.
Proof.
  unfold current_wx_block.
  destruct (_ || _).
  - intros [= <- <- <- <- <- <-].
    repeat split; exists 0%Z; repeat split; (lia || auto).
  - intros H.
    apply bind_Ok in H as (c1 & H1 & H).
    apply bind_Ok in H as (c2 & H2 & H).
    apply bind_Ok in H as (c3 & H3 & H).
    apply bind_Ok in H as (y1 & Hs1 & H).
    apply bind_Ok in H as (y2 & Hs2 & H).
    apply bind_Ok in H as (y3 & Hs3 & H).
    injection H as <- <- <- <- <- <-.
    repeat split; eapply wx_symbol_ok; eassumption.
Qed.

End WeatherSymbols.

(** C10.  With a table of weather codes that holds no negative code, each
    of the three weather symbols of a decoded report is a non-negative
    integer; it is 0 when the weather code of its slot is missing, and 0
    when that code is not in the table. *)
Theorem weather_symbols_nonneg
    parse wx_code_map text year month stations o :
  map_Forall (fun _ code => (0 <= code)%Z) wx_code_map ->
  parse_metar parse wx_code_map text year month stations = Ok o ->
  symbol_ok wx_code_map (current_wx1 o) (current_wx1_symbol o) /\
  symbol_ok wx_code_map (current_wx2 o) (current_wx2_symbol o) /\
  symbol_ok wx_code_map (current_wx3 o) (current_wx3_symbol o).
Proof.
  intros Hnn H.
  apply parse_metar_Ok in H as (t & _ & H).
  apply decode_Ok in H as (_ & _ & _ & _ & _ & Hwx & _).
  eapply current_wx_block_ok; eassumption.
Qed.

Lemma weather_symbols_nonneg_witness :
  symbol_ok sample_wx_code_map
            (current_wx1 sample_metar) (current_wx1_symbol sample_metar) /\
  symbol_ok sample_wx_code_map
            (current_wx2 sample_metar) (current_wx2_symbol sample_metar) /\
  symbol_ok sample_wx_code_map
            (current_wx3 sample_metar) (current_wx3_symbol sample_metar).
Proof.
  apply (weather_symbols_nonneg sample_parse sample_wx_code_map
           sample_text 2020 5 sample_stations sample_metar).
  - unfold sample_wx_code_map.
    repeat (apply map_Forall_insert_2; [lia |]).
    apply map_Forall_empty.
  - vm_compute. reflexivity.
Defined.

(** ** Temperature and dew point *)

Lemma fmul_minus_one f : Py.fmul (Py.of_int (-1)) f = Py.fneg f.
Proof.
  destruct f as [|s|q]; reflexivity.
Qed.

Lemma temp_value_spec text : temp_value text = Ok (sub_token_spec text).
Proof.
  unfold temp_value, sub_token_spec, float, try_except.
  destruct (Py.contains "M" text);
    destruct (Py.float_of (Py.last 2 text)) as [f|]; simpl;
    rewrite ?fmul_minus_one; reflexivity.
Qed.

Lemma temp_dewp_block_spec t :
  temp_dewp_block t =
    Ok (if (temp_dewp_text (temp_dewp t) =? "")%string
           || (temp_dewp_text (temp_dewp t) =? " MM/MM")%string
        then (nan, nan)
        else (sub_token_spec (temp (temp_dewp t)),
              sub_token_spec (dewp (temp_dewp t)))).
Proof.
  unfold temp_dewp_block.
  destruct (_ || _); [reflexivity |].
  rewrite !temp_value_spec. reflexivity.
Qed.



(** ** Altimeter *)

Lemma fdiv_100 f :
  Py.fdiv f (Py.of_int 100) = Some (Py.fmul f (Py.Fnum (1 # 100))).
Proof. destruct f; reflexivity. Qed.

Lemma altimeter_block_cases t :
  let digits := Py.slice 1 5 (Py.strip (altim t)) in
  (altim t = "" -> altimeter_block t = Ok nan) /\
  (altim t <> "" ->
   forall f, Py.float_of digits = Some f ->
   (Py.fgt f (Py.of_int 1100) = true ->
    altimeter_block t = Ok (VFloat (Py.fmul f (Py.Fnum (1 # 100))))) /\
   (Py.fgt f (Py.of_int 1100) = false ->
    forall n, Py.int digits = Some n ->
    altimeter_block t = Ok (VFloat (Units.hPa_to_inHg n)))).
Proof.
  intros digits. unfold altimeter_block. fold digits. split.
  - intros ->. reflexivity.
  - intros Hne f Hf. apply String.eqb_neq in Hne. rewrite Hne.
    unfold float, int. rewrite Hf. simpl. split.
    + intros ->. rewrite fdiv_100. reflexivity.
    + intros -> n ->. reflexivity.
Qed.

(** C4.  An empty altimeter group gives a missing altimeter.  Otherwise the
    number formed from the four characters that follow the first one of
    the stripped group decides: above 1100 it is hundredths of an inch of
    mercury and is divided by 100 (A2992 gives 29.92); else it is a whole
    number of hectopascals, converted to inches of mercury (Q1013 gives
    29.91..., which is 29.92 to one hundredth). *)
Theorem altimeter_threshold
    parse wx_code_map text year month stations t o :
  parse text = Some t ->
  parse_metar parse wx_code_map text year month stations = Ok o ->
  let digits := Py.slice 1 5 (Py.strip (altim t)) in
  (altim t = "" -> altimeter o = nan) /\
  (altim t <> "" ->
   exists f, Py.float_of digits = Some f /\
   (Py.fgt f (Py.of_int 1100) = true ->
    altimeter o = VFloat (Py.fmul f (Py.Fnum (1 # 100)))) /\
   (Py.fgt f (Py.of_int 1100) = false ->
    exists n, Py.int digits = Some n /\
    altimeter o = VFloat (Units.hPa_to_inHg n))) /\
  (forall t', altim t' = " A2992" ->
              altimeter_block t' = Ok (VFloat (Py.Fnum (Qred 29.92)))) /\
  (forall t', altim t' = " Q1013" ->
              exists q, altimeter_block t' = Ok (VFloat (Py.Fnum q)) /\
                        agrees_to 0.01 29.92 q).
Proof.
  intros Ht H digits. decoded H Ht.
  destruct H as (_ & _ & _ & _ & _ & _ & _ & _ & _ & Ha).
  split; [| split; [| split]].
  - intros He. destruct (altimeter_block_cases t) as [H0 _].
    rewrite (H0 He) in Ha. injection Ha as <-. reflexivity.
  - intros Hne. revert Ha. unfold altimeter_block.
    apply String.eqb_neq in Hne. rewrite Hne. fold digits.
    unfold float, int.
    destruct (Py.float_of digits) as [f|]; simpl; [| discriminate].
    intros Ha. exists f. split; [reflexivity |]. split.
    + intros Hgt. rewrite Hgt, fdiv_100 in Ha. simpl in Ha.
      injection Ha as <-. reflexivity.
    + intros Hgt. rewrite Hgt in Ha.
      destruct (Py.int digits) as [n|]; simpl in Ha; [| discriminate].
      injection Ha as <-. exists n. split; reflexivity.
  - intros t' Ht'. unfold altimeter_block. rewrite Ht'.
    vm_compute. reflexivity.
  - intros t' Ht'. unfold altimeter_block. rewrite Ht'.
    eexists. split; [vm_compute; reflexivity |].
    unfold agrees_to. apply Qle_bool_imp_le. vm_compute. reflexivity.
Qed.

Lemma altimeter_threshold_witness :
  let digits := Py.slice 1 5 (Py.strip (altim sample_tree)) in
  (altim sample_tree = "" -> altimeter sample_metar = nan) /\
  (altim sample_tree <> "" ->
   exists f, Py.float_of digits = Some f /\
   (Py.fgt f (Py.of_int 1100) = true ->
    altimeter sample_metar = VFloat (Py.fmul f (Py.Fnum (1 # 100)))) /\
   (Py.fgt f (Py.of_int 1100) = false ->
    exists n, Py.int digits = Some n /\
    altimeter sample_metar = VFloat (Units.hPa_to_inHg n))) /\
  (forall t', altim t' = " A2992" ->
              altimeter_block t' = Ok (VFloat (Py.Fnum (Qred 29.92)))) /\
  (forall t', altim t' = " Q1013" ->
              exists q, altimeter_block t' = Ok (VFloat (Py.Fnum q)) /\
                        agrees_to 0.01 29.92 q).
Proof.
  apply (altimeter_threshold sample_parse sample_wx_code_map
           sample_text 2020 5 sample_stations sample_tree sample_metar).
  - reflexivity.
  - vm_compute. reflexivity.
Defined.
(** ** Visibility, as the specification words it *)

Lemma visibility_block_spec t : visibility_block t = visibility_spec (vis t).
Proof.
  unfold visibility_block, visibility_spec, whole_part, fraction_part.
  destruct (Py.endswith (vis t) "SM"); [| reflexivity].
  set (body := Py.strip (Py.drop_last 2 (vis t))).
  assert (Hfrac : forall w rest,
    (visibility ←
       (if Py.contains "/" rest
        then match Py.split_at1 "/" rest with
             | [num; denom] =>
                 n ← int num;
                 d ← int denom;
                 q ← or_raise ZeroDivisionError (Py.truediv n d);
                 Ok (Py.add (Py.NInt w) (Py.NFloat q))
             | _ => Raise ValueError
             end
        else n ← int rest; Ok (Py.add (Py.NInt w) (Py.NInt n)));
     Ok (VFloat (Units.miles_to_meter visibility))) =
    (fraction ←
       (if Py.contains "/" rest
        then match Py.split_at1 "/" rest with
             | [num; denom] =>
                 n ← int num;
                 d ← int denom;
                 if (d =? 0)%Z then Raise ZeroDivisionError
                 else Ok ((n # 1) / (d # 1))%Q
             | _ => Raise ValueError
             end
        else n ← int rest; Ok (n # 1));
     Ok (meters_of_miles ((w # 1) + fraction)))).
  { intros w rest. destruct (Py.contains "/" rest).
    - destruct (Py.split_at1 "/" rest) as [|num [|denom [|? ?]]];
        try reflexivity.
      destruct (int num) as [n|]; [| reflexivity].
      destruct (int denom) as [d|]; [| reflexivity]. simpl.
      unfold Py.truediv. destruct (d =? 0)%Z; [reflexivity |]. simpl.
      unfold meters_of_miles, Units.miles_to_meter. simpl.
      do 2 f_equal. f_equal. apply Qred_complete.
      rewrite !Qred_correct. reflexivity.
    - destruct (int rest) as [n|]; [| reflexivity]. simpl.
      unfold meters_of_miles, Units.miles_to_meter. simpl.
      do 2 f_equal. f_equal. apply Qred_complete.
      apply Qmult_comp; [| reflexivity].
      unfold Qeq. simpl. lia. }
  destruct (Py.contains " " body).
  - destruct (Py.split1 body) as [|whole [|rest [|? ?]]]; try reflexivity.
    destruct (int whole) as [w|]; [| reflexivity]. simpl.
    apply Hfrac.
  - simpl. apply Hfrac.
Qed.

(** *** The text before [SM] *)

Lemma starts_l_app p l : Py.starts_l p (p ++ l) = true.
Proof.
  induction p as [|c p IH]; simpl; [reflexivity |].
  rewrite Ascii.eqb_refl, IH. reflexivity.
Qed.

Lemma endswith_SM l : Py.endswith (Py.str (l ++ Py.chars "SM")) "SM" = true.
Proof.
  unfold Py.endswith. rewrite chars_str, rev_app_distr. apply starts_l_app.
Qed.

Lemma drop_last_SM l : Py.drop_last 2 (Py.str (l ++ Py.chars "SM")) = Py.str l.
Proof.
  unfold Py.drop_last, Py.drop_last_l. rewrite chars_str. f_equal.
  rewrite length_app. simpl.
  replace (List.length l + 2 - 2)%nat with (List.length l + 0)%nat by lia.
  rewrite firstn_app_2. simpl. apply app_nil_r.
Qed.

Lemma visibility_spec_SM lead core :
  forallb Py.isspace lead = true ->
  starts_nonspace core -> starts_nonspace (rev core) ->
  visibility_spec (Py.str (lead ++ core ++ Py.chars "SM")) =
    ('(whole, rest) ← whole_part (Py.str core);
     fraction ← fraction_part rest;
     Ok (meters_of_miles ((whole # 1) + fraction))).
Proof.
  intros Hl Hc Hr. unfold visibility_spec.
  rewrite app_assoc, endswith_SM, drop_last_SM.
  unfold Py.strip. rewrite chars_str, (strip_l_core _ _ Hl Hc Hr).
  reflexivity.
Qed.

Lemma word_l_app w r :
  (forall c, In c w -> Py.isspace c = false) ->
  Py.word_l (w ++ " "%char :: r) = (w, " "%char :: r).
Proof.
  induction w as [|c w IH]; intros H; simpl.
  - reflexivity.
  - rewrite (H c (or_introl eq_refl)), IH; [reflexivity |].
    intros x Hx. apply H. right. exact Hx.
Qed.

Lemma split1_l_two w rest :
  starts_nonspace w -> (forall c, In c w -> Py.isspace c = false) ->
  starts_nonspace rest ->
  Py.split1_l (w ++ " "%char :: rest) = [w; rest].
Proof.
  intros Hs Hw Hrest. unfold Py.split1_l.
  rewrite (lstrip_l_starts (w ++ _)) by (apply starts_nonspace_app, Hs).
  destruct (w ++ " "%char :: rest) as [|a l] eqn:E.
  { destruct w; discriminate E. }
  rewrite <- E, (word_l_app _ _ Hw).
  change (Py.lstrip_l (" "%char :: rest)) with (Py.lstrip_l rest).
  rewrite (lstrip_l_starts _ Hrest).
  destruct rest; [destruct Hrest | reflexivity].
Qed.

Lemma whole_part_two w rest :
  Py.all_digits w = true -> starts_nonspace rest ->
  whole_part (Py.str (w ++ " "%char :: rest)) =
    Ok (Py.digits_value w, Py.str rest).
Proof.
  intros Hw Hrest. unfold whole_part, Py.contains, Py.split1.
  rewrite chars_str.
  assert (Hin : Py.contains_l (Py.chars " ") (w ++ " "%char :: rest) = true).
  { apply contains_l_char. apply in_or_app. right. left. reflexivity. }
  rewrite Hin, split1_l_two; [| apply all_digits_starts, Hw | | exact Hrest].
  - simpl. unfold int, Py.int.
    rewrite chars_str, (int_l_digits _ Hw). reflexivity.
  - intros c Hc. apply digit_is_plain. eapply all_digits_In; eassumption.
Qed.

Lemma whole_part_none core :
  (forall c, In c core -> Ascii.eqb c " " = false) ->
  whole_part (Py.str core) = Ok (0%Z, Py.str core).
Proof.
  intros H. unfold whole_part, Py.contains. rewrite chars_str.
  change (Py.chars " ") with [" "%char].
  rewrite (not_contains_char " " core H). reflexivity.
Qed.

Lemma cut_l_app sep n d :
  (forall c, In c n -> Ascii.eqb c sep = false) ->
  Py.cut_l sep (n ++ sep :: d) = Some (n, d).
Proof.
  induction n as [|c n IH]; intros H; simpl.
  - rewrite Ascii.eqb_refl. reflexivity.
  - rewrite (H c (or_introl eq_refl)), IH; [reflexivity |].
    intros x Hx. apply H. right. exact Hx.
Qed.

Lemma fraction_part_two n d :
  Py.all_digits n = true -> Py.all_digits d = true ->
  Py.digits_value d <> 0%Z ->
  fraction_part (Py.str (n ++ "/"%char :: d)) =
    Ok ((Py.digits_value n # 1) / (Py.digits_value d # 1))%Q.
Proof.
  intros Hn Hd Hnz. unfold fraction_part, Py.contains, Py.split_at1.
  rewrite chars_str.
  assert (Hin : Py.contains_l (Py.chars "/") (n ++ "/"%char :: d) = true).
  { apply contains_l_char. apply in_or_app. right. left. reflexivity. }
  rewrite Hin, cut_l_app.
  2:{ intros c Hc. apply digit_is_plain. exact (all_digits_In _ _ Hn Hc). }
  unfold int, Py.int.
  rewrite !chars_str, (int_l_digits _ Hn), (int_l_digits _ Hd). simpl.
  apply Z.eqb_neq in Hnz. rewrite Hnz. reflexivity.
Qed.

Lemma fraction_part_zero n d :
  Py.all_digits n = true -> Py.all_digits d = true ->
  Py.digits_value d = 0%Z ->
  fraction_part (Py.str (n ++ "/"%char :: d)) = Raise ZeroDivisionError.
Proof.
  intros Hn Hd Hz. unfold fraction_part, Py.contains, Py.split_at1.
  rewrite chars_str.
  assert (Hin : Py.contains_l (Py.chars "/") (n ++ "/"%char :: d) = true).
  { apply contains_l_char. apply in_or_app. right. left. reflexivity. }
  rewrite Hin, cut_l_app.
  2:{ intros c Hc. apply digit_is_plain. exact (all_digits_In _ _ Hn Hc). }
  unfold int, Py.int.
  rewrite !chars_str, (int_l_digits _ Hn), (int_l_digits _ Hd). simpl.
  rewrite Hz. reflexivity.
Qed.

Lemma fraction_part_integer w :
  Py.all_digits w = true ->
  fraction_part (Py.str w) = Ok (Py.digits_value w # 1).
Proof.
  intros Hw. unfold fraction_part, Py.contains. rewrite chars_str.
  change (Py.chars "/") with ["/"%char].
  rewrite (not_contains_char "/" w);
    [| intros c Hc; apply digit_is_plain; eapply all_digits_In; eassumption].
  unfold int, Py.int. rewrite chars_str, (int_l_digits _ Hw). reflexivity.
Qed.

Lemma meters_of_miles_eq p q : (p == q)%Q -> meters_of_miles p = meters_of_miles q.
Proof.
  intros H. unfold meters_of_miles. do 2 f_equal.
  apply Qred_complete. rewrite H. reflexivity.
Qed.

Lemma starts_nonspace_rev_app x d :
  Py.all_digits d = true -> starts_nonspace (rev (x ++ d)).
Proof.
  intros H. rewrite rev_app_distr.
  apply starts_nonspace_app, all_digits_starts, all_digits_rev, H.
Qed.

(** A group that is a fraction followed by SM: no whole part. *)
Lemma visibility_spec_fraction (lead n d : string) :
  blank lead -> digits n -> digits d ->
  visibility_spec (lead +:+ n +:+ "/" +:+ d +:+ "SM") =
    (fraction ← fraction_part (Py.str (Py.chars n ++ "/"%char :: Py.chars d));
     Ok (meters_of_miles ((0 # 1) + fraction))).
Proof.
  unfold blank, digits. intros Hl Hn Hd.
  rewrite <- (str_chars (_ +:+ _)), !chars_app.
  change (Py.chars "/") with ["/"%char].
  replace (Py.chars lead ++ Py.chars n ++ ["/"%char] ++ Py.chars d ++
           Py.chars "SM")
    with (Py.chars lead ++ (Py.chars n ++ "/"%char :: Py.chars d)
          ++ Py.chars "SM")
    by (simpl; rewrite <- !app_assoc; reflexivity).
  rewrite visibility_spec_SM; [| exact Hl | |].
  - rewrite whole_part_none; [reflexivity |].
    intros c Hc. apply in_app_or in Hc as [Hc | [<- | Hc]].
    + apply digit_is_plain. exact (all_digits_In _ _ Hn Hc).
    + reflexivity.
    + apply digit_is_plain. exact (all_digits_In _ _ Hd Hc).
  - apply starts_nonspace_app, all_digits_starts, Hn.
  - replace (Py.chars n ++ "/"%char :: Py.chars d)
      with ((Py.chars n ++ ["/"%char]) ++ Py.chars d)
      by (rewrite <- !app_assoc; reflexivity).
    apply starts_nonspace_rev_app, Hd.
Qed.

(** The three shapes of a visibility in statute miles: a whole part, a
    blank and a fraction; a fraction alone; an integer alone. *)
Lemma visibility_shapes (lead w n d : string) :
  blank lead -> digits w -> digits n -> digits d -> number d <> 0%Z ->
  visibility_spec (lead +:+ w +:+ " " +:+ n +:+ "/" +:+ d +:+ "SM") =
    Ok (meters_of_miles ((number w # 1) + (number n # 1) / (number d # 1))) /\
  visibility_spec (lead +:+ n +:+ "/" +:+ d +:+ "SM") =
    Ok (meters_of_miles ((number n # 1) / (number d # 1))) /\
  visibility_spec (lead +:+ w +:+ "SM") =
    Ok (meters_of_miles (number w # 1)).
Proof.
  unfold blank, digits, number. intros Hl Hw Hn Hd Hnz.
  assert (Hfrac : starts_nonspace (Py.chars n ++ "/"%char :: Py.chars d))
    by (apply starts_nonspace_app, all_digits_starts, Hn).
  split; [| split].
  - rewrite <- (str_chars (_ +:+ _)), !chars_app.
    change (Py.chars " ") with [" "%char].
    change (Py.chars "/") with ["/"%char].
    replace (Py.chars lead ++ Py.chars w ++ [" "%char] ++ Py.chars n ++
             ["/"%char] ++ Py.chars d ++ Py.chars "SM")
      with (Py.chars lead ++
            (Py.chars w ++ " "%char :: Py.chars n ++ "/"%char :: Py.chars d)
            ++ Py.chars "SM")
      by (simpl; rewrite <- !app_assoc; simpl; rewrite <- !app_assoc;
          reflexivity).
    rewrite visibility_spec_SM; [| exact Hl | |].
    + rewrite (whole_part_two _ _ Hw Hfrac). simpl.
      rewrite (fraction_part_two _ _ Hn Hd Hnz). reflexivity.
    + apply starts_nonspace_app, all_digits_starts, Hw.
    + replace (Py.chars w ++ " "%char :: Py.chars n ++ "/"%char :: Py.chars d)
        with ((Py.chars w ++ " "%char :: Py.chars n ++ ["/"%char])
              ++ Py.chars d)
        by (rewrite <- !app_assoc; simpl; rewrite <- !app_assoc; reflexivity).
      apply starts_nonspace_rev_app, Hd.
  - rewrite (visibility_spec_fraction _ _ _ Hl Hn Hd).
    fold (number n) (number d).
    unfold number. rewrite (fraction_part_two _ _ Hn Hd Hnz). simpl.
    f_equal. apply meters_of_miles_eq. apply Qplus_0_l.
  - rewrite <- (str_chars (_ +:+ _)), !chars_app.
    rewrite visibility_spec_SM; [| exact Hl | |].
    + rewrite whole_part_none.
      * simpl. rewrite (fraction_part_integer _ Hw). simpl.
        f_equal. apply meters_of_miles_eq. apply Qplus_0_l.
      * intros c Hc. apply digit_is_plain. exact (all_digits_In _ _ Hw Hc).
    + apply all_digits_starts, Hw.
    + apply all_digits_starts, all_digits_rev, Hw.
Qed.

(** C2, as amended.  The visibility of a decoded report follows this
    priority.  A group that ends with SM is in statute miles: the sum of
    the optional whole part and of the fraction (or integer) that follows,
    converted to meters; "1 1/4SM" is 1.25 miles, 2011.68 m.  Otherwise a
    group that holds CAVOK gives 10000.  Otherwise a group that is empty
    or, once stripped, is "////" gives a missing visibility.  Otherwise the
    visibility is the integer formed by the first four characters of the
    stripped group; "9999" gives 9999. *)
Theorem visibility_priority
    parse wx_code_map text year month stations t o :
  parse text = Some t ->
  parse_metar parse wx_code_map text year month stations = Ok o ->
  visibility_spec (vis t) = Ok (visibility o) /\
  (Py.endswith (vis t) "SM" = false ->
   Py.contains "CAVOK" (vis t) = true -> visibility o = VInt 10000) /\
  (Py.endswith (vis t) "SM" = false ->
   Py.contains "CAVOK" (vis t) = false ->
   vis t = "" \/ Py.strip (vis t) = "////" -> visibility o = nan) /\
  (Py.endswith (vis t) "SM" = false ->
   Py.contains "CAVOK" (vis t) = false ->
   vis t <> "" -> Py.strip (vis t) <> "////" ->
   exists n, Py.int (Py.slice 0 4 (Py.strip (vis t))) = Some n /\
             visibility o = VInt n) /\
  (forall (t' : tree) (lead w n d : string),
     blank lead -> digits w -> digits n -> digits d -> number d <> 0%Z ->
     (vis t' = lead +:+ w +:+ " " +:+ n +:+ "/" +:+ d +:+ "SM" ->
      visibility_block t' =
        Ok (meters_of_miles
              ((number w # 1) + (number n # 1) / (number d # 1)))) /\
     (vis t' = lead +:+ n +:+ "/" +:+ d +:+ "SM" ->
      visibility_block t' =
        Ok (meters_of_miles ((number n # 1) / (number d # 1)))) /\
     (vis t' = lead +:+ w +:+ "SM" ->
      visibility_block t' = Ok (meters_of_miles (number w # 1)))) /\
  (forall t', vis t' = "1 1/4SM" ->
              visibility_block t' = Ok (VFloat (Py.Fnum (Qred 2011.68)))) /\
  (forall t', vis t' = "9999" -> visibility_block t' = Ok (VInt 9999)).
Proof.
  intros Ht H. decoded H Ht.
  destruct H as (_ & _ & _ & _ & Hv & _).
  rewrite visibility_block_spec in Hv.
  split; [exact Hv |].
  split; [| split; [| split; [| split; [| split]]]].
  - intros Hsm Hcav. unfold visibility_spec in Hv.
    rewrite Hsm, Hcav in Hv. injection Hv as <-. reflexivity.
  - intros Hsm Hcav Hempty. unfold visibility_spec in Hv.
    rewrite Hsm, Hcav in Hv.
    assert (Hb : (vis t =? "")%string || (Py.strip (vis t) =? "////")%string
                 = true).
    { apply orb_true_iff. rewrite !String.eqb_eq. exact Hempty. }
    rewrite Hb in Hv. injection Hv as <-. reflexivity.
  - intros Hsm Hcav H1 H2. unfold visibility_spec in Hv.
    rewrite Hsm, Hcav in Hv.
    apply String.eqb_neq in H1, H2. rewrite H1, H2 in Hv. simpl in Hv.
    unfold int in Hv.
    destruct (Py.int (Py.slice 0 4 (Py.strip (vis t)))) as [n|];
      [| discriminate].
    injection Hv as <-. exists n. split; reflexivity.
  - intros t' lead w n d Hl Hw Hn Hd Hnz.
    destruct (visibility_shapes lead w n d Hl Hw Hn Hd Hnz)
      as (S1 & S2 & S3).
    repeat split; intros Hv'; rewrite visibility_block_spec, Hv'; assumption.
  - intros t' Ht'. unfold visibility_block. rewrite Ht'.
    vm_compute. reflexivity.
  - intros t' Ht'. unfold visibility_block. rewrite Ht'.
    vm_compute. reflexivity.
Qed.

Lemma visibility_priority_witness :
  visibility_spec (vis sample_tree) = Ok (visibility sample_metar) /\
  visibility sample_metar = VFloat (Py.Fnum (Qred 2011.68)).
Proof.
  destruct (visibility_priority sample_parse sample_wx_code_map
              sample_text 2020 5 sample_stations sample_tree sample_metar)
    as (H1 & _).
  - reflexivity.
  - vm_compute. reflexivity.
  - split; [exact H1 | vm_compute; reflexivity].
Defined.

(** "1 1/4SM" is decoded to 2011.68 m, which is not 2012.6 m to the
    decimal; and the group " ////", which is neither empty nor "////", is
    decoded to a missing visibility although its first four characters,
    once stripped, form no integer. *)
Lemma visibility_not_as_stated :
  (exists q,
     visibility_block (with_vis sample_tree "1 1/4SM") =
       Ok (VFloat (Py.Fnum q)) /\
     ~ agrees_to 0.1 2012.6 q) /\
  (" ////" <> "" /\ " ////" <> "////" /\
   Py.endswith " ////" "SM" = false /\ Py.contains "CAVOK" " ////" = false /\
   visibility_block (with_vis sample_tree " ////") = Ok nan /\
   Py.int (Py.slice 0 4 (Py.strip " ////")) = None).
Proof.
  split.
  - eexists. split; [vm_compute; reflexivity |].
    unfold agrees_to. intros H. apply Qle_bool_iff in H.
    vm_compute in H. discriminate.
  - repeat split; (discriminate || (vm_compute; reflexivity)).
Qed.

(** ** Errors that are absorbed, and errors that are not *)

Lemma wx_list_long tokens i :
  (i < 3)%nat -> exists w, index (wx_list tokens) i = Ok w.
Proof.
  intros Hi. unfold index, wx_list.
  destruct tokens as [|a [|b [|c rest]]]; simpl;
    destruct i as [|[|[|i]]]; simpl; eauto; lia.
Qed.

Lemma wx_symbol_Ok wx_code_map wx i :
  exists s, wx_symbol wx_code_map wx i = Ok s.
Proof.
  unfold wx_symbol, index, try_except.
  destruct (wx !! i) as [key|]; simpl; [| eauto].
  destruct key as [z|f|code|d]; simpl; eauto.
  destruct (wx_code_map !! code); simpl; eauto.
Qed.

Lemma sky_type_Ok skyc i handled :
  In IndexError handled -> exists v, sky_type skyc i handled = Ok v.
Proof.
  intros Hin. unfold sky_type, index, try_except.
  destruct (skyc !! i) as [layer|]; simpl.
  - destruct (Py.contains _ _); eauto.
  - assert (Hh : existsb (exn_eqb IndexError) handled = true).
    { apply existsb_exists. exists IndexError. split; [exact Hin | reflexivity]. }
    rewrite Hh. eauto.
Qed.

Lemma sky_level_Ok skyc i : exists v, sky_level skyc i = Ok v.
Proof.
  unfold sky_level, index, float, try_except.
  destruct (skyc !! i) as [layer|]; simpl; [| eauto].
  destruct (Py.contains _ _); simpl; [eauto |].
  destruct (Py.float_of _); simpl; eauto.
Qed.

(** *** The date: a short text is a small number *)

Lemma digit_val_range c : Py.isdigit c = true -> (0 <= Py.digit_val c <= 9)%Z.
Proof.
  destruct c as [[] [] [] [] [] [] [] []]; vm_compute; intros H;
    solve [discriminate H | split; discriminate].
Qed.

Lemma digits_value_bound l : forall acc,
  forallb Py.isdigit l = true -> (0 <= acc)%Z ->
  (0 <= fold_left (fun a c => 10 * a + Py.digit_val c) l acc
   < (acc + 1) * 10 ^ Z.of_nat (List.length l))%Z.
Proof.
  induction l as [|c l IH]; intros acc Hl Hacc.
  - simpl. lia.
  - simpl in Hl. apply andb_prop in Hl as [Hc Hl].
    pose proof (digit_val_range _ Hc) as Hr.
    cbn [fold_left List.length].
    specialize (IH (10 * acc + Py.digit_val c)%Z Hl ltac:(lia)).
    rewrite Nat2Z.inj_succ, Z.pow_succ_r by lia.
    assert (Hp : (0 < 10 ^ Z.of_nat (List.length l))%Z)
      by (apply Z.pow_pos_nonneg; lia).
    nia.
Qed.

Lemma lstrip_num_l_length l :
  (List.length (Py.lstrip_num_l l) <= List.length l)%nat.
Proof.
  induction l as [|c l IH]; simpl; [lia |].
  destruct (Py.isspace_num c); simpl; lia.
Qed.

Lemma strip_num_l_length l :
  (List.length (Py.strip_num_l l) <= List.length l)%nat.
Proof.
  unfold Py.strip_num_l. rewrite length_rev.
  etransitivity; [apply lstrip_num_l_length |]. rewrite length_rev.
  apply lstrip_num_l_length.
Qed.

Lemma sign_l_length l :
  (List.length (snd (Py.sign_l l)) <= List.length l)%nat.
Proof.
  destruct l as [|c l]; simpl; [lia |].
  destruct (Py.is_char "-" c); simpl; [lia |].
  destruct (Py.is_char "+" c); simpl; lia.
Qed.

Lemma unders_length l : forall prev r,
  Py.unders prev l = Some r -> (List.length r <= List.length l)%nat.
Proof.
  induction l as [|c l IH]; intros prev r H; simpl in H.
  - destruct (Py.is_char "_" prev); [discriminate |].
    injection H as <-. simpl. lia.
  - destruct (Py.is_char "_" c).
    + destruct (Py.isdigit prev); [| discriminate].
      apply IH in H. simpl. lia.
    + destruct (Py.is_char "_" prev && negb (Py.isdigit c)); [discriminate |].
      destruct (Py.unders c l) as [r'|] eqn:Hr; [| discriminate].
      injection H as <-. apply IH in Hr. simpl. lia.
Qed.

(** A text of [k] characters at most is a number below [10 ^ k]. *)
Lemma int_l_bound l z k :
  Py.int_l l = Some z -> (List.length l <= k)%nat ->
  (- 10 ^ Z.of_nat k < z < 10 ^ Z.of_nat k)%Z.
Proof.
  unfold Py.int_l. intros H Hk.
  pose proof (strip_num_l_length l) as Hs.
  pose proof (sign_l_length (Py.strip_num_l l)) as Hg.
  destruct (Py.sign_l (Py.strip_num_l l)) as [neg body]. simpl in Hg.
  destruct (Py.unders zero body) as [ds|] eqn:Hu; [| discriminate].
  apply unders_length in Hu.
  destruct (Py.all_digits ds) eqn:Hd; [| discriminate].
  assert (Hall : forallb Py.isdigit ds = true)
    by (destruct ds; [discriminate | exact Hd]).
  pose proof (digits_value_bound ds 0%Z Hall ltac:(lia)) as Hb.
  fold (Py.digits_value ds) in Hb.
  assert (Hle : (10 ^ Z.of_nat (List.length ds) <= 10 ^ Z.of_nat k)%Z)
    by (apply Z.pow_le_mono_r; lia).
  destruct neg; injection H as <-; lia.
Qed.

Lemma slice_length a b s :
  (List.length (Py.chars (Py.slice a b s)) <= b - a)%nat.
Proof.
  unfold Py.slice, Py.slice_l. rewrite chars_str. apply firstn_le_length.
Qed.

Lemma int_slice_fits a b s z :
  (b - a <= 3)%nat -> Py.int (Py.slice a b s) = Some z ->
  fits_c_int z = true.
Proof.
  intros Hab Hz. unfold Py.int in Hz.
  apply (int_l_bound _ _ 3) in Hz;
    [| pose proof (slice_length a b s); lia].
  unfold fits_c_int. apply andb_true_intro.
  change (10 ^ Z.of_nat 3)%Z with 1000%Z in Hz.
  split; [apply Z.leb_le | apply Z.ltb_lt]; lia.
Qed.

Lemma date_time_block_Ok year month t :
  fits_c_int year = true -> fits_c_int month = true ->
  exists r, date_time_block year month t = Ok r.
Proof.
  intros Hy Hm. unfold date_time_block, try_except, int.
  generalize (Py.strip (Py.drop_last 1 (datetime_text t))). intros dtu.
  destruct (Py.int (Py.slice 0 2 dtu)) as [day|] eqn:Hd;
    cbn [or_raise mbind result_bind existsb exn_eqb orb]; [| eauto].
  destruct (Py.int (Py.slice 2 4 dtu)) as [hour|] eqn:Hh;
    cbn [or_raise mbind result_bind existsb exn_eqb orb]; [| eauto].
  destruct (Py.int (Py.slice 4 7 dtu)) as [minute|] eqn:Hi;
    cbn [or_raise mbind result_bind existsb exn_eqb orb]; [| eauto].
  unfold new_datetime. cbn [forallb].
  rewrite Hy, Hm.
  rewrite (int_slice_fits 0 2 dtu day), (int_slice_fits 2 4 dtu hour),
    (int_slice_fits 4 7 dtu minute) by (assumption || simpl; lia).
  cbn [andb negb].
  destruct (_ && _ && _ && _ && _);
    cbn [mbind result_bind existsb exn_eqb orb]; eauto.
Qed.

(** The blocks that absorb their errors: the station, the date (for a
    year and a month that are C integers), the wind, the present weather,
    the temperature, and the sky layers when the group is not a vertical
    visibility. *)
Lemma absorbing_blocks wx_code_map stations year month t :
  (exists r, station_block stations t = Ok r) /\
  (fits_c_int year = true -> fits_c_int month = true ->
   exists r, date_time_block year month t = Ok r) /\
  (exists r, wind_block t = Ok r) /\
  (exists r, current_wx_block wx_code_map t = Ok r) /\
  (exists r, temp_dewp_block t = Ok r) /\
  (Py.slice 1 3 (skyc t) <> "VV" -> exists r, sky_block t = Ok r).
Proof.
  split; [| split; [| split; [| split; [| split]]]].
  - unfold station_block, getitem, try_except.
    destruct (stations !! _); simpl; eauto.
  - apply date_time_block_Ok.
  - unfold wind_block, try_except, float, int.
    destruct (_ || _ || _); simpl; [eauto |].
    destruct (_ || _); simpl.
    + destruct (Py.float_of _); simpl; eauto.
    + destruct (Py.int (wind_dir _)); simpl; [| eauto].
      destruct (Py.int (wind_spd _)); simpl; eauto.
  - unfold current_wx_block.
    destruct (_ || _); [eauto |].
    set (wx := wx_list _).
    destruct (wx_list_long (Py.split (Py.strip (curwx t))) 0) as [w1 H1]; [lia |].
    destruct (wx_list_long (Py.split (Py.strip (curwx t))) 1) as [w2 H2]; [lia |].
    destruct (wx_list_long (Py.split (Py.strip (curwx t))) 2) as [w3 H3]; [lia |].
    fold wx in H1, H2, H3. rewrite H1, H2, H3. simpl.
    destruct (wx_symbol_Ok wx_code_map wx 0) as [s1 ->].
    destruct (wx_symbol_Ok wx_code_map wx 1) as [s2 ->].
    destruct (wx_symbol_Ok wx_code_map wx 2) as [s3 ->].
    simpl. eauto.
  - rewrite temp_dewp_block_spec. eauto.
  - intros Hvv. unfold sky_block.
    apply String.eqb_neq in Hvv. rewrite Hvv.
    set (layers := Py.split _).
    destruct (sky_type_Ok layers 0 [IndexError; ValueError; TypeError])
      as [c1 ->]; [simpl; tauto |].
    destruct (sky_level_Ok layers 0) as [l1 ->].
    destruct (sky_type_Ok layers 1 [IndexError; ValueError; TypeError])
      as [c2 ->]; [simpl; tauto |].
    destruct (sky_level_Ok layers 1) as [l2 ->].
    destruct (sky_type_Ok layers 2 [IndexError; ValueError])
      as [c3 ->]; [simpl; tauto |].
    destruct (sky_level_Ok layers 2) as [l3 ->].
    destruct (sky_type_Ok layers 3 [IndexError; ValueError; TypeError])
      as [c4 ->]; [simpl; tauto |].
    destruct (sky_level_Ok layers 3) as [l4 ->].
    simpl. eauto.
Qed.

(** A tree is decoded exactly when the three blocks without a handler run
    to their end: the visibility, the sky (the level of a vertical
    visibility) and the altimeter. *)
Lemma decode_Ok_iff wx_code_map stations year month t :
  fits_c_int year = true -> fits_c_int month = true ->
  (exists o, decode wx_code_map t year month stations = Ok o) <->
  (exists v, visibility_block t = Ok v) /\
  (exists s, sky_block t = Ok s) /\
  (exists a, altimeter_block t = Ok a).
Proof.
  intros Hy Hm. split.
  - intros [o H]. apply decode_Ok in H.
    destruct H as (_ & _ & _ & _ & Hv & _ & Hs & _ & _ & Ha).
    split; [| split]; eexists; eassumption.
  - intros ([v Hv] & [s Hs] & [a Ha]).
    destruct (absorbing_blocks wx_code_map stations year month t)
      as ([[[lat lon] elev] H1] & H2 & [[wd ws] H3]
          & [[[[w1 w2] w3] [[s1 s2] s3]] H4] & [[tp dp] H5] & _).
    destruct (H2 Hy Hm) as [dt H2'].
    destruct s as [[[[[[[c1 l1] c2] l2] c3] l3] c4] l4].
    unfold decode. rewrite H1, H2', H3, Hv, H4, Hs, H5, Ha. simpl. eauto.
Qed.

Lemma visibility_zero_denominator (lead n d : string) :
  blank lead -> digits n -> digits d -> number d = 0%Z ->
  visibility_spec (lead +:+ n +:+ "/" +:+ d +:+ "SM") =
    Raise ZeroDivisionError.
Proof.
  intros Hl Hn Hd Hz.
  rewrite (visibility_spec_fraction _ _ _ Hl Hn Hd).
  rewrite (fraction_part_zero _ _ Hn Hd Hz). reflexivity.
Qed.

(** C1.  A visibility group that is a fraction with denominator 0 makes
    the visibility block raise [ZeroDivisionError]; nothing absorbs it, and
    the report is not decoded: no record is returned, whatever its other
    groups are. *)
Theorem visibility_error_escapes
    parse wx_code_map text year month stations t (lead n d : string) :
  parse text = Some t ->
  blank lead -> digits n -> digits d -> number d = 0%Z ->
  vis t = lead +:+ n +:+ "/" +:+ d +:+ "SM" ->
  visibility_block t = Raise ZeroDivisionError /\
  forall o, parse_metar parse wx_code_map text year month stations <> Ok o.
Proof.
  intros Ht Hl Hn Hd Hz Hv.
  assert (Hblock : visibility_block t = Raise ZeroDivisionError).
  { rewrite visibility_block_spec, Hv.
    apply visibility_zero_denominator; assumption. }
  split; [exact Hblock |].
  intros o H. decoded H Ht.
  destruct H as (_ & _ & _ & _ & Hvis & _).
  rewrite Hblock in Hvis. discriminate.
Qed.

Lemma visibility_error_escapes_witness :
  visibility_block garbled_tree = Raise ZeroDivisionError /\
  forall o, parse_metar garbled_parse sample_wx_code_map garbled_text 2020 5
                        sample_stations <> Ok o.
Proof.
  apply (visibility_error_escapes garbled_parse sample_wx_code_map
           garbled_text 2020 5 sample_stations garbled_tree " " "1" "0");
    reflexivity.
Defined.

Example garbled_report_raises :
  parse_metar garbled_parse sample_wx_code_map garbled_text 2020 5
              sample_stations = Raise ZeroDivisionError.
Proof. vm_compute. reflexivity. Qed.

(** One such report ends the whole loop of [_metars_to_dataframe], whatever
    the table that would be made of the records. *)
Example garbled_report_ends_the_loop
    (DataFrame : Type) (table_of : list Metar -> result DataFrame) :
  metars_to_dataframe garbled_parse sample_wx_code_map sample_stations
    DataFrame table_of
    (Datetime 2020 5 12 13 0) [sample_text; garbled_text] (Some 2020%Z)
    (Some 5%Z) = Raise ZeroDivisionError.
Proof.
  unfold metars_to_dataframe.
  assert (H : metars_loop garbled_parse sample_wx_code_map sample_stations
                (Datetime 2020 5 12 13 0) [sample_text; garbled_text]
                (Some 2020%Z) (Some 5%Z) = Raise ZeroDivisionError)
    by (vm_compute; reflexivity).
  rewrite H. reflexivity.
Qed.

(** The same holds of the [ValueError] of a conversion in the visibility
    block, in the altimeter block and in the level of a vertical
    visibility. *)
Example other_errors_escape :
  visibility_block (with_vis sample_tree " M1/4SM") = Raise ValueError /\
  (forall t, altim t = " A////" -> altimeter_block t = Raise ValueError) /\
  (forall t, skyc t = " VV//" -> sky_block t = Raise ValueError).
Proof.
  split; [vm_compute; reflexivity |]. split.
  - intros t Ht. unfold altimeter_block. rewrite Ht. vm_compute. reflexivity.
  - intros t Ht. unfold sky_block. rewrite Ht. vm_compute. reflexivity.
Qed.

(** * Further properties of the decoder and of the file reader *)

(** ** The station and the date *)

(** X1.  The station id of a decoded report is the stripped site id.  When
    the table of stations has no entry under it, latitude, longitude and
    elevation are all three missing; when it has one, they are those of
    the entry. *)
Theorem station_lookup
    parse wx_code_map text year month stations t o :
  parse text = Some t ->
  parse_metar parse wx_code_map text year month stations = Ok o ->
  station_id o = Py.strip (siteid t) /\
  (stations !! station_id o = None ->
   latitude o = nan /\ longitude o = nan /\ elevation o = nan) /\
  (forall s, stations !! station_id o = Some s ->
   latitude o = VFloat (Station.latitude s) /\
   longitude o = VFloat (Station.longitude s) /\
   elevation o = VFloat (Station.altitude s)).
Proof.
  intros Ht H. decoded H Ht.
  destruct H as (Hid & Hst & _).
  split; [exact Hid |]. rewrite Hid.
  unfold station_block, getitem, try_except, or_raise in Hst.
  destruct (stations !! Py.strip (siteid t)) as [s|]; simpl in Hst;
    injection Hst as <- <- <-.
  - split; [discriminate |]. intros s' [= <-]. repeat split.
  - split; [repeat split | discriminate].
Qed.

Lemma station_lookup_witness :
  station_id sample_metar = "KDEN" /\
  latitude sample_metar = VFloat (Py.Fnum (3985 # 100)).
Proof.
  destruct (station_lookup sample_parse sample_wx_code_map sample_text
              2020 5 sample_stations sample_tree sample_metar)
    as (H1 & _ & H3).
  - reflexivity.
  - vm_compute. reflexivity.
  - split; [exact H1 |].
    destruct (H3 (Station.Make (Py.Fnum (3985 # 100))
                               (Py.Fnum (- 10466 # 100)) (Py.Fnum 1640)))
      as [H _]; [vm_compute; reflexivity | exact H].
Defined.

Lemma new_datetime_Ok year month day hour minute d :
  new_datetime year month day hour minute = Ok d ->
  d = Datetime year month day hour minute /\
  (1 <= year <= 9999)%Z /\ (1 <= month <= 12)%Z /\
  (1 <= day <= days_in_month year month)%Z /\
  (0 <= hour <= 23)%Z /\ (0 <= minute <= 59)%Z.
Proof.
  unfold new_datetime, between.
  destruct (negb _); [discriminate |].
  destruct (_ && _ && _ && _ && _) eqn:E; [| discriminate].
  intros [= <-].
  repeat (apply andb_prop in E as [E ?]).
  repeat match goal with
         | H : (_ && _) = true |- _ => apply andb_prop in H as [? ?]
         | H : (_ <=? _)%Z = true |- _ => apply Z.leb_le in H
         end.
  repeat split; lia.
Qed.

Lemma date_time_block_valid year month t v :
  date_time_block year month t = Ok v ->
  v = nan \/
  exists d, v = VDatetime d /\
            dt_year d = year /\ dt_month d = month /\
            (1 <= year <= 9999)%Z /\ (1 <= month <= 12)%Z /\
            (1 <= dt_day d <= days_in_month year month)%Z /\
            (0 <= dt_hour d <= 23)%Z /\ (0 <= dt_minute d <= 59)%Z.
Proof.
  unfold date_time_block, try_except, int.
  generalize (Py.strip (Py.drop_last 1 (datetime_text t))). intros dtu.
  destruct (Py.int (Py.slice 0 2 dtu)) as [day|];
    cbn [or_raise mbind result_bind existsb exn_eqb orb];
    [| intros [= <-]; left; reflexivity].
  destruct (Py.int (Py.slice 2 4 dtu)) as [hour|];
    cbn [or_raise mbind result_bind existsb exn_eqb orb];
    [| intros [= <-]; left; reflexivity].
  destruct (Py.int (Py.slice 4 7 dtu)) as [minute|];
    cbn [or_raise mbind result_bind existsb exn_eqb orb];
    [| intros [= <-]; left; reflexivity].
  destruct (new_datetime year month day hour minute) as [d|e] eqn:Hn;
    cbn [or_raise mbind result_bind existsb exn_eqb orb].
  - intros [= <-]. right. exists d.
    apply new_datetime_Ok in Hn as (-> & Hy & Hm & Hday & Hh & Hmi).
    cbn [dt_year dt_month dt_day dt_hour dt_minute].
    repeat split; lia.
  - destruct e; cbn [existsb exn_eqb orb]; intros Hd; try discriminate;
      injection Hd as <-; left; reflexivity.
Qed.

(** X2.  The date of a decoded report is missing or is a date of the
    calendar: its year and month are the ones given, its day exists in
    that month, its hour is at most 23 and its minute at most 59. *)
Theorem date_time_valid
    parse wx_code_map text year month stations o :
  parse_metar parse wx_code_map text year month stations = Ok o ->
  date_time o = nan \/
  exists d, date_time o = VDatetime d /\
            dt_year d = year /\ dt_month d = month /\
            (1 <= year <= 9999)%Z /\ (1 <= month <= 12)%Z /\
            (1 <= dt_day d <= days_in_month year month)%Z /\
            (0 <= dt_hour d <= 23)%Z /\ (0 <= dt_minute d <= 59)%Z.
Proof.
  intros H. apply parse_metar_Ok in H as (t & _ & H).
  apply decode_Ok in H as (_ & _ & Hd & _).
  exact (date_time_block_valid year month t _ Hd).
Qed.

Lemma date_time_valid_witness :
  date_time sample_metar = nan \/
  exists d, date_time sample_metar = VDatetime d /\
            dt_year d = 2020%Z /\ dt_month d = 5%Z /\
            (1 <= 2020 <= 9999)%Z /\ (1 <= 5 <= 12)%Z /\
            (1 <= dt_day d <= days_in_month 2020 5)%Z /\
            (0 <= dt_hour d <= 23)%Z /\ (0 <= dt_minute d <= 59)%Z.
Proof.
  apply (date_time_valid sample_parse sample_wx_code_map sample_text
           2020 5 sample_stations sample_metar).
  vm_compute. reflexivity.
Defined.

(** *** A date group of six digits *)

Lemma drop_last_one l z : Py.drop_last_l 1 (l ++ [z]) = l.
Proof.
  unfold Py.drop_last_l. rewrite length_app. cbn [List.length].
  replace (List.length l + 1 - 1)%nat with (List.length l) by lia.
  rewrite firstn_app, firstn_all, Nat.sub_diag. simpl. apply app_nil_r.
Qed.

Lemma slice_l_first a l r :
  List.length l = a -> Py.slice_l 0 a (l ++ r) = l.
Proof.
  intros <-. unfold Py.slice_l. rewrite Nat.sub_0_r.
  change (skipn 0 (l ++ r)) with (l ++ r).
  rewrite firstn_app, firstn_all, Nat.sub_diag. simpl. apply app_nil_r.
Qed.

Lemma slice_l_skip a b p l :
  List.length p = a -> Py.slice_l a b (p ++ l) = Py.slice_l 0 (b - a) l.
Proof.
  intros <-. unfold Py.slice_l.
  rewrite skipn_app, skipn_all, Nat.sub_diag, Nat.sub_0_r. reflexivity.
Qed.

Lemma date_time_block_digits year month t (lead dd hh mm : string) z :
  blank lead -> digits dd -> digits hh -> digits mm ->
  Py.len dd = 2%nat -> Py.len hh = 2%nat -> Py.len mm = 2%nat ->
  datetime_text t = lead +:+ dd +:+ hh +:+ mm +:+ String z "" ->
  date_time_block year month t =
    try_except
      (d ← new_datetime year month (number dd) (number hh) (number mm);
       Ok (VDatetime d))
      [AttributeError; ValueError] (Ok nan).
Proof.
  unfold blank, digits, Py.len. intros Hl Hd Hh Hm Ld Lh Lm Ht.
  unfold date_time_block. rewrite Ht.
  assert (Hcore : Py.strip (Py.drop_last 1
                    (lead +:+ dd +:+ hh +:+ mm +:+ String z "")) =
                  Py.str (Py.chars dd ++ Py.chars hh ++ Py.chars mm)).
  { unfold Py.strip, Py.drop_last. rewrite chars_str, !chars_app.
    change (Py.chars (String z "")) with [z].
    replace (Py.chars lead ++ Py.chars dd ++ Py.chars hh ++ Py.chars mm
             ++ [z])
      with ((Py.chars lead ++ Py.chars dd ++ Py.chars hh ++ Py.chars mm)
            ++ [z])
      by (rewrite <- !app_assoc; reflexivity).
    rewrite drop_last_one. f_equal. apply strip_l_core; [exact Hl | |].
    - apply starts_nonspace_app, all_digits_starts, Hd.
    - rewrite app_assoc. apply starts_nonspace_rev_app, Hm. }
  rewrite Hcore. unfold Py.slice. rewrite !chars_str.
  rewrite (slice_l_first 2 _ _ Ld).
  rewrite (slice_l_skip 2 4 _ _ Ld). simpl (4 - 2)%nat.
  rewrite (slice_l_first 2 _ _ Lh).
  rewrite app_assoc, (slice_l_skip 4 7).
  2:{ rewrite length_app. lia. }
  simpl (7 - 4)%nat.
  assert (Hmm : Py.slice_l 0 3 (Py.chars mm) = Py.chars mm).
  { unfold Py.slice_l. simpl. apply firstn_all2. lia. }
  rewrite Hmm, !str_chars.
  rewrite (int_digits dd Hd), (int_digits hh Hh), (int_digits mm Hm).
  reflexivity.
Qed.

(** X3.  A date group made of two digits for the day, two for the hour,
    two for the minute and one last character (the designator, whatever it
    is) is decoded to that day, hour and minute of the year and month
    given, when they form a date of the calendar, and to a missing date
    when they do not. *)
Theorem date_time_of_digits
    parse wx_code_map text year month stations t o
    (lead dd hh mm : string) (z : ascii) :
  parse text = Some t ->
  parse_metar parse wx_code_map text year month stations = Ok o ->
  blank lead -> digits dd -> digits hh -> digits mm ->
  Py.len dd = 2%nat -> Py.len hh = 2%nat -> Py.len mm = 2%nat ->
  datetime_text t = lead +:+ dd +:+ hh +:+ mm +:+ String z "" ->
  date_time o =
    if between 1 year 9999 && between 1 month 12
       && between 1 (number dd) (days_in_month year month)
       && between 0 (number hh) 23 && between 0 (number mm) 59
    then VDatetime (Datetime year month (number dd) (number hh) (number mm))
    else nan.
Proof.
  intros Ht H Hl Hd Hh Hm Ld Lh Lm Htext. decoded H Ht.
  destruct H as (_ & _ & Hdate & _).
  rewrite (date_time_block_digits year month t lead dd hh mm z) in Hdate
    by assumption.
  unfold new_datetime, try_except in Hdate.
  destruct (negb _); [discriminate |].
  destruct (_ && _ && _ && _ && _); simpl in Hdate;
    injection Hdate as <-; reflexivity.
Qed.

Lemma date_time_of_digits_witness :
  date_time sample_metar = VDatetime (Datetime 2020 5 12 12 53).
Proof.
  exact (date_time_of_digits sample_parse sample_wx_code_map sample_text
           2020 5 sample_stations sample_tree sample_metar
           " " "12" "12" "53" "Z"
           eq_refl eq_refl eq_refl eq_refl eq_refl eq_refl
           eq_refl eq_refl eq_refl eq_refl).
Defined.

(** ** Which groups can make the decoding fail *)

(** X4.  For a year and a month that are C integers, a tree is decoded to
    a record exactly when its visibility block, its sky block and its
    altimeter block run to their end: no other group can make the decoding
    fail. *)
Theorem decoding_fails_only_in_three_blocks
    wx_code_map stations year month t :
  fits_c_int year = true -> fits_c_int month = true ->
  (exists o, decode wx_code_map t year month stations = Ok o) <->
  (exists v, visibility_block t = Ok v) /\
  (exists s, sky_block t = Ok s) /\
  (exists a, altimeter_block t = Ok a).
Proof. apply decode_Ok_iff. Qed.

Lemma decoding_fails_only_in_three_blocks_witness :
  (exists o, decode sample_wx_code_map sample_tree 2020 5 sample_stations
             = Ok o) <->
  (exists v, visibility_block sample_tree = Ok v) /\
  (exists s, sky_block sample_tree = Ok s) /\
  (exists a, altimeter_block sample_tree = Ok a).
Proof.
  apply (decoding_fails_only_in_three_blocks sample_wx_code_map
           sample_stations 2020 5 sample_tree); reflexivity.
Defined.

(** ** Present weather: the slots and their symbols *)

Lemma split_l_tokens l : forall cur,
  (forall c, In c cur -> Py.isspace c = false) ->
  Forall (fun w => w <> [] /\ forall c, In c w -> Py.isspace c = false)
         (Py.split_l cur l).
Proof.
  induction l as [|a l IH]; intros cur Hcur; simpl.
  - destruct cur as [|b cur]; [apply List.Forall_nil |].
    apply List.Forall_cons; [| apply List.Forall_nil]. split.
    + intros E. apply (f_equal (@List.length ascii)) in E.
      rewrite length_rev in E. discriminate.
    + intros c Hc. apply Hcur. apply in_rev. exact Hc.
  - destruct (Py.isspace a) eqn:Ha.
    + destruct cur as [|b cur]; [apply IH; intros c [] |].
      apply List.Forall_cons; [| apply IH; intros c []]. split.
      * intros E. apply (f_equal (@List.length ascii)) in E.
        rewrite length_rev in E. discriminate.
      * intros c Hc. apply Hcur. apply in_rev. exact Hc.
    + apply IH. intros c [<- | Hc]; [exact Ha | auto].
Qed.

Lemma split_tokens s : Forall token (Py.split s).
Proof.
  unfold Py.split. apply List.Forall_forall. intros w Hw.
  apply in_map_iff in Hw as (l & <- & Hl).
  pose proof (split_l_tokens (Py.chars s) [] (fun c (H : In c []) =>
                match H with end)) as Hall.
  rewrite List.Forall_forall in Hall. destruct (Hall l Hl) as [Hne Hsp].
  split.
  - intros E. apply (f_equal Py.chars) in E. rewrite chars_str in E.
    exact (Hne E).
  - rewrite chars_str. exact Hsp.
Qed.

Lemma current_wx_block_slots wx_code_map t w1 w2 w3 ss :
  current_wx_block wx_code_map t = Ok ((w1, w2, w3), ss) ->
  (curwx t =? "")%string || (Py.strip (curwx t) =? "//")%string = false ->
  [w1; w2; w3] =
    firstn 3 (map VStr (Py.split (Py.strip (curwx t))) ++ [nan; nan; nan]).
Proof.
  unfold current_wx_block. intros H Hc. rewrite Hc in H.
  apply bind_Ok in H as (c1 & H1 & H).
  apply bind_Ok in H as (c2 & H2 & H).
  apply bind_Ok in H as (c3 & H3 & H).
  apply bind_Ok in H as (y1 & _ & H).
  apply bind_Ok in H as (y2 & _ & H).
  apply bind_Ok in H as (y3 & _ & H).
  injection H as <- <- <- _.
  revert H1 H2 H3. unfold index, wx_list.
  destruct (Py.split (Py.strip (curwx t))) as [|a [|b [|c rest]]];
    simpl; intros [= <-] [= <-] [= <-]; reflexivity.
Qed.

(** X5.  The three weather slots of a decoded report are the first three
    tokens of the weather group, in order, and missing from the end of the
    tokens on: a missing first slot leaves the second missing, a missing
    second slot leaves the third missing.  A slot that is not missing
    holds a token: a text that is not empty and has no white space.  An
    empty group, or a group that is "//" once stripped, leaves all three
    missing. *)
Theorem weather_slots
    parse wx_code_map text year month stations t o :
  parse text = Some t ->
  parse_metar parse wx_code_map text year month stations = Ok o ->
  (curwx t = "" \/ Py.strip (curwx t) = "//" ->
   current_wx1 o = nan /\ current_wx2 o = nan /\ current_wx3 o = nan) /\
  (curwx t <> "" -> Py.strip (curwx t) <> "//" ->
   [current_wx1 o; current_wx2 o; current_wx3 o] =
     firstn 3 (map VStr (Py.split (Py.strip (curwx t)))
               ++ [nan; nan; nan])) /\
  (current_wx1 o = nan -> current_wx2 o = nan) /\
  (current_wx2 o = nan -> current_wx3 o = nan) /\
  (forall s, In (VStr s) [current_wx1 o; current_wx2 o; current_wx3 o] ->
             token s).
Proof.
  intros Ht H. decoded H Ht.
  destruct H as (_ & _ & _ & _ & _ & Hwx & _).
  destruct ((curwx t =? "")%string || (Py.strip (curwx t) =? "//")%string)
    eqn:Hc.
  - assert (Hall : current_wx1 o = nan /\ current_wx2 o = nan /\
                   current_wx3 o = nan).
    { unfold current_wx_block in Hwx. rewrite Hc in Hwx.
      injection Hwx as <- <- <- _ _ _. repeat split. }
    destruct Hall as (E1 & E2 & E3).
    apply orb_true_iff in Hc. rewrite !String.eqb_eq in Hc.
    split; [intros _; repeat split; assumption |].
    split; [intros N1 N2; destruct Hc; contradiction |].
    split; [intros _; exact E2 |].
    split; [intros _; exact E3 |].
    intros s. rewrite E1, E2, E3. simpl. intuition discriminate.
  - pose proof (current_wx_block_slots _ _ _ _ _ _ Hwx Hc) as Hs.
    pose proof (split_tokens (Py.strip (curwx t))) as Htok.
    apply orb_false_iff in Hc as [Hc1 Hc2].
    apply String.eqb_neq in Hc1, Hc2.
    split; [intros [E | E]; contradiction |].
    split; [intros _ _; exact Hs |].
    destruct (Py.split (Py.strip (curwx t))) as [|a [|b [|c rest]]];
      simpl in Hs; injection Hs as -> -> ->.
    all: split; [intros E; first [reflexivity | discriminate E] |].
    all: split; [intros E; first [reflexivity | discriminate E] |].
    + intros s [E | [E | [E | []]]]; discriminate E.
    + intros s [[= <-] | [E | [E | []]]]; try discriminate E.
      apply List.Forall_inv in Htok. exact Htok.
    + intros s [[= <-] | [[= <-] | [E | []]]]; try discriminate E.
      * apply List.Forall_inv in Htok. exact Htok.
      * apply List.Forall_inv_tail, List.Forall_inv in Htok. exact Htok.
    + intros s [[= <-] | [[= <-] | [[= <-] | []]]].
      * apply List.Forall_inv in Htok. exact Htok.
      * apply List.Forall_inv_tail, List.Forall_inv in Htok. exact Htok.
      * apply List.Forall_inv_tail, List.Forall_inv_tail, List.Forall_inv
          in Htok.
        exact Htok.
Qed.

Lemma weather_slots_witness :
  [current_wx1 sample_metar; current_wx2 sample_metar;
   current_wx3 sample_metar] = [VStr "-RA"; VStr "BR"; nan].
Proof.
  destruct (weather_slots sample_parse sample_wx_code_map sample_text
              2020 5 sample_stations sample_tree sample_metar)
    as (_ & H & _).
  - reflexivity.
  - vm_compute. reflexivity.
  - rewrite H; [reflexivity | discriminate | discriminate].
Defined.

Lemma wx_symbol_of wx_code_map wx i w s :
  index wx i = Ok w ->
  wx_symbol wx_code_map wx i = Ok s ->
  s = symbol_of wx_code_map w.
Proof.
  unfold wx_symbol, try_except. intros ->. simpl.
  destruct w as [z|f|code|d]; simpl; try (intros [= <-]; reflexivity).
  unfold or_raise. destruct (wx_code_map !! code); simpl;
    intros [= <-]; reflexivity.
Qed.

(** X6.  The symbol of each weather slot of a decoded report is the code
    that the table of weather codes gives for the content of the slot, and
    0 when the slot is missing or its content is not in the table. *)
Theorem weather_symbols_lookup
    parse wx_code_map text year month stations o :
  parse_metar parse wx_code_map text year month stations = Ok o ->
  current_wx1_symbol o = symbol_of wx_code_map (current_wx1 o) /\
  current_wx2_symbol o = symbol_of wx_code_map (current_wx2 o) /\
  current_wx3_symbol o = symbol_of wx_code_map (current_wx3 o).
Proof.
  intros H. apply parse_metar_Ok in H as (t & _ & H).
  apply decode_Ok in H as (_ & _ & _ & _ & _ & Hwx & _).
  unfold current_wx_block in Hwx.
  destruct (_ || _).
  - injection Hwx as <- <- <- <- <- <-. repeat split.
  - apply bind_Ok in Hwx as (c1 & H1 & H).
    apply bind_Ok in H as (c2 & H2 & H).
    apply bind_Ok in H as (c3 & H3 & H).
    apply bind_Ok in H as (y1 & Hs1 & H).
    apply bind_Ok in H as (y2 & Hs2 & H).
    apply bind_Ok in H as (y3 & Hs3 & H).
    injection H as <- <- <- <- <- <-.
    repeat split; eapply wx_symbol_of; eassumption.
Qed.

Lemma weather_symbols_lookup_witness :
  current_wx1_symbol sample_metar = VInt 61 /\
  current_wx2_symbol sample_metar = VInt 10 /\
  current_wx3_symbol sample_metar = VInt 0.
Proof.
  destruct (weather_symbols_lookup sample_parse sample_wx_code_map
              sample_text 2020 5 sample_stations sample_metar)
    as (H1 & H2 & H3).
  - vm_compute. reflexivity.
  - rewrite H1, H2, H3. vm_compute. repeat split.
Defined.

(** ** Sky layers *)

Lemma contains_l_starts sub l :
  Py.starts_l sub l = true -> Py.contains_l sub l = true.
Proof. destruct l; simpl; intros ->; reflexivity. Qed.

Lemma contains_l_infix sub pre post :
  Py.contains_l sub (pre ++ sub ++ post) = true.
Proof.
  induction pre as [|a pre IH]; simpl.
  - apply contains_l_starts, starts_l_app.
  - rewrite IH. apply orb_true_r.
Qed.

Lemma lstrip_l_decomp l :
  exists ws, forallb Py.isspace ws = true /\ l = ws ++ Py.lstrip_l l.
Proof.
  induction l as [|a l (ws & Hws & IH)]; [exists []; split; reflexivity |].
  simpl. destruct (Py.isspace a) eqn:Ha.
  - exists (a :: ws). simpl. rewrite Ha, Hws. split; [reflexivity |].
    f_equal. exact IH.
  - exists []. split; reflexivity.
Qed.

Lemma strip_l_decomp l :
  exists a b, forallb Py.isspace a = true /\ forallb Py.isspace b = true /\
              l = a ++ Py.strip_l l ++ b.
Proof.
  destruct (lstrip_l_decomp l) as (a & Ha & El).
  destruct (lstrip_l_decomp (rev (Py.lstrip_l l))) as (b & Hb & Er).
  exists a, (rev b). split; [exact Ha |]. split.
  - rewrite forallb_forall in *. intros c Hc. apply Hb, in_rev, Hc.
  - unfold Py.strip_l. rewrite <- rev_app_distr, <- Er, rev_involutive.
    exact El.
Qed.

Lemma split_l_infix l : forall cur w,
  In w (Py.split_l cur l) ->
  exists pre post, rev cur ++ l = pre ++ w ++ post.
Proof.
  induction l as [|a l IH]; intros cur w Hw; simpl in Hw.
  - destruct cur as [|b cur]; [destruct Hw |].
    destruct Hw as [<- | []]. exists [], []. rewrite !app_nil_r. reflexivity.
  - destruct (Py.isspace a).
    + destruct cur as [|b cur].
      * apply IH in Hw as (pre & post & E). simpl in E.
        exists (a :: pre), post. simpl. rewrite E. reflexivity.
      * destruct Hw as [<- | Hw].
        -- exists [], (a :: l). reflexivity.
        -- apply IH in Hw as (pre & post & E). simpl in E.
           exists (rev (b :: cur) ++ a :: pre), post.
           rewrite E, <- !app_assoc. reflexivity.
    + apply IH in Hw as (pre & post & E).
      exists pre, post. rewrite <- E. simpl. rewrite <- app_assoc.
      reflexivity.
Qed.

(** A prefix of a token of the stripped text occurs in the text. *)
Lemma token_prefix_in_text (text layer : string) k :
  In layer (Py.split (Py.strip text)) ->
  Py.contains (Py.slice 0 k layer) text = true.
Proof.
  unfold Py.split, Py.strip, Py.contains, Py.slice, Py.slice_l.
  rewrite !chars_str. intros Hin.
  apply in_map_iff in Hin as (w & <- & Hw). rewrite chars_str.
  apply split_l_infix in Hw as (pre & post & E). simpl in E.
  destruct (strip_l_decomp (Py.chars text)) as (a & b & _ & _ & Et).
  rewrite Et, E. rewrite Nat.sub_0_r.
  change (skipn 0 w) with w.
  rewrite <- (firstn_skipn k w) at 2.
  replace (a ++ (pre ++ (firstn k w ++ skipn k w) ++ post) ++ b)
    with ((a ++ pre) ++ firstn k w ++ (skipn k w ++ post ++ b))
    by (rewrite <- !app_assoc; reflexivity).
  apply contains_l_infix.
Qed.

Lemma slice_in_text (text : string) a b :
  Py.contains (Py.slice a b text) text = true.
Proof.
  unfold Py.contains, Py.slice, Py.slice_l. rewrite chars_str.
  rewrite <- (firstn_skipn a (Py.chars text)) at 2.
  rewrite <- (firstn_skipn (b - a) (skipn a (Py.chars text))) at 2.
  apply contains_l_infix.
Qed.

Lemma sky_type_inv skyc i handled v :
  sky_type skyc i handled = Ok v ->
  v = nan \/
  exists layer, skyc !! i = Some layer /\ v = VStr (Py.slice 0 3 layer) /\
                Py.contains "/" (Py.slice 0 3 layer) = false.
Proof.
  unfold sky_type, index, try_except.
  destruct (skyc !! i) as [layer|]; simpl.
  - destruct (Py.contains "/" (Py.slice 0 3 layer)) eqn:E;
      intros [= <-]; [left; reflexivity |].
    right. exists layer. repeat split. exact E.
  - destruct (existsb _ _); [| discriminate].
    intros [= <-]. left. reflexivity.
Qed.

Lemma sky_absent skyc i handled :
  skyc !! i = None -> In IndexError handled ->
  sky_type skyc i handled = Ok nan /\ sky_level skyc i = Ok nan.
Proof.
  intros Hi Hin. unfold sky_type, sky_level, index, try_except.
  rewrite Hi. simpl.
  assert (Hh : existsb (exn_eqb IndexError) handled = true).
  { apply existsb_exists. exists IndexError. split; [exact Hin | reflexivity]. }
  rewrite Hh. split; reflexivity.
Qed.

(** The eight values of the sky block when the group is not a vertical
    visibility. *)
Lemma sky_block_layers t c1 l1 c2 l2 c3 l3 c4 l4 :
  Py.slice 1 3 (skyc t) <> "VV" ->
  sky_block t = Ok (c1, l1, c2, l2, c3, l3, c4, l4) ->
  let skyc := Py.split (Py.strip (skyc t)) in
  sky_type skyc 0 [IndexError; ValueError; TypeError] = Ok c1 /\
  sky_level skyc 0 = Ok l1 /\
  sky_type skyc 1 [IndexError; ValueError; TypeError] = Ok c2 /\
  sky_level skyc 1 = Ok l2 /\
  sky_type skyc 2 [IndexError; ValueError] = Ok c3 /\
  sky_level skyc 2 = Ok l3 /\
  sky_type skyc 3 [IndexError; ValueError; TypeError] = Ok c4 /\
  sky_level skyc 3 = Ok l4.
Proof.
  intros Hvv H. unfold sky_block in H.
  apply String.eqb_neq in Hvv. rewrite Hvv in H.
  apply bind_Ok in H as (x1 & H1 & H).
  apply bind_Ok in H as (y1 & H2 & H).
  apply bind_Ok in H as (x2 & H3 & H).
  apply bind_Ok in H as (y2 & H4 & H).
  apply bind_Ok in H as (x3 & H5 & H).
  apply bind_Ok in H as (y3 & H6 & H).
  apply bind_Ok in H as (x4 & H7 & H).
  apply bind_Ok in H as (y4 & H8 & H).
  injection H as <- <- <- <- <- <- <- <-.
  repeat split; assumption.
Qed.

Lemma sky_block_vv t c1 l1 c2 l2 c3 l3 c4 l4 :
  Py.slice 1 3 (skyc t) = "VV" ->
  sky_block t = Ok (c1, l1, c2, l2, c3, l3, c4, l4) ->
  c1 = VStr "VV" /\ c2 = nan /\ l2 = nan /\ c3 = nan /\ l3 = nan /\
  c4 = nan /\ l4 = nan /\
  let level := Py.slice_from 2 (Py.strip (skyc t)) in
  (level = "///" -> l1 = nan) /\
  (level <> "///" ->
   exists n, Py.int level = Some n /\ l1 = VInt (100 * n)).
Proof.
  intros Hvv H. unfold sky_block in H.
  rewrite Hvv in H. change ("VV" =? "VV")%string with true in H.
  cbv iota in H.
  apply bind_Ok in H as (lev & Hlev & H).
  injection H as <- <- <- <- <- <- <- <-.
  repeat split.
  - intros E. rewrite E in Hlev.
    change ("///" =? "///")%string with true in Hlev.
    injection Hlev as <-. reflexivity.
  - intros E. apply String.eqb_neq in E. rewrite E in Hlev.
    unfold int in Hlev.
    destruct (Py.int _) as [n|]; [| discriminate].
    injection Hlev as <-. exists n. split; reflexivity.
Qed.

(** X7.  When the sky group is a vertical visibility (its second and third
    characters are VV), a decoded report has the single layer VV: the
    other three layers are missing, the cloud cover is 8, and the height
    of the layer is missing for the filler "///" and 100 times the integer
    that follows VV otherwise. *)
Theorem vertical_visibility_layer
    parse wx_code_map text year month stations t o :
  parse text = Some t ->
  parse_metar parse wx_code_map text year month stations = Ok o ->
  Py.slice 1 3 (skyc t) = "VV" ->
  skyc1 o = VStr "VV" /\
  skyc2 o = nan /\ skylev2 o = nan /\ skyc3 o = nan /\ skylev3 o = nan /\
  skyc4 o = nan /\ skylev4 o = nan /\
  cloudcover o = VInt 8 /\
  let level := Py.slice_from 2 (Py.strip (skyc t)) in
  (level = "///" -> skylev1 o = nan) /\
  (level <> "///" ->
   exists n, Py.int level = Some n /\ skylev1 o = VInt (100 * n)).
Proof.
  intros Ht H Hvv. decoded H Ht.
  destruct H as (_ & _ & _ & _ & _ & _ & Hs & Hc & _).
  destruct (sky_block_vv _ _ _ _ _ _ _ _ _ Hvv Hs)
    as (E1 & E2 & E3 & E4 & E5 & E6 & E7 & Hlev).
  repeat (split; [assumption |]).
  split; [| exact Hlev].
  rewrite Hc. unfold cloudcover_block.
  pose proof (slice_in_text (skyc t) 1 3) as Hin. rewrite Hvv in Hin.
  rewrite Hin, orb_true_r. reflexivity.
Qed.

Lemma vertical_visibility_layer_witness :
  Py.slice 1 3 " VV002" = "VV" /\
  exists o,
    parse_metar (fun _ => Some (with_skyc sample_tree " VV002"))
                sample_wx_code_map sample_text 2020 5 sample_stations
      = Ok o /\
    skyc1 o = VStr "VV" /\ skylev1 o = VInt 200 /\ cloudcover o = VInt 8.
Proof.
  split; [reflexivity |].
  destruct (parse_metar (fun _ => Some (with_skyc sample_tree " VV002"))
              sample_wx_code_map sample_text 2020 5 sample_stations)
    as [o|e] eqn:E; [| vm_compute in E; discriminate E].
  exists o. split; [reflexivity |].
  destruct (vertical_visibility_layer
              (fun _ => Some (with_skyc sample_tree " VV002"))
              sample_wx_code_map sample_text 2020 5 sample_stations
              (with_skyc sample_tree " VV002") o eq_refl E eq_refl)
    as (H1 & _ & _ & _ & _ & _ & _ & H8 & _ & Hlev).
  split; [exact H1 |]. split; [| exact H8].
  destruct Hlev as (n & Hn & ->); [discriminate |].
  vm_compute in Hn. injection Hn as <-. reflexivity.
Defined.

Lemma token_slice_type (layers : list string) i layer :
  Forall token layers -> layers !! i = Some layer ->
  Py.contains "/" (Py.slice 0 3 layer) = false ->
  layer_type_ok (VStr (Py.slice 0 3 layer)).
Proof.
  intros Htok Hi Hc. right. exists (Py.slice 0 3 layer).
  split; [reflexivity |]. split; [| split; [| exact Hc]].
  - rewrite List.Forall_forall in Htok.
    destruct (Htok layer) as [Hne _].
    { apply list_elem_of_In. eapply list_elem_of_lookup_2. exact Hi. }
    intros E. apply Hne.
    apply (f_equal Py.chars) in E. unfold Py.slice, Py.slice_l in E.
    rewrite chars_str in E.
    change (skipn 0 (Py.chars layer)) with (Py.chars layer) in E.
    rewrite <- (str_chars layer).
    destruct (Py.chars layer); [reflexivity | discriminate E].
  - unfold Py.len. apply slice_length.
Qed.

(** X8.  The type of each of the four sky layers of a decoded report is
    missing or is a text of one to three characters without filler; and
    when the group is not a vertical visibility, a layer beyond the tokens
    of the group has both its type and its height missing. *)
Theorem sky_layer_types
    parse wx_code_map text year month stations t o :
  parse text = Some t ->
  parse_metar parse wx_code_map text year month stations = Ok o ->
  Forall layer_type_ok [skyc1 o; skyc2 o; skyc3 o; skyc4 o] /\
  (Py.slice 1 3 (skyc t) <> "VV" ->
   forall i, (List.length (Py.split (Py.strip (skyc t))) <= i < 4)%nat ->
     nth i [skyc1 o; skyc2 o; skyc3 o; skyc4 o] nan = nan /\
     nth i [skylev1 o; skylev2 o; skylev3 o; skylev4 o] nan = nan).
Proof.
  intros Ht H. decoded H Ht.
  destruct H as (_ & _ & _ & _ & _ & _ & Hs & _).
  destruct (String.eqb_spec (Py.slice 1 3 (skyc t)) "VV") as [Hvv | Hvv].
  - destruct (sky_block_vv _ _ _ _ _ _ _ _ _ Hvv Hs)
      as (-> & -> & _ & -> & _ & -> & _).
    split; [| intros N; contradiction].
    repeat apply List.Forall_cons; try apply List.Forall_nil;
      try (left; reflexivity).
    right. exists "VV". repeat split; try discriminate. vm_compute. lia.
  - pose proof (sky_block_layers _ _ _ _ _ _ _ _ _ Hvv Hs) as Hl.
    cbv zeta in Hl.
    pose proof (split_tokens (Py.strip (skyc t))) as Htok.
    set (layers := Py.split (Py.strip (skyc t))) in *.
    destruct Hl as (T1 & L1 & T2 & L2 & T3 & L3 & T4 & L4).
    split.
    + repeat apply List.Forall_cons; try apply List.Forall_nil.
      * apply sky_type_inv in T1 as [-> | (w & Hw & -> & Hc)];
          [left; reflexivity | eapply token_slice_type; eassumption].
      * apply sky_type_inv in T2 as [-> | (w & Hw & -> & Hc)];
          [left; reflexivity | eapply token_slice_type; eassumption].
      * apply sky_type_inv in T3 as [-> | (w & Hw & -> & Hc)];
          [left; reflexivity | eapply token_slice_type; eassumption].
      * apply sky_type_inv in T4 as [-> | (w & Hw & -> & Hc)];
          [left; reflexivity | eapply token_slice_type; eassumption].
    + intros _ i [Hlen Hi].
      assert (Hnone : layers !! i = None)
        by (apply lookup_ge_None_2; exact Hlen).
      destruct i as [|[|[|[|i]]]]; [| | | | lia]; simpl.
      * destruct (sky_absent layers 0 [IndexError; ValueError; TypeError]
                    Hnone) as [A B]; [simpl; tauto |].
        rewrite A in T1. rewrite B in L1.
        injection T1 as <-. injection L1 as <-. split; reflexivity.
      * destruct (sky_absent layers 1 [IndexError; ValueError; TypeError]
                    Hnone) as [A B]; [simpl; tauto |].
        rewrite A in T2. rewrite B in L2.
        injection T2 as <-. injection L2 as <-. split; reflexivity.
      * destruct (sky_absent layers 2 [IndexError; ValueError]
                    Hnone) as [A B]; [simpl; tauto |].
        rewrite A in T3. rewrite B in L3.
        injection T3 as <-. injection L3 as <-. split; reflexivity.
      * destruct (sky_absent layers 3 [IndexError; ValueError; TypeError]
                    Hnone) as [A B]; [simpl; tauto |].
        rewrite A in T4. rewrite B in L4.
        injection T4 as <-. injection L4 as <-. split; reflexivity.
Qed.

Lemma sky_layer_types_witness :
  Forall layer_type_ok
    [skyc1 sample_metar; skyc2 sample_metar; skyc3 sample_metar;
     skyc4 sample_metar] /\
  skyc3 sample_metar = nan /\ skylev3 sample_metar = nan.
Proof.
  destruct (sky_layer_types sample_parse sample_wx_code_map sample_text
              2020 5 sample_stations sample_tree sample_metar)
    as (H1 & H2).
  - reflexivity.
  - vm_compute. reflexivity.
  - split; [exact H1 |].
    apply (H2 ltac:(discriminate) 2%nat). vm_compute. lia.
Defined.

(** *** The cloud cover and the decoded layers *)

(** The type of a decoded layer occurs in the text of the sky group. *)
Lemma layer_in_text t c1 l1 c2 l2 c3 l3 c4 l4 s :
  sky_block t = Ok (c1, l1, c2, l2, c3, l3, c4, l4) ->
  In (VStr s) [c1; c2; c3; c4] ->
  Py.contains s (skyc t) = true.
Proof.
  intros Hs Hin.
  destruct (String.eqb_spec (Py.slice 1 3 (skyc t)) "VV") as [Hvv | Hvv].
  - destruct (sky_block_vv _ _ _ _ _ _ _ _ _ Hvv Hs)
      as (-> & -> & _ & -> & _ & -> & _).
    destruct Hin as [[= <-] | [E | [E | [E | []]]]]; try discriminate E.
    rewrite <- Hvv. apply slice_in_text.
  - pose proof (sky_block_layers _ _ _ _ _ _ _ _ _ Hvv Hs) as Hl.
    cbv zeta in Hl.
    destruct Hl as (T1 & _ & T2 & _ & T3 & _ & T4 & _).
    assert (Hone : forall i handled c,
              sky_type (Py.split (Py.strip (skyc t))) i handled = Ok c ->
              c = VStr s -> Py.contains s (skyc t) = true).
    { intros i handled c Hc ->.
      apply sky_type_inv in Hc as [E | (layer & Hi & [= ->] & _)];
        [discriminate E |].
      apply token_prefix_in_text.
      apply list_elem_of_In. eapply list_elem_of_lookup_2. exact Hi. }
    destruct Hin as [E | [E | [E | [E | []]]]]; symmetry in E; eauto.
Qed.

(** The cover and a text that the sky group holds: the cover is not below
    the oktas of the text, and with a text that has oktas it is at most 8. *)
Lemma cloudcover_block_bounds t s :
  Py.contains s (skyc t) = true ->
  (layer_oktas s <= cloudcover_block t)%Z /\
  ((0 < layer_oktas s)%Z -> (cloudcover_block t <= 8)%Z).
Proof.
  intros Ht. unfold layer_oktas, cloudcover_block.
  destruct (s =? "OVC")%string eqn:E1.
  { apply String.eqb_eq in E1. subst s. rewrite Ht. simpl. lia. }
  destruct (s =? "VV")%string eqn:E2.
  { apply String.eqb_eq in E2. subst s. rewrite Ht, !orb_true_r. simpl. lia. }
  simpl.
  destruct (Py.contains "OVC" (skyc t) || Py.contains "VV" (skyc t));
    [repeat destruct (s =? _)%string; lia |].
  destruct (s =? "BKN")%string eqn:E3.
  { apply String.eqb_eq in E3. subst s. rewrite Ht. lia. }
  destruct (Py.contains "BKN" (skyc t));
    [repeat destruct (s =? _)%string; lia |].
  destruct (s =? "SCT")%string eqn:E4.
  { apply String.eqb_eq in E4. subst s. rewrite Ht. lia. }
  destruct (Py.contains "SCT" (skyc t));
    [repeat destruct (s =? _)%string; lia |].
  destruct (s =? "FEW")%string eqn:E5.
  { apply String.eqb_eq in E5. subst s. rewrite Ht. lia. }
  destruct (Py.contains "FEW" (skyc t)); [lia |].
  destruct (_ || _); lia.
Qed.

(** X9.  The cloud cover of a decoded report goes with its decoded
    layers: with a layer of type OVC or VV it is 8; it is never below the
    oktas of a layer (at least 6 with a layer BKN, 4 with a layer SCT, 2
    with a layer FEW), and with any such layer it is at most 8, never the
    10 of an unknown sky. *)
Theorem cloud_cover_dominates_layers
    parse wx_code_map text year month stations o :
  parse_metar parse wx_code_map text year month stations = Ok o ->
  let layers := [skyc1 o; skyc2 o; skyc3 o; skyc4 o] in
  exists oktas,
    cloudcover o = VInt oktas /\
    (In (VStr "OVC") layers \/ In (VStr "VV") layers -> oktas = 8%Z) /\
    (forall s, In (VStr s) layers ->
               (layer_oktas s <= oktas)%Z /\
               ((0 < layer_oktas s)%Z -> (oktas <= 8)%Z)).
Proof.
  intros H layers. apply parse_metar_Ok in H as (t & _ & H).
  apply decode_Ok in H as (_ & _ & _ & _ & _ & _ & Hs & Hc & _).
  assert (Hb : forall s, In (VStr s) layers ->
                 (layer_oktas s <= cloudcover_block t)%Z /\
                 ((0 < layer_oktas s)%Z -> (cloudcover_block t <= 8)%Z)).
  { intros s Hin. apply cloudcover_block_bounds.
    exact (layer_in_text _ _ _ _ _ _ _ _ _ _ Hs Hin). }
  exists (cloudcover_block t). split; [exact Hc |]. split; [| exact Hb].
  intros [Hin | Hin]; apply Hb in Hin as [Hlo Hhi];
    change (8 <= cloudcover_block t)%Z in Hlo;
    specialize (Hhi ltac:(reflexivity)); lia.
Qed.

Lemma cloud_cover_dominates_layers_witness :
  let layers := [skyc1 sample_metar; skyc2 sample_metar;
                 skyc3 sample_metar; skyc4 sample_metar] in
  exists oktas,
    cloudcover sample_metar = VInt oktas /\
    (In (VStr "OVC") layers \/ In (VStr "VV") layers -> oktas = 8%Z) /\
    (forall s, In (VStr s) layers ->
               (layer_oktas s <= oktas)%Z /\
               ((0 < layer_oktas s)%Z -> (oktas <= 8)%Z)).
Proof.
  apply (cloud_cover_dominates_layers sample_parse sample_wx_code_map
           sample_text 2020 5 sample_stations sample_metar).
  vm_compute. reflexivity.
Defined.

(** ** When a field is missing *)

Lemma fmul_hundredth_not_nan f :
  Py.fgt f (Py.of_int 1100) = true ->
  Py.fmul f (Py.Fnum (1 # 100)) <> Py.Fnan.
Proof. destruct f as [|s|q]; simpl; [discriminate | | ]; discriminate. Qed.

(** X10.  The altimeter of a decoded report is missing exactly when the
    altimeter group is empty. *)
Theorem altimeter_missing_iff
    parse wx_code_map text year month stations t o :
  parse text = Some t ->
  parse_metar parse wx_code_map text year month stations = Ok o ->
  altimeter o = nan <-> altim t = "".
Proof.
  intros Ht H. decoded H Ht.
  destruct H as (_ & _ & _ & _ & _ & _ & _ & _ & _ & Ha).
  unfold altimeter_block in Ha.
  destruct (String.eqb_spec (altim t) "") as [E | E].
  - injection Ha as <-. split; [intros _; exact E | reflexivity].
  - split; [| intros E'; contradiction].
    intros Hnan. exfalso. revert Ha. unfold float, int.
    destruct (Py.float_of _) as [f|]; simpl; [| discriminate].
    destruct (Py.fgt f (Py.of_int 1100)) eqn:Hgt.
    + rewrite fdiv_100. simpl. intros [= Hq]. rewrite Hnan in Hq.
      injection Hq as Hq. exact (fmul_hundredth_not_nan f Hgt Hq).
    + destruct (Py.int _) as [n|]; simpl; [| discriminate].
      intros [= Hq]. rewrite Hnan in Hq. discriminate Hq.
Qed.

Lemma altimeter_missing_iff_witness :
  altimeter sample_metar = nan <-> altim sample_tree = "".
Proof.
  apply (altimeter_missing_iff sample_parse sample_wx_code_map sample_text
           2020 5 sample_stations sample_tree sample_metar).
  - reflexivity.
  - vm_compute. reflexivity.
Defined.

Lemma starts_l_In p c l : Py.starts_l p l = true -> In c p -> In c l.
Proof.
  revert l. induction p as [|a p IH]; intros l H Hin; [destruct Hin |].
  destruct l as [|b l]; [discriminate |]. simpl in H.
  apply andb_prop in H as [Hab H]. apply Ascii.eqb_eq in Hab. subst b.
  destruct Hin as [<- | Hin]; [left; reflexivity | right; eauto].
Qed.

Lemma contains_l_In sub c l :
  Py.contains_l sub l = true -> In c sub -> In c l.
Proof.
  induction l as [|a l IH]; simpl; intros H Hin.
  - rewrite orb_false_r in H. exact (starts_l_In sub c [] H Hin).
  - apply orb_prop in H as [H | H].
    + exact (starts_l_In sub c (a :: l) H Hin).
    + right. auto.
Qed.

(** A stripped text that is "////" neither ends with SM nor holds CAVOK. *)
Lemma fillers_not_SM_CAVOK text :
  Py.strip text = "////" ->
  Py.endswith text "SM" = false /\ Py.contains "CAVOK" text = false.
Proof.
  intros Hs.
  assert (Hno : forall c, In c (Py.chars text) -> Py.isspace c = false ->
                          In c (Py.chars "////")).
  { intros c Hc Hsp. rewrite <- Hs. unfold Py.strip. rewrite chars_str.
    apply strip_l_keeps; assumption. }
  split.
  - destruct (Py.endswith text "SM") eqn:E; [| reflexivity]. exfalso.
    unfold Py.endswith in E.
    assert (Hin : In "S"%char (Py.chars text)).
    { apply in_rev. eapply starts_l_In; [exact E |]. simpl. tauto. }
    apply Hno in Hin; [| reflexivity].
    simpl in Hin. intuition discriminate.
  - destruct (Py.contains "CAVOK" text) eqn:E; [| reflexivity]. exfalso.
    assert (Hin : In "C"%char (Py.chars text)).
    { eapply contains_l_In; [exact E |]. simpl. tauto. }
    apply Hno in Hin; [| reflexivity].
    simpl in Hin. intuition discriminate.
Qed.

(** X11.  The visibility of a decoded report is missing exactly when the
    visibility group is empty or, once stripped, is "////". *)
Theorem visibility_missing_iff
    parse wx_code_map text year month stations t o :
  parse text = Some t ->
  parse_metar parse wx_code_map text year month stations = Ok o ->
  visibility o = nan <-> (vis t = "" \/ Py.strip (vis t) = "////").
Proof.
  intros Ht H. decoded H Ht.
  destruct H as (_ & _ & _ & _ & Hv & _).
  rewrite visibility_block_spec in Hv. unfold visibility_spec in Hv.
  split.
  - intros Hnan. revert Hv.
    destruct (Py.endswith (vis t) "SM").
    { intros Hv. apply bind_Ok in Hv as ([w rest] & _ & Hv).
      apply bind_Ok in Hv as (fr & _ & Hv).
      injection Hv as Hv. rewrite Hnan in Hv. discriminate Hv. }
    destruct (Py.contains "CAVOK" (vis t)).
    { intros [= Hv]. rewrite Hnan in Hv. discriminate Hv. }
    destruct (_ || _) eqn:E.
    { intros _. apply orb_true_iff in E. rewrite !String.eqb_eq in E.
      exact E. }
    unfold int. destruct (Py.int _); simpl; [| discriminate].
    intros [= Hv]. rewrite Hnan in Hv. discriminate Hv.
  - intros Hempty.
    assert (Hb : Py.endswith (vis t) "SM" = false /\
                 Py.contains "CAVOK" (vis t) = false).
    { destruct Hempty as [E | E];
        [rewrite E; split; reflexivity | apply fillers_not_SM_CAVOK, E]. }
    destruct Hb as [Hsm Hcav]. rewrite Hsm, Hcav in Hv.
    assert (Hc : (vis t =? "")%string || (Py.strip (vis t) =? "////")%string
                 = true).
    { apply orb_true_iff. rewrite !String.eqb_eq. exact Hempty. }
    rewrite Hc in Hv. injection Hv as <-. reflexivity.
Qed.

Lemma visibility_missing_iff_witness :
  visibility sample_metar = nan <->
  (vis sample_tree = "" \/ Py.strip (vis sample_tree) = "////").
Proof.
  apply (visibility_missing_iff sample_parse sample_wx_code_map sample_text
           2020 5 sample_stations sample_tree sample_metar).
  - reflexivity.
  - vm_compute. reflexivity.
Defined.

(** ** The range of a temperature *)

Lemma short_texts_small_true : short_texts_small = true.
Proof. vm_compute. reflexivity. Qed.

Lemma In_all_chars c : In c all_chars.
Proof.
  unfold all_chars. rewrite <- (ascii_nat_embedding c).
  apply in_map, in_seq. pose proof (nat_ascii_bounded c). lia.
Qed.

Lemma float_l_short l :
  (List.length l <= 2)%nat -> small_float (Py.float_l l) = true.
Proof.
  intros Hl. pose proof short_texts_small_true as H.
  unfold short_texts_small in H.
  apply andb_prop in H as [H0 H]. rewrite forallb_forall in H.
  destruct l as [|a [|b [|c l]]]; [exact H0 | | | simpl in Hl; lia].
  - destruct (andb_prop _ _ (H a (In_all_chars a))) as [H1 _]. exact H1.
  - destruct (andb_prop _ _ (H a (In_all_chars a))) as [_ H2].
    rewrite forallb_forall in H2. exact (H2 b (In_all_chars b)).
Qed.

Lemma last_l_length k l : (List.length (Py.last_l k l) <= k)%nat.
Proof. unfold Py.last_l. rewrite length_skipn. lia. Qed.

Lemma sub_token_range text : temperature_ok (sub_token_spec text).
Proof.
  unfold sub_token_spec, Py.float_of, Py.last.
  rewrite chars_str.
  pose proof (float_l_short (Py.last_l 2 (Py.chars text))
                (last_l_length 2 _)) as Hs.
  destruct (Py.float_l _) as [[|s|q]|]; simpl in Hs;
    try discriminate Hs; [| left; reflexivity].
  apply andb_prop in Hs as [Hlo Hhi].
  apply Qle_bool_iff in Hlo, Hhi.
  right. destruct (Py.contains "M" text).
  - exists (Qred (- q)). split; [reflexivity |].
    rewrite Qred_correct. split.
    + apply Qopp_le_compat in Hhi. exact Hhi.
    + apply Qopp_le_compat in Hlo. exact Hlo.
  - exists q. split; [reflexivity | split; assumption].
Qed.

(** X12.  The temperature and the dew point of a decoded report are each
    missing or a finite number between -99 and 99: the two characters
    that are read cannot write more. *)
Theorem temperature_range
    parse wx_code_map text year month stations o :
  parse_metar parse wx_code_map text year month stations = Ok o ->
  temperature_ok (temperature o) /\ temperature_ok (dewpoint o).
Proof.
  intros H. apply parse_metar_Ok in H as (t & _ & H).
  apply decode_Ok in H as (_ & _ & _ & _ & _ & _ & _ & _ & Htd & _).
  rewrite temp_dewp_block_spec in Htd.
  destruct (_ || _); injection Htd as <- <-.
  - split; left; reflexivity.
  - split; apply sub_token_range.
Qed.

Lemma temperature_range_witness :
  temperature_ok (temperature sample_metar) /\
  temperature_ok (dewpoint sample_metar).
Proof.
  apply (temperature_range sample_parse sample_wx_code_map sample_text
           2020 5 sample_stations sample_metar).
  vm_compute. reflexivity.
Defined.

(** ** The reports of a file *)

Lemma join_single sep text : Py.join sep [text] = text.
Proof. unfold Py.join. simpl. apply str_chars. Qed.

Lemma full_metars_from_blank prefix tmp line x :
  is_blank line = true ->
  full_metars_from prefix tmp (line :: x) = full_metars_from prefix tmp x.
Proof. unfold is_blank. intros H. simpl. rewrite H. reflexivity. Qed.

Lemma full_metars_from_new prefix tmp line x :
  is_blank line = false -> Py.startswith line prefix = false -> tmp <> [] ->
  full_metars_from prefix tmp (line :: x) =
    Py.join " " tmp :: full_metars_from prefix [Py.strip line] x.
Proof.
  unfold is_blank. intros H Hp Ht. simpl. rewrite H, Hp.
  destruct tmp; [contradiction | reflexivity].
Qed.

Lemma full_metars_from_more prefix tmp line x :
  is_blank line = false -> Py.startswith line prefix = true \/ tmp = [] ->
  full_metars_from prefix tmp (line :: x) =
    full_metars_from prefix (tmp ++ [Py.strip line]) x.
Proof.
  unfold is_blank. intros H [Hp | ->]; simpl; rewrite H.
  - rewrite Hp. reflexivity.
  - rewrite andb_false_r. reflexivity.
Qed.

Lemma full_metars_from_boundary prefix line after : forall before tmp,
  is_blank line = false -> Py.startswith line prefix = false ->
  full_metars_from prefix tmp (before ++ line :: after) =
    full_metars_from prefix tmp before ++
    full_metars_from prefix [] (line :: after).
Proof.
  intros before tmp Hb Hp. revert tmp.
  induction before as [|i before IH]; intros tmp.
  - change ([] ++ line :: after) with (line :: after).
    rewrite (full_metars_from_more prefix [] line after Hb (or_intror eq_refl)).
    destruct tmp as [|a tmp].
    + rewrite (full_metars_from_more prefix [] line after Hb
                 (or_intror eq_refl)).
      reflexivity.
    + rewrite (full_metars_from_new prefix (a :: tmp) line after Hb Hp)
        by discriminate.
      reflexivity.
  - change ((i :: before) ++ line :: after)
      with (i :: (before ++ line :: after)).
    destruct (is_blank i) eqn:Bi.
    + rewrite !(full_metars_from_blank _ _ _ _ Bi). apply IH.
    + destruct (Py.startswith i prefix) eqn:Pi.
      * rewrite !(full_metars_from_more _ _ _ _ Bi (or_introl Pi)). apply IH.
      * destruct tmp as [|a tmp].
        -- rewrite !(full_metars_from_more _ [] _ _ Bi (or_intror eq_refl)).
           apply IH.
        -- rewrite !(full_metars_from_new _ (a :: tmp) _ _ Bi Pi)
             by discriminate.
           rewrite IH. reflexivity.
Qed.

(** X13.  A line that is not blank and does not begin with five blanks
    starts a new report: the reports of a file are those of the lines
    before it, followed by those of the lines from it on. *)
Theorem new_report_line (before : list string) (line : string)
    (after : list string) :
  is_blank line = false -> continues line = false ->
  full_metars (before ++ line :: after) =
    full_metars before ++ full_metars (line :: after).
Proof.
  intros Hb Hc. unfold full_metars.
  apply full_metars_from_boundary; assumption.
Qed.

Lemma new_report_line_witness :
  full_metars (["KDEN 1"; "     2"] ++ "KSLC 3" :: [""; "     4"]) =
    full_metars ["KDEN 1"; "     2"] ++ full_metars ("KSLC 3" :: [""; "     4"])
  /\ full_metars ["KDEN 1"; "     2"; "KSLC 3"; ""; "     4"] =
       ["KDEN 1 2"; "KSLC 3 4"].
Proof.
  split.
  - apply (new_report_line ["KDEN 1"; "     2"] "KSLC 3" [""; "     4"]);
      vm_compute; reflexivity.
  - vm_compute. reflexivity.
Defined.

Lemma full_metars_from_block prefix : forall rest tmp,
  tmp <> [] ->
  Forall (fun i => is_blank i = true \/ Py.startswith i prefix = true) rest ->
  full_metars_from prefix tmp rest =
    [Py.join " "
       (tmp ++ map Py.strip (List.filter (fun i => negb (is_blank i)) rest))].
Proof.
  induction rest as [|i rest IH]; intros tmp Ht Hall.
  - simpl. rewrite app_nil_r. destruct tmp; [contradiction | reflexivity].
  - pose proof (List.Forall_inv Hall) as Hi. cbv beta in Hi.
    pose proof (List.Forall_inv_tail Hall) as Hrest.
    cbn [List.filter]. destruct (is_blank i) eqn:Bi; cbn [negb].
    + rewrite (full_metars_from_blank _ _ _ _ Bi). apply IH; assumption.
    + destruct Hi as [Hi | Hi]; [discriminate Hi |].
      rewrite (full_metars_from_more _ _ _ _ Bi (or_introl Hi)).
      rewrite IH; [| destruct tmp; discriminate | exact Hrest].
      cbn [map]. rewrite <- app_assoc. reflexivity.
Qed.

(** X14.  A line that is not blank, followed by lines that are blank or
    begin with five blanks, is one report: the lines that are not blank,
    each stripped, joined by single blanks. *)
Theorem report_of_block (first : string) (rest : list string) :
  is_blank first = false ->
  Forall (fun i => is_blank i = true \/ continues i = true) rest ->
  full_metars (first :: rest) =
    [Py.join " "
       (map Py.strip
          (List.filter (fun i => negb (is_blank i)) (first :: rest)))].
Proof.
  intros Hb Hall. unfold full_metars.
  rewrite (full_metars_from_more _ [] _ _ Hb (or_intror eq_refl)).
  rewrite full_metars_from_block; [| discriminate | exact Hall].
  cbn [List.filter]. rewrite Hb. reflexivity.
Qed.

Lemma report_of_block_witness :
  full_metars ("KDEN 121753Z 01010KT" :: ["     10SM FEW050"; "  ";
                                          "     22/M01 A3012 "]) =
    [Py.join " "
       (map Py.strip
          (List.filter (fun i => negb (is_blank i))
             ("KDEN 121753Z 01010KT" :: ["     10SM FEW050"; "  ";
                                         "     22/M01 A3012 "])))]
  /\ full_metars ["KDEN 121753Z 01010KT"; "     10SM FEW050"; "  ";
                  "     22/M01 A3012 "] =
       ["KDEN 121753Z 01010KT 10SM FEW050 22/M01 A3012"].
Proof.
  split.
  - apply (report_of_block "KDEN 121753Z 01010KT"
             ["     10SM FEW050"; "  "; "     22/M01 A3012 "]).
    + vm_compute. reflexivity.
    + apply List.Forall_cons; [right; vm_compute; reflexivity |].
      apply List.Forall_cons; [left; vm_compute; reflexivity |].
      apply List.Forall_cons; [right; vm_compute; reflexivity |].
      apply List.Forall_nil.
  - vm_compute. reflexivity.
Defined.

(** *** The words of the reports *)

Lemma split_l_space c r : Py.isspace c = true -> forall l cur,
  Py.split_l cur (l ++ c :: r) = Py.split_l cur l ++ Py.split_l [] r.
Proof.
  intros Hc. induction l as [|a l IH]; intros cur.
  - simpl. rewrite Hc. destruct cur; reflexivity.
  - simpl. destruct (Py.isspace a).
    + destruct cur; rewrite IH; reflexivity.
    + apply IH.
Qed.

Lemma split_l_blank b : forallb Py.isspace b = true -> Py.split_l [] b = [].
Proof.
  induction b as [|c b IH]; simpl; [reflexivity |].
  intros H. apply andb_prop in H as [-> H]. auto.
Qed.

Lemma split_l_blank_tail b : forallb Py.isspace b = true -> forall l cur,
  Py.split_l cur (l ++ b) = Py.split_l cur l.
Proof.
  destruct b as [|c b]; intros H l cur.
  - rewrite app_nil_r. reflexivity.
  - simpl in H. apply andb_prop in H as [Hc H].
    rewrite (split_l_space c b Hc), (split_l_blank b H). apply app_nil_r.
Qed.

Lemma split_l_blank_head a l :
  forallb Py.isspace a = true -> Py.split_l [] (a ++ l) = Py.split_l [] l.
Proof.
  induction a as [|c a IH]; simpl; [reflexivity |].
  intros H. apply andb_prop in H as [-> H]. auto.
Qed.

Lemma split_strip text : Py.split (Py.strip text) = Py.split text.
Proof.
  unfold Py.split, Py.strip. rewrite chars_str. f_equal.
  destruct (strip_l_decomp (Py.chars text)) as (a & b & Ha & Hb & E).
  assert (H : Py.split_l [] (a ++ Py.strip_l (Py.chars text) ++ b) =
              Py.split_l [] (Py.strip_l (Py.chars text))).
  { rewrite (split_l_blank_head a _ Ha). apply split_l_blank_tail, Hb. }
  rewrite <- E in H. symmetry. exact H.
Qed.

Lemma split_blank_line line : is_blank line = true -> Py.split line = [].
Proof.
  unfold is_blank. intros H. apply String.eqb_eq in H.
  rewrite <- split_strip, H. reflexivity.
Qed.

Lemma split_l_join parts :
  Py.split_l [] (Py.join_l [" "%char] parts) =
    concat (map (Py.split_l []) parts).
Proof.
  induction parts as [|p parts IH]; [reflexivity |].
  destruct parts as [|q parts].
  - simpl. symmetry. apply app_nil_r.
  - change (Py.join_l [" "%char] (p :: q :: parts))
      with (p ++ " "%char :: Py.join_l [" "%char] (q :: parts)).
    rewrite (split_l_space " " _ eq_refl), IH. reflexivity.
Qed.

Lemma split_join parts : Py.split (Py.join " " parts) = words parts.
Proof.
  unfold Py.split, Py.join, words. rewrite chars_str.
  change (Py.chars " ") with [" "%char].
  rewrite split_l_join, concat_map, !map_map. reflexivity.
Qed.

Lemma words_app a b : words (a ++ b) = words a ++ words b.
Proof. unfold words. rewrite map_app. apply concat_app. Qed.

Lemma words_from prefix : forall x tmp,
  words (full_metars_from prefix tmp x) = words tmp ++ words x.
Proof.
  induction x as [|i x IH]; intros tmp.
  - simpl. destruct tmp as [|a tmp]; [reflexivity |].
    unfold words at 1. cbn [map concat].
    rewrite split_join, !app_nil_r. reflexivity.
  - change (words (i :: x)) with (Py.split i ++ words x).
    destruct (is_blank i) eqn:Bi.
    + rewrite (full_metars_from_blank _ _ _ _ Bi), IH.
      rewrite (split_blank_line _ Bi). reflexivity.
    + assert (Hmore : words (full_metars_from prefix (tmp ++ [Py.strip i]) x)
                      = words tmp ++ Py.split i ++ words x).
      { rewrite IH, words_app, <- app_assoc. f_equal.
        unfold words at 1. cbn [map concat].
        rewrite split_strip, app_nil_r. reflexivity. }
      destruct (Py.startswith i prefix) eqn:Pi.
      * rewrite (full_metars_from_more _ _ _ _ Bi (or_introl Pi)).
        exact Hmore.
      * destruct tmp as [|a tmp].
        -- rewrite (full_metars_from_more _ [] _ _ Bi (or_intror eq_refl)).
           exact Hmore.
        -- rewrite (full_metars_from_new _ (a :: tmp) _ _ Bi Pi)
             by discriminate.
           change (words (Py.join " " (a :: tmp)
                          :: full_metars_from prefix [Py.strip i] x))
             with (Py.split (Py.join " " (a :: tmp))
                   ++ words (full_metars_from prefix [Py.strip i] x)).
           rewrite split_join, IH. f_equal. f_equal.
           unfold words at 1. cbn [map concat].
           rewrite split_strip, app_nil_r. reflexivity.
Qed.

(** X15.  Merging the lines of a file into reports loses and adds
    nothing: the words of the reports are the words of the lines, in the
    same order. *)
Theorem full_metars_words (x : list string) :
  words (full_metars x) = words x.
Proof. unfold full_metars. apply (words_from "     " x []). Qed.

(** *** The shape of a report *)

Lemma lstrip_l_nonspace l :
  Py.lstrip_l l = [] \/ starts_nonspace (Py.lstrip_l l).
Proof.
  induction l as [|c l IH]; simpl; [left; reflexivity |].
  destruct (Py.isspace c) eqn:Hc; [exact IH | right; exact Hc].
Qed.

Lemma strip_l_clean l : Py.strip_l l <> [] -> clean (Py.strip_l l).
Proof.
  unfold Py.strip_l, clean. intros Hne. rewrite rev_involutive.
  pose proof (lstrip_l_nonspace l) as Hm.
  generalize dependent (Py.lstrip_l l). intros m Hne Hm.
  destruct (lstrip_l_nonspace (rev m)) as [E | Hk].
  { rewrite E in Hne. contradiction Hne. reflexivity. }
  split; [| exact Hk].
  destruct (lstrip_l_decomp (rev m)) as (ws & _ & E).
  apply (f_equal (@rev ascii)) in E.
  rewrite rev_involutive, rev_app_distr in E.
  revert Hne E. destruct (rev (Py.lstrip_l (rev m))) as [|a k]; intros Hne E;
    [contradiction Hne; reflexivity |].
  destruct Hm as [Em | Hm].
  - rewrite Em in E. discriminate E.
  - rewrite E in Hm. exact Hm.
Qed.

Lemma clean_strip l : clean l -> Py.strip_l l = l.
Proof. intros [Hs Hr]. exact (strip_l_core [] l eq_refl Hs Hr). Qed.

Lemma clean_join sep : forall parts,
  parts <> [] -> Forall clean parts -> clean (Py.join_l sep parts).
Proof.
  induction parts as [|p parts IH]; intros Hne Hall; [contradiction |].
  pose proof (List.Forall_inv Hall) as [Hs Hr].
  pose proof (List.Forall_inv_tail Hall) as Hrest.
  destruct parts as [|q parts]; [split; assumption |].
  change (Py.join_l sep (p :: q :: parts))
    with (p ++ sep ++ Py.join_l sep (q :: parts)).
  destruct (IH ltac:(discriminate) Hrest) as [_ Hj].
  split.
  - apply starts_nonspace_app, Hs.
  - rewrite !rev_app_distr, <- app_assoc. apply starts_nonspace_app, Hj.
Qed.

Lemma clean_stripped l : clean l -> stripped (Py.str l).
Proof.
  intros H. split.
  - destruct l as [|c l]; [destruct H as [[] _] | discriminate].
  - unfold Py.strip. rewrite chars_str, (clean_strip _ H). reflexivity.
Qed.

Lemma strip_clean line :
  is_blank line = false -> clean (Py.chars (Py.strip line)).
Proof.
  unfold is_blank, Py.strip. intros H. rewrite chars_str.
  apply strip_l_clean. intros E. rewrite E in H. discriminate H.
Qed.

Lemma join_stripped tmp :
  tmp <> [] -> Forall (fun s => clean (Py.chars s)) tmp ->
  stripped (Py.join " " tmp).
Proof.
  intros Hne Hall. unfold Py.join. apply clean_stripped, clean_join.
  - destruct tmp; [contradiction | discriminate].
  - apply List.Forall_forall. intros l Hl.
    apply in_map_iff in Hl as (s & <- & Hs).
    rewrite List.Forall_forall in Hall. exact (Hall s Hs).
Qed.

Lemma stripped_from prefix : forall x tmp,
  Forall (fun s => clean (Py.chars s)) tmp ->
  Forall stripped (full_metars_from prefix tmp x).
Proof.
  induction x as [|i x IH]; intros tmp Hall.
  - simpl. destruct tmp as [|a tmp]; [apply List.Forall_nil |].
    apply List.Forall_cons; [| apply List.Forall_nil].
    apply join_stripped; [discriminate | exact Hall].
  - destruct (is_blank i) eqn:Bi.
    + rewrite (full_metars_from_blank _ _ _ _ Bi). apply IH, Hall.
    + assert (Hmore : Forall (fun s => clean (Py.chars s))
                        (tmp ++ [Py.strip i])).
      { apply List.Forall_app. split; [exact Hall |].
        apply List.Forall_cons; [apply strip_clean, Bi | apply List.Forall_nil]. }
      destruct (Py.startswith i prefix) eqn:Pi.
      * rewrite (full_metars_from_more _ _ _ _ Bi (or_introl Pi)).
        apply IH, Hmore.
      * destruct tmp as [|a tmp].
        -- rewrite (full_metars_from_more _ [] _ _ Bi (or_intror eq_refl)).
           apply IH, Hmore.
        -- rewrite (full_metars_from_new _ (a :: tmp) _ _ Bi Pi)
             by discriminate.
           apply List.Forall_cons.
           ++ apply join_stripped; [discriminate | exact Hall].
           ++ apply IH. apply List.Forall_cons;
                [apply strip_clean, Bi | apply List.Forall_nil].
Qed.

(** X16.  No report of a file is empty, and none begins or ends with
    white space: stripping a report leaves it as it is. *)
Theorem full_metars_stripped (x : list string) :
  Forall stripped (full_metars x).
Proof. unfold full_metars. apply stripped_from, List.Forall_nil. Qed.

(** ** A batch of reports *)

Lemma year_month_default now year month :
  year_month now year month =
    (default (dt_year now) year, default (dt_month now) month).
Proof. destruct year, month; reflexivity. Qed.

Lemma accepted_cons parse wx_code_map stations report rest year month :
  accepted parse wx_code_map stations (report :: rest) year month =
    match parse_metar parse wx_code_map report year month stations with
    | Ok o => [o]
    | Raise _ => []
    end ++ accepted parse wx_code_map stations rest year month.
Proof. reflexivity. Qed.

Lemma parse_each_Ok parse wx_code_map stations year month :
  forall reports rs,
  parse_each parse wx_code_map stations reports year month = Ok rs <->
  Forall (survives parse wx_code_map stations year month) reports /\
  rs = accepted parse wx_code_map stations reports year month.
Proof.
  induction reports as [|s rest IH]; intros rs.
  - simpl. split.
    + intros [= <-]. split; [apply List.Forall_nil | reflexivity].
    + intros [_ ->]. reflexivity.
  - rewrite accepted_cons. cbn [parse_each].
    destruct (parse_metar parse wx_code_map s year month stations)
      as [o|e] eqn:E.
    + split.
      * intros H. apply bind_Ok in H as (metars & Hrest & [= <-]).
        apply IH in Hrest as [Hall ->].
        split; [| reflexivity].
        apply List.Forall_cons; [| exact Hall].
        intros e He. rewrite E in He. discriminate He.
      * intros [Hall ->].
        pose proof (List.Forall_inv_tail Hall) as Hrest.
        destruct (IH (accepted parse wx_code_map stations rest year month))
          as [_ Hback].
        rewrite (Hback (conj Hrest eq_refl)). reflexivity.
    + assert (Hs : e = ParseError ->
                   survives parse wx_code_map stations year month s).
      { intros -> e' He'. rewrite E in He'. injection He' as <-. reflexivity. }
      assert (Hn : e <> ParseError ->
                   ~ Forall (survives parse wx_code_map stations year month)
                       (s :: rest)).
      { intros Hne Hall. apply Hne.
        exact (List.Forall_inv Hall e E). }
      destruct e;
        try (split; [discriminate |
                     intros [Hall _]; exfalso;
                     exact (Hn ltac:(discriminate) Hall)]).
      rewrite IH. cbn [app]. split.
      * intros [Hall ->]. split; [| reflexivity].
        apply List.Forall_cons; [apply Hs; reflexivity | exact Hall].
      * intros [Hall ->]. split; [| reflexivity].
        exact (List.Forall_inv_tail Hall).
Qed.

Lemma parse_each_Raise parse wx_code_map stations year month e :
  forall reports,
  parse_each parse wx_code_map stations reports year month = Raise e <->
  exists before report after,
    reports = before ++ report :: after /\
    Forall (survives parse wx_code_map stations year month) before /\
    parse_metar parse wx_code_map report year month stations = Raise e /\
    e <> ParseError.
Proof.
  induction reports as [|s rest IH].
  - simpl. split; [discriminate |].
    intros (before & report & after & H & _). destruct before; discriminate H.
  - cbn [parse_each].
    assert (Hlater :
      survives parse wx_code_map stations year month s ->
      (forall e', parse_metar parse wx_code_map s year month stations
                  = Raise e' -> e' = ParseError) ->
      parse_each parse wx_code_map stations rest year month = Raise e <->
      exists before report after,
        s :: rest = before ++ report :: after /\
        Forall (survives parse wx_code_map stations year month) before /\
        parse_metar parse wx_code_map report year month stations = Raise e /\
        e <> ParseError).
    { intros Hs Hnot. rewrite IH. split.
      - intros (before & report & after & -> & Hall & Hr & Hne).
        exists (s :: before), report, after.
        split; [reflexivity |].
        split; [apply List.Forall_cons; assumption |].
        split; assumption.
      - intros (before & report & after & Heq & Hall & Hr & Hne).
        destruct before as [|b before].
        + injection Heq as <- _. exfalso. exact (Hne (Hnot e Hr)).
        + injection Heq as <- ->.
          exists before, report, after.
          split; [reflexivity |].
          split; [exact (List.Forall_inv_tail Hall) |].
          split; assumption. }
    destruct (parse_metar parse wx_code_map s year month stations)
      as [o|e0] eqn:E.
    + assert (Hs : survives parse wx_code_map stations year month s).
      { intros e' He'. rewrite E in He'. discriminate He'. }
      rewrite <- (Hlater Hs ltac:(discriminate)).
      destruct (parse_each parse wx_code_map stations rest year month);
        simpl; split; congruence.
    + assert (Hfirst : e0 <> ParseError ->
        Raise e0 = @Raise (list Metar) e <->
        exists before report after,
          s :: rest = before ++ report :: after /\
          Forall (survives parse wx_code_map stations year month) before /\
          parse_metar parse wx_code_map report year month stations = Raise e /\
          e <> ParseError).
      { intros Hne0. split.
        - intros [= <-]. exists [], s, rest.
          split; [reflexivity |].
          split; [apply List.Forall_nil |].
          split; assumption.
        - intros (before & report & after & Heq & Hall & Hr & Hne).
          destruct before as [|b before].
          + injection Heq as <- _. rewrite E in Hr.
            injection Hr as Hr. rewrite Hr. reflexivity.
          + injection Heq as <- ->. exfalso. apply Hne0.
            exact (List.Forall_inv Hall e0 E). }
      destruct e0; try (apply Hfirst; discriminate).
      apply Hlater.
      * intros e' He'. rewrite E in He'. injection He' as <-. reflexivity.
      * intros e' He'. injection He' as <-. reflexivity.
Qed.

Lemma metars_loop_each parse wx_code_map stations now reports year month :
  metars_loop parse wx_code_map stations now reports year month =
    parse_each parse wx_code_map stations reports
               (default (dt_year now) year) (default (dt_month now) month).
Proof. unfold metars_loop. rewrite year_month_default. reflexivity. Qed.

(** X17.  The outcome of a batch, with the year and the month that are
    missing taken from the clock.  Its loop ends with a list of records
    exactly when every report is decoded or rejected by the parser, and
    the list then holds the records of the decoded reports, in order; it
    ends with an exception exactly when that exception, which is not the
    parser's, is raised by a report before which every report is decoded
    or rejected.  An exception of the loop is the outcome of the batch;
    when the loop leaves no record the batch raises [KeyError]; otherwise
    the batch is the table made of the records. *)
Theorem batch_outcome parse wx_code_map stations
    (DataFrame : Type) (table_of : list Metar -> result DataFrame)
    now reports year month :
  let y := default (dt_year now) year in
  let m := default (dt_month now) month in
  (forall rs,
     metars_loop parse wx_code_map stations now reports year month
       = Ok rs <->
     Forall (survives parse wx_code_map stations y m) reports /\
     rs = accepted parse wx_code_map stations reports y m) /\
  (forall e,
     metars_loop parse wx_code_map stations now reports year month
       = Raise e <->
     exists before report after,
       reports = before ++ report :: after /\
       Forall (survives parse wx_code_map stations y m) before /\
       parse_metar parse wx_code_map report y m stations = Raise e /\
       e <> ParseError) /\
  (forall e,
     metars_loop parse wx_code_map stations now reports year month
       = Raise e ->
     metars_to_dataframe parse wx_code_map stations DataFrame table_of
                         now reports year month = Raise e) /\
  (Forall (survives parse wx_code_map stations y m) reports ->
   metars_to_dataframe parse wx_code_map stations DataFrame table_of
                       now reports year month =
     match accepted parse wx_code_map stations reports y m with
     | [] => Raise KeyError
     | rs => table_of rs
     end).
Proof.
  intros y m. rewrite metars_loop_each. fold y m.
  split; [intros rs; apply parse_each_Ok |].
  split; [intros e; apply parse_each_Raise |].
  split.
  - intros e He. unfold metars_to_dataframe.
    rewrite metars_loop_each. fold y m. rewrite He. reflexivity.
  - intros Hall. unfold metars_to_dataframe.
    rewrite metars_loop_each. fold y m.
    destruct (parse_each_Ok parse wx_code_map stations y m reports
                (accepted parse wx_code_map stations reports y m))
      as [_ Hback].
    rewrite (Hback (conj Hall eq_refl)). cbn [mbind result_bind].
    destruct (accepted parse wx_code_map stations reports y m); reflexivity.
Qed.

Lemma accepted_In parse wx_code_map stations year month o :
  forall reports,
  In o (accepted parse wx_code_map stations reports year month) ->
  exists report,
    In report reports /\
    parse_metar parse wx_code_map report year month stations = Ok o.
Proof.
  unfold accepted. intros reports H.
  apply in_flat_map in H as (report & Hin & Ho).
  exists report. split; [exact Hin |].
  destruct (parse_metar parse wx_code_map report year month stations)
    as [o'|e]; [| destruct Ho].
  destruct Ho as [-> | []]. reflexivity.
Qed.

Lemma loop_records_In parse wx_code_map stations now reports year month rs :
  metars_loop parse wx_code_map stations now reports year month = Ok rs ->
  forall o, In o rs ->
  exists report,
    In report reports /\
    parse_metar parse wx_code_map report (default (dt_year now) year)
                (default (dt_month now) month) stations = Ok o.
Proof.
  rewrite metars_loop_each.
  intros H o Ho. apply parse_each_Ok in H as [_ ->].
  exact (accepted_In _ _ _ _ _ _ _ Ho).
Qed.

(** A table that the batch returns is made of the records of its loop,
    and there is one at least. *)
Lemma dataframe_Ok parse wx_code_map stations
    (DataFrame : Type) (table_of : list Metar -> result DataFrame)
    now reports year month df :
  metars_to_dataframe parse wx_code_map stations DataFrame table_of
                      now reports year month = Ok df ->
  exists rs,
    metars_loop parse wx_code_map stations now reports year month = Ok rs /\
    rs <> [] /\ table_of rs = Ok df.
Proof.
  unfold metars_to_dataframe. intros H.
  apply bind_Ok in H as (rs & Hl & H).
  exists rs. split; [exact Hl |].
  destruct rs as [|o rs]; [discriminate H |].
  split; [discriminate | exact H].
Qed.

Lemma loop_dates parse wx_code_map stations now reports year month rs :
  metars_loop parse wx_code_map stations now reports year month = Ok rs ->
  Forall (fun o =>
            date_time o = nan \/
            exists d, date_time o = VDatetime d /\
                      dt_year d = default (dt_year now) year /\
                      dt_month d = default (dt_month now) month)
         rs.
Proof.
  intros H. apply List.Forall_forall. intros o Ho.
  destruct (loop_records_In _ _ _ _ _ _ _ _ H o Ho) as (report & _ & Hp).
  apply parse_metar_Ok in Hp as (t & _ & Hd).
  apply decode_Ok in Hd as (_ & _ & Hd & _).
  apply date_time_block_valid in Hd as [Hd | (d & Hd & Hy & Hm & _)].
  - left. exact Hd.
  - right. exists d. split; [exact Hd | split; assumption].
Qed.

(** X18.  Every record of a batch has a missing date or a date in the year
    and the month of the call; the year or the month that the call leaves
    out is that of the clock.  This holds of the records that the loop
    leaves, and a table that the batch returns is made of such records. *)
Theorem batch_dates parse wx_code_map stations
    (DataFrame : Type) (table_of : list Metar -> result DataFrame)
    now reports year month :
  let dated (o : Metar) :=
    date_time o = nan \/
    exists d, date_time o = VDatetime d /\
              dt_year d = default (dt_year now) year /\
              dt_month d = default (dt_month now) month in
  (forall rs,
     metars_loop parse wx_code_map stations now reports year month
       = Ok rs ->
     Forall dated rs) /\
  (forall df,
     metars_to_dataframe parse wx_code_map stations DataFrame table_of
                         now reports year month = Ok df ->
     exists rs, rs <> [] /\ table_of rs = Ok df /\ Forall dated rs).
Proof.
  intros dated. split.
  - intros rs H. exact (loop_dates _ _ _ _ _ _ _ _ H).
  - intros df H.
    apply dataframe_Ok in H as (rs & Hl & Hne & Ht).
    exists rs. split; [exact Hne |]. split; [exact Ht |].
    exact (loop_dates _ _ _ _ _ _ _ _ Hl).
Qed.

Lemma batch_dates_witness :
  Forall (fun o =>
            date_time o = nan \/
            exists d, date_time o = VDatetime d /\
                      dt_year d = default (dt_year sample_now) None /\
                      dt_month d = default (dt_month sample_now) (Some 5%Z))
         sample_batch
  /\ map date_time sample_batch = [VDatetime (Datetime 2026 5 12 12 53)].
Proof.
  split.
  - destruct (batch_dates sample_parse sample_wx_code_map sample_stations
                (list Metar) sample_table_of
                sample_now [sample_text] None (Some 5%Z)) as [H _].
    apply (H sample_batch). vm_compute. reflexivity.
  - vm_compute. reflexivity.
Defined.

(** ** The records of a file *)

(** X19.  A table read from a file is made of records, one at least, each
    of which is the record of a report of the file that is longer than 25
    characters: a shorter report is never decoded. *)
Theorem file_records parse wx_code_map stations
    (DataFrame : Type) (table_of : list Metar -> result DataFrame)
    now myfile year month df :
  parse_metar_file parse wx_code_map stations DataFrame table_of
                   now myfile year month = Ok df ->
  exists rs,
    rs <> [] /\ table_of rs = Ok df /\
    Forall (fun o =>
              exists report,
                In report (full_metars myfile) /\ (25 < Py.len report)%nat /\
                parse_metar parse wx_code_map report
                            (default (dt_year now) year)
                            (default (dt_month now) month) stations = Ok o)
           rs.
Proof.
  unfold parse_metar_file. intros H.
  apply dataframe_Ok in H as (rs & Hl & Hne & Ht).
  exists rs. split; [exact Hne |]. split; [exact Ht |].
  apply List.Forall_forall. intros o Ho.
  destruct (loop_records_In _ _ _ _ _ _ _ _ Hl o Ho) as (report & Hin & Hp).
  apply List.filter_In in Hin as [Hin Hlen].
  exists report. split; [exact Hin |]. split; [| exact Hp].
  apply Nat.ltb_lt, Hlen.
Qed.

Lemma file_records_witness :
  exists rs,
    rs <> [] /\ sample_table_of rs = Ok sample_batch /\
    Forall (fun o =>
              exists report,
                In report
                   (full_metars
                      ["KDEN 121253Z 28015KT 1 1/4SM -RA BR";
                       "     FEW050 OVC100 M05/M07 A2992"; "KSLC 121253Z"]) /\
                (25 < Py.len report)%nat /\
                parse_metar sample_parse sample_wx_code_map report
                            (default (dt_year sample_now) None)
                            (default (dt_month sample_now) (Some 5%Z))
                            sample_stations = Ok o)
           rs.
Proof.
  apply (file_records sample_parse sample_wx_code_map sample_stations
           (list Metar) sample_table_of sample_now
           ["KDEN 121253Z 28015KT 1 1/4SM -RA BR";
            "     FEW050 OVC100 M05/M07 A2992"; "KSLC 121253Z"]
           None (Some 5%Z) sample_batch).
  vm_compute. reflexivity.
Defined.

Lemma metars_to_dataframe_nil parse wx_code_map stations
    (DataFrame : Type) (table_of : list Metar -> result DataFrame)
    now year month :
  metars_to_dataframe parse wx_code_map stations DataFrame table_of
                      now [] year month = Raise KeyError.
Proof.
  unfold metars_to_dataframe. rewrite metars_loop_each. reflexivity.
Qed.

(** X20.  Reading a file of one line is parsing the stripped line as a
    single report when it is longer than 25 characters; otherwise no
    report is decoded and the table, which is made of no record, raises
    [KeyError]. *)
Theorem one_line_file parse wx_code_map stations
    (DataFrame : Type) (table_of : list Metar -> result DataFrame)
    now line year month :
  parse_metar_file parse wx_code_map stations DataFrame table_of
                   now [line] year month =
    if (25 <? Py.len (Py.strip line))%nat
    then parse_metar_to_dataframe parse wx_code_map stations
                                  DataFrame table_of
                                  now (Py.strip line) year month
    else Raise KeyError.
Proof.
  unfold parse_metar_file, parse_metar_to_dataframe, full_metars.
  destruct (is_blank line) eqn:Bl.
  - rewrite (full_metars_from_blank _ _ _ _ Bl).
    unfold is_blank in Bl. apply String.eqb_eq in Bl. rewrite Bl.
    cbn [full_metars_from List.filter].
    change (25 <? Py.len "")%nat with false. cbv iota.
    apply metars_to_dataframe_nil.
  - rewrite (full_metars_from_more _ [] _ _ Bl (or_intror eq_refl)).
    cbn [app full_metars_from]. rewrite join_single.
    cbn [List.filter].
    destruct (25 <? Py.len (Py.strip line))%nat;
      [reflexivity | apply metars_to_dataframe_nil].
Qed.

(** ** Groups that are written with digits *)

Lemma digit_head_name c l name :
  Py.isdigit c = true -> In name ["inf"; "infinity"; "nan"]%string ->
  (Py.str (map Py.lower (c :: l)) =? name)%string = false.
Proof.
  intros Hc Hin. apply String.eqb_neq. intros E.
  assert (Hl : Py.lower c = "i"%char \/ Py.lower c = "n"%char).
  { destruct Hin as [<- | [<- | [<- | []]]]; injection E as E _; tauto. }
  clear E Hin. revert Hc Hl.
  destruct c as [[] [] [] [] [] [] [] []]; vm_compute;
    intros Hc [Hl | Hl]; solve [discriminate Hc | discriminate Hl].
Qed.

Lemma span_digits_all d :
  forallb Py.isdigit d = true -> Py.span_digits d = (d, []).
Proof.
  induction d as [|c d IH]; simpl; [reflexivity |].
  intros H. apply andb_prop in H as [-> H]. rewrite (IH H). reflexivity.
Qed.

Lemma Qred_integer z : Qred (z # 1) = z # 1.
Proof.
  unfold Qred.
  pose proof (Z.ggcd_gcd z 1) as Hg.
  pose proof (Z.ggcd_correct_divisors z 1) as Hd.
  destruct (Z.ggcd z 1) as [g [a b]]. simpl in Hg, Hd.
  rewrite Z.gcd_1_r in Hg. subst g. destruct Hd as [Ha Hb].
  rewrite !Z.mul_1_l in *. subst a b. reflexivity.
Qed.

(** [float] reads a text of digits as the number it writes. *)
Lemma float_l_digits d :
  Py.all_digits d = true ->
  Py.float_l d = Some (Py.Fnum (Py.digits_value d # 1)).
Proof.
  intros H. unfold Py.float_l.
  rewrite (strip_num_l_same d (all_digits_starts _ H)
             (all_digits_starts _ (all_digits_rev _ H))).
  destruct (all_digits_cons _ H) as (c & l' & -> & Hc & Hl').
  assert (Hall : forallb Py.isdigit (c :: l') = true)
    by (simpl; rewrite Hc, Hl'; reflexivity).
  rewrite (unders_digits _ zero Hall eq_refl).
  destruct (digit_is_plain _ Hc) as (_ & _ & _ & Hu & Hm & Hp).
  unfold Py.sign_l. rewrite Hm, Hp.
  rewrite !(digit_head_name c l' _ Hc) by (simpl; tauto).
  cbn [orb]. unfold Py.decimal_l.
  rewrite (span_digits_all _ Hall), app_nil_r.
  cbn [Py.exponent_l List.length]. do 2 f_equal.
  transitivity (Qred (Py.digits_value (c :: l') # 1));
    [| apply Qred_integer].
  apply Qred_complete.
  change (Py.pow10 (0 - Z.of_nat 0)) with (1 # 1)%Q.
  apply Qmult_1_r.
Qed.

Lemma float_digits s :
  digits s -> float s = Ok (Py.Fnum (number s # 1)).
Proof.
  intros H. unfold float, Py.float_of. rewrite (float_l_digits _ H).
  reflexivity.
Qed.

Lemma digits_no_slash s : digits s -> Py.contains "/" s = false.
Proof.
  intros H. unfold Py.contains. change (Py.chars "/") with ["/"%char].
  apply not_contains_char. intros c Hc.
  apply digit_is_plain. exact (all_digits_In _ _ H Hc).
Qed.

Lemma fmul_integers a b :
  Py.fmul (Py.Fnum (a # 1)) (Py.of_int b) = Py.Fnum (b * a # 1).
Proof.
  unfold Py.fmul, Py.of_int. f_equal.
  transitivity (Qred (b * a # 1)); [| apply Qred_integer].
  apply Qred_complete. unfold Qeq, Qmult. simpl. lia.
Qed.

(** *** The height of a sky layer *)

Lemma sky_level_digits (layers : list string) i layer :
  layers !! i = Some layer -> digits (Py.slice_from 3 layer) ->
  sky_level layers i =
    Ok (VFloat (Py.Fnum (100 * number (Py.slice_from 3 layer) # 1))).
Proof.
  intros Hi Hd. unfold sky_level, index. rewrite Hi.
  cbn [or_raise mbind result_bind].
  rewrite (digits_no_slash _ Hd), (float_digits _ Hd).
  cbn [mbind result_bind try_except]. rewrite fmul_integers. reflexivity.
Qed.

Lemma sky_level_not_numeric (layers : list string) i layer c :
  layers !! i = Some layer ->
  In c (Py.chars (Py.slice_from 3 layer)) -> numeric_char c = false ->
  sky_level layers i = Ok nan.
Proof.
  intros Hi Hc Hn. unfold sky_level, index. rewrite Hi.
  cbn [or_raise mbind result_bind].
  destruct (Py.contains "/" _); [reflexivity |].
  unfold float.
  destruct (Py.float_of (Py.slice_from 3 layer)) as [f|] eqn:Hf.
  - rewrite (float_numeric _ _ Hf c Hc) in Hn. discriminate Hn.
  - reflexivity.
Qed.

(** X21.  The height of a layer of a sky group that is not a vertical
    visibility is read from what follows the first three characters of
    its token: digits give 100 times the number they write; a character
    that cannot occur in a number, as in the cloud type of BKN050CB,
    leaves the height missing. *)
Theorem sky_layer_heights
    parse wx_code_map text year month stations t o i layer :
  parse text = Some t ->
  parse_metar parse wx_code_map text year month stations = Ok o ->
  Py.slice 1 3 (skyc t) <> "VV" ->
  (i < 4)%nat -> Py.split (Py.strip (skyc t)) !! i = Some layer ->
  let height := nth i [skylev1 o; skylev2 o; skylev3 o; skylev4 o] nan in
  let rest := Py.slice_from 3 layer in
  (digits rest -> height = VFloat (Py.Fnum (100 * number rest # 1))) /\
  ((exists c, In c (Py.chars rest) /\ numeric_char c = false) ->
   height = nan).
Proof.
  intros Ht H Hvv Hi Hl height rest. decoded H Ht.
  destruct H as (_ & _ & _ & _ & _ & _ & Hs & _).
  pose proof (sky_block_layers _ _ _ _ _ _ _ _ _ Hvv Hs) as Hb.
  cbv zeta in Hb. destruct Hb as (_ & L1 & _ & L2 & _ & L3 & _ & L4).
  assert (Hh : sky_level (Py.split (Py.strip (skyc t))) i = Ok height).
  { subst height.
    destruct i as [|[|[|[|i]]]]; [exact L1 | exact L2 | exact L3 | exact L4 |].
    lia. }
  split.
  - intros Hd. rewrite (sky_level_digits _ _ _ Hl Hd) in Hh.
    injection Hh as <-. reflexivity.
  - intros (c & Hc & Hn).
    rewrite (sky_level_not_numeric _ _ _ _ Hl Hc Hn) in Hh.
    injection Hh as <-. reflexivity.
Qed.

Lemma sky_layer_heights_witness :
  Py.slice 1 3 " FEW050 BKN100CB" <> "VV" /\
  exists o,
    parse_metar (fun _ => Some (with_skyc sample_tree " FEW050 BKN100CB"))
                sample_wx_code_map sample_text 2020 5 sample_stations
      = Ok o /\
    skylev1 o = VFloat (Py.Fnum 5000) /\ skylev2 o = nan.
Proof.
  split; [vm_compute; discriminate |].
  destruct (parse_metar
              (fun _ => Some (with_skyc sample_tree " FEW050 BKN100CB"))
              sample_wx_code_map sample_text 2020 5 sample_stations)
    as [o|e] eqn:E; [| vm_compute in E; discriminate E].
  exists o. split; [reflexivity |].
  split.
  - apply (sky_layer_heights
             (fun _ => Some (with_skyc sample_tree " FEW050 BKN100CB"))
             sample_wx_code_map sample_text 2020 5 sample_stations
             (with_skyc sample_tree " FEW050 BKN100CB") o 0 "FEW050");
      try reflexivity; try exact E; try (vm_compute; (discriminate || lia)).
  - apply (sky_layer_heights
             (fun _ => Some (with_skyc sample_tree " FEW050 BKN100CB"))
             sample_wx_code_map sample_text 2020 5 sample_stations
             (with_skyc sample_tree " FEW050 BKN100CB") o 1 "BKN100CB");
      try reflexivity; try exact E; try (vm_compute; (discriminate || lia)).
    exists "C"%char. split; [vm_compute; tauto | reflexivity].
Defined.
